(** * xspec_emcee: the resumable MCMC driver, embedded and verified

    A shallow embedding of [xspec_emcee.py]: the initial-state builder
    ([getInitialParameters]), the host-list expansion ([expandSystems]), the
    checkpointed sampling loop ([doMCMC]), the text exporter
    ([writeXSpecChain]) and the checkpoint writer ([writeNpz]).

    Conventions.
    - Python integers are [Z]; array shapes are [nat].
    - numpy arrays carry their shape next to their contents, because a
      nested list alone forgets the trailing dimensions of an empty array.
    - Array elements live in a carrier [F] with the few float operations the
      driver uses (class [Num]); no law is assumed about them unless a
      theorem says so.
    - A Python exception is a value of [exn]; a call that can raise returns
      a [result].
    - numpy, emcee, the evaluation pool, the wall clock and the keyboard
      interrupt are external: they are fields of [env].
    - Files are a finite map from names to contents; every [open], [write]
      and [savez] is also logged, in order, in a trace.  Console output
      ([print]) is left out, and so are failures of the file system while
      writing.
    - [main], which only parses the command line and calls [doMCMC], is
      left out. *)

From Stdlib Require Import String Ascii DecimalString List ZArith Lia Bool Arith.
Import ListNotations.

Set Implicit Arguments.

(* ------------------------------------------------------------------ *)
(** ** Exceptions and results *)

Inductive exn : Type :=
| IndexError
| ValueError
| IOError
| KeyError
| AssertionError
| PoolError.

Inductive result (A : Type) : Type :=
| Ok (a : A)
| Raise (e : exn).

Arguments Ok {A} a.
Arguments Raise {A} e.

Definition rbind {A B} (r : result A) (k : A -> result B) : result B :=
  match r with
  | Ok a => k a
  | Raise e => Raise e
  end.

Declare Scope res_scope.
Delimit Scope res_scope with res.
Notation "'do' x <- c ; k" := (rbind c (fun x => k))
  (at level 10, x pattern, c at level 100, k at level 200) : res_scope.

Definition is_ok {A} (r : result A) : bool :=
  match r with Ok _ => true | Raise _ => false end.

(* ------------------------------------------------------------------ *)
(** ** The numeric carrier *)

(** The operations of numpy's float64 that the driver applies to array
    elements.  [fle] and [flt] are [<=] and [<]; [fmul] is [*]; [fneg] is
    unary minus; [fpow] is [**]; [ftenth], [ftwo] and [ften] are the
    literals [0.1], [2] and [10]; [fmt_g] is the ["%g"] conversion. *)
Class Num (F : Type) : Type := {
  fzero : F;
  ftenth : F;
  ftwo : F;
  ften : F;
  fneg : F -> F;
  fmul : F -> F -> F;
  fpow : F -> F -> F;
  fle : F -> F -> bool;
  flt : F -> F -> bool;
  fmt_g : F -> string
}.

(* ------------------------------------------------------------------ *)
(** ** Lists the way Python indexes them *)

(** An index [i] into a sequence of length [n]: negative indices count
    from the end, anything outside [-n .. n-1] raises [IndexError]. *)
Definition norm_index (n : nat) (i : Z) : result nat :=
  if ((0 <=? i) && (i <? Z.of_nat n))%Z then Ok (Z.to_nat i)
  else if ((- Z.of_nat n <=? i) && (i <? 0))%Z then Ok (Z.to_nat (Z.of_nat n + i))
  else Raise IndexError.

(** The stop position of the slice [[:m]] on a sequence of length [n]. *)
Definition slice_stop (n : nat) (m : Z) : nat :=
  if (m <? 0)%Z then Z.to_nat (Z.of_nat n + m) else Nat.min (Z.to_nat m) n.

Definition py_getitem {A} (l : list A) (i : Z) : result A :=
  (do k <- norm_index (length l) i;
   match nth_error l k with
   | Some x => Ok x
   | None => Raise IndexError
   end)%res.

Fixpoint list_set {A} (k : nat) (x : A) (l : list A) : list A :=
  match l, k with
  | [], _ => []
  | _ :: t, O => x :: t
  | h :: t, S k' => h :: list_set k' x t
  end.

Fixpoint map2 {A B C} (f : A -> B -> C) (l : list A) (m : list B) : list C :=
  match l, m with
  | a :: l', b :: m' => f a b :: map2 f l' m'
  | _, _ => []
  end.

(* ------------------------------------------------------------------ *)
(** ** numpy arrays *)

Record array2 (F : Type) : Type := mkA2 {
  shape2 : nat * nat;
  data2 : list (list F)
}.

Record array3 (F : Type) : Type := mkA3 {
  shape3 : nat * nat * nat;
  data3 : list (list (list F))
}.

Definition dim0 {F} (a : array3 F) : nat := fst (fst (shape3 a)).
Definition dim1 {F} (a : array3 F) : nat := snd (fst (shape3 a)).
Definition dim2 {F} (a : array3 F) : nat := snd (shape3 a).
Definition rows {F} (a : array2 F) : nat := fst (shape2 a).
Definition cols {F} (a : array2 F) : nat := snd (shape2 a).

(** The contents agree with the shape. *)
Definition wf_rows {A} (n m : nat) (d : list (list A)) : bool :=
  (length d =? n) && forallb (fun r => length r =? m) d.

Definition wf2 {F} (a : array2 F) : bool :=
  wf_rows (rows a) (cols a) (data2 a).

Definition wf3 {F} (a : array3 F) : bool :=
  (length (data3 a) =? dim0 a)
  && forallb (wf_rows (dim1 a) (dim2 a)) (data3 a).

Section Numpy.
Context {F : Type} `{Num F}.

Definition any_negative (ds : list Z) : bool :=
  existsb (fun d => (d <? 0)%Z) ds.

(** [N.zeros((a, b, c))] *)
Definition zeros3 (a b c : Z) : result (array3 F) :=
  if any_negative [a; b; c] then Raise ValueError
  else Ok (mkA3 (Z.to_nat a, Z.to_nat b, Z.to_nat c)
             (repeat (repeat (repeat fzero (Z.to_nat c)) (Z.to_nat b))
                (Z.to_nat a))).

(** [N.zeros((a, b))] *)
Definition zeros2 (a b : Z) : result (array2 F) :=
  if any_negative [a; b] then Raise ValueError
  else Ok (mkA2 (Z.to_nat a, Z.to_nat b)
             (repeat (repeat fzero (Z.to_nat b)) (Z.to_nat a))).

(** [N.concatenate((x, y), axis=1)] on 3-D arrays: the other two axes
    must agree. *)
Definition concatenate3 (x y : array3 F) : result (array3 F) :=
  if (dim0 x =? dim0 y) && (dim2 x =? dim2 y)
  then Ok (mkA3 (dim0 x, dim1 x + dim1 y, dim2 x)
             (map2 (@app (list F)) (data3 x) (data3 y)))
  else Raise ValueError.

(** [N.concatenate((x, y), axis=1)] on 2-D arrays. *)
Definition concatenate2 (x y : array2 F) : result (array2 F) :=
  if rows x =? rows y
  then Ok (mkA2 (rows x, cols x + cols y)
             (map2 (@app F) (data2 x) (data2 y)))
  else Raise ValueError.

(** [a[:, i, :]] *)
Definition get_iter (a : array3 F) (i : Z) : result (array2 F) :=
  (do k <- norm_index (dim1 a) i;
   Ok (mkA2 (dim0 a, dim2 a) (map (fun w => nth k w []) (data3 a))))%res.

(** What numpy assigns along an axis of length [n] from a sequence [d]
    of length [len]: the sequence itself when the lengths agree, its one
    element repeated when [len] is 1 (broadcasting); any other length
    raises [ValueError]. *)
Definition broadcast_to {A} (d : list A) (len n : nat) (dflt : A)
  : result (list A) :=
  if len =? n then Ok d
  else if len =? 1 then Ok (repeat (nth 0 d dflt) n)
  else Raise ValueError.

(** The rows of the two-dimensional [p] broadcast to shape [(n, m)]. *)
Definition broadcast2 (p : array2 F) (n m : nat) : result (list (list F)) :=
  (do rs <- broadcast_to (data2 p) (rows p) n [];
   if cols p =? m then Ok rs
   else if cols p =? 1 then Ok (map (fun r => repeat (nth 0 r fzero) m) rs)
   else Raise ValueError)%res.

(** [a[:, i, :] = p]: the index is resolved first, then [p] is broadcast
    to shape [(dim0 a, dim2 a)]. *)
Definition set_iter (a : array3 F) (i : Z) (p : array2 F)
  : result (array3 F) :=
  (do k <- norm_index (dim1 a) i;
   do d <- broadcast2 p (dim0 a) (dim2 a);
   Ok (mkA3 (shape3 a) (map2 (fun w r => list_set k r w) (data3 a) d)))%res.

(** [a[:, i] = l], with [l] one-dimensional: [l] is broadcast to length
    [rows a]. *)
Definition set_col (a : array2 F) (i : Z) (l : list F)
  : result (array2 F) :=
  (do k <- norm_index (cols a) i;
   do d <- broadcast_to l (length l) (rows a) fzero;
   Ok (mkA2 (shape2 a) (map2 (fun r x => list_set k x r) (data2 a) d)))%res.

(** [a[:, :m, :]] *)
Definition slice3 (a : array3 F) (m : Z) : array3 F :=
  let s := slice_stop (dim1 a) m in
  mkA3 (dim0 a, s, dim2 a) (map (firstn s) (data3 a)).

(** [a[:, :m]] *)
Definition slice2 (a : array2 F) (m : Z) : array2 F :=
  let s := slice_stop (cols a) m in
  mkA2 (rows a, s) (map (firstn s) (data2 a)).

End Numpy.

(* ------------------------------------------------------------------ *)
(** ** Strings *)

Definition nl : string := String (ascii_of_nat 10) EmptyString.
Definition tab : string := String (ascii_of_nat 9) EmptyString.
Definition dquote : string := String (ascii_of_nat 34) EmptyString.

(** ["%i" % z] *)
Definition fmt_i (z : Z) : string := NilZero.string_of_int (Z.to_int z).

(** [sep.join(l)] *)
Fixpoint join (sep : string) (l : list string) : string :=
  match l with
  | [] => EmptyString
  | [x] => x
  | x :: t => (x ++ sep ++ join sep t)%string
  end.

Fixpoint ends_with (suf s : string) : bool :=
  String.eqb s suf ||
  match s with
  | EmptyString => false
  | String _ t => ends_with suf t
  end.

Definition is_digit (c : ascii) : bool :=
  let n := nat_of_ascii c in (48 <=? n) && (n <=? 57).

Definition is_upper (c : ascii) : bool :=
  let n := nat_of_ascii c in (65 <=? n) && (n <=? 90).

Definition is_lower (c : ascii) : bool :=
  let n := nat_of_ascii c in (97 <=? n) && (n <=? 122).

(** The class [[A-Za-z0-9]]. *)
Definition is_alnum (c : ascii) : bool :=
  is_upper c || is_lower c || is_digit c.

(** [int(s)] for a string of decimal digits. *)
Fixpoint int_digits (acc : nat) (s : string) : nat :=
  match s with
  | EmptyString => acc
  | String c t => int_digits (10 * acc + (nat_of_ascii c - 48)) t
  end.

Definition int_of_string (s : string) : nat := int_digits 0 s.

(* ------------------------------------------------------------------ *)
(** ** expandSystems *)

(** Every way [cls+] can match at the start of [s], as (matched text,
    remainder), in the order a greedy backtracking matcher tries them:
    longest first. *)
Fixpoint plus_matches (cls : ascii -> bool) (s : string)
  : list (string * string) :=
  match s with
  | EmptyString => []
  | String c t =>
      if cls c
      then map (fun mr => (String c (fst mr), snd mr)) (plus_matches cls t)
             ++ [(String c EmptyString, t)]
      else []
  end.

Fixpoint first_some {A B} (f : A -> option B) (l : list A) : option B :=
  match l with
  | [] => None
  | a :: t => match f a with
              | Some b => Some b
              | None => first_some f t
              end
  end.

(** The rest of the pattern, [\*([0-9]+)], after one candidate [g1] for
    the first group: a star, then the first candidate for the digits. *)
Definition try_name (g1 : string * string) : option (string * string) :=
  match snd g1 with
  | String c r =>
      if Ascii.eqb c "*"%char
      then first_some (fun g2 => Some (fst g1, fst g2))
             (plus_matches is_digit r)
      else None
  | EmptyString => None
  end.

(** [re.match(r'([A-Za-z0-9]+)\*([0-9]+)', s)]: the two groups of the
    first successful way to match at the start of [s], if any. *)
Definition re_match_system (s : string) : option (string * string) :=
  first_some try_name (plus_matches is_alnum s).

Fixpoint expandSystems (systems : list string) : list string :=
  match systems with
  | [] => []
  | s :: rest =>
      match re_match_system s with
      | Some m => repeat (fst m) (int_of_string (snd m)) ++ expandSystems rest
      | None => s :: expandSystems rest
      end
  end.

(* ------------------------------------------------------------------ *)
(** ** Parameters, files and the program state *)

(** A parameter descriptor, as the pool hands it out. *)
Record par (F : Type) : Type := mkPar {
  name : string;
  unit_ : string;
  val_init : F;
  val_delta : F;
  val_sigma : F;
  val_hardmin : F;
  val_hardmax : F;
  log : bool
}.

(** What [XspecPool(...)] exposes to the driver. *)
Record pool (F : Type) : Type := mkPool {
  parameters : list (par F);
  parlist : list (par F);
  paridxs : list Z
}.

Inductive file (F : Type) : Type :=
| NpzFile (chain : array3 F) (lnprobability : array2 F)
| TextFile (written : list string).

Inductive event (F : Type) : Type :=
| EvSavez (fname : string) (chain : array3 F) (lnprobability : array2 F)
| EvOpen (fname : string)
| EvWrite (fname : string) (s : string).

(** Array objects that are passed by reference. *)
Inductive obj (F : Type) : Type :=
| Obj3 (a : array3 F)
| Obj2 (a : array2 F).

Record state (F : Type) : Type := mkState {
  heap : list (obj F);
  fs : list (string * file F);
  trace : list (event F);
  draws : nat;
  ticks : nat
}.

Fixpoint fs_lookup {F} (fname : string) (l : list (string * file F))
  : option (file F) :=
  match l with
  | [] => None
  | (n, f) :: t => if String.eqb n fname then Some f else fs_lookup fname t
  end.

Definition fs_remove {F} (fname : string) (l : list (string * file F))
  : list (string * file F) :=
  filter (fun nf => negb (String.eqb (fst nf) fname)) l.

(** The stateful computations of the driver. *)
Definition M (F A : Type) : Type := state F -> state F * result A.

Definition ret {F A} (a : A) : M F A := fun st => (st, Ok a).

Definition bind {F A B} (m : M F A) (k : A -> M F B) : M F B :=
  fun st => match m st with
            | (st', Ok a) => k a st'
            | (st', Raise e) => (st', Raise e)
            end.

Definition lift {F A} (r : result A) : M F A := fun st => (st, r).

Declare Scope m_scope.
Delimit Scope m_scope with m.
Notation "x <- c ;; k" := (bind c (fun x => k))
  (at level 61, c at next level, right associativity) : m_scope.
Notation "' p <- c ;; k" := (bind c (fun p => k))
  (at level 61, p pattern, c at next level, right associativity) : m_scope.
Notation "c ;; k" := (bind c (fun _ => k))
  (at level 61, right associativity) : m_scope.

(** [for x in l: body x] *)
Fixpoint for_each {F A} (l : list A) (body : A -> M F unit) : M F unit :=
  match l with
  | [] => ret tt
  | x :: t => (body x ;; for_each t body)%m
  end.

(** [enumerate(l)] *)
Fixpoint enumerate_from {A} (i : Z) (l : list A) : list (Z * A) :=
  match l with
  | [] => []
  | x :: t => (i, x) :: enumerate_from (i + 1)%Z t
  end.

Definition enumerate {A} (l : list A) : list (Z * A) := enumerate_from 0%Z l.

(** Points of one pass through the sampling loop at which Ctrl+C can
    arrive: while the sampler computes the step, after the chain row is
    stored, after the log-probabilities are stored, after the cursor is
    advanced. *)
Inductive phase : Type := InStep | AfterChain | AfterLnprob | AfterIndex.

Definition phase_eqb (a b : phase) : bool :=
  match a, b with
  | InStep, InStep | AfterChain, AfterChain
  | AfterLnprob, AfterLnprob | AfterIndex, AfterIndex => true
  | _, _ => false
  end.

(** A one- or two-dimensional array, as [N.array] and [N.loadtxt] may
    return either. *)
Inductive ndarray (F : Type) : Type :=
| Arr1 (l : list F)
| Arr2 (a : array2 F).

(** Everything the driver calls but does not define.  [G] is the state of
    the generator [sampler.sample(...)], [S] the sampler's random state.
    - [XspecPool], [loadtxt], [EnsembleSampler], [run_mcmc]: the calls of
      the same names, which may raise.
    - [sample pos state] is the generator [sampler.sample(pos,
      rstate0=state, ...)] before its first step; [next g] is one step of
      it: the positions, the log-probabilities and the generator after the
      step, or the exception the step raises.
    - [normal k loc scale] is the value of the [k]-th call of
      [N.random.normal] of the process when made with [loc] and a
      [scale] that is not negative; the call itself refuses a negative
      [scale], see [random_normal].
    - [clock k] is the value of the [k]-th call of [time.time()], in
      seconds.
    - [interrupt] says whether, and where, Ctrl+C arrives while the
      [try] block of [doMCMC] runs: in which pass of the loop (counted
      from 0), and at which point of the pass. *)
Record env (F S G : Type) : Type := mkEnv {
  XspecPool : string -> list string -> bool -> bool -> bool -> Z
              -> result (pool F);
  loadtxt : string -> result (ndarray F);
  EnsembleSampler : Z -> nat -> result unit;
  run_mcmc : array2 F -> Z -> result (array2 F * S);
  sample : array2 F -> option S -> G;
  next : G -> result (array2 F * list F * G);
  normal : nat -> F -> F -> F;
  clock : nat -> Z;
  interrupt : option (nat * phase)
}.

Section Driver.
Context {F S G : Type} `{Num F}.
Variable e : env F S G.

Local Open Scope m_scope.

(* ------------------------------------------------------------------ *)
(** ** Primitive effects *)

(** [time.time()] *)
Definition time : M F Z :=
  fun st => (mkState (heap st) (fs st) (trace st) (draws st) (Datatypes.S (ticks st)),
             Ok (clock e (ticks st))).

(** [N.random.normal(loc, scale)]: numpy checks [scale < 0] first and
    raises [ValueError] without drawing. *)
Definition random_normal (loc scale : F) : M F F :=
  fun st =>
    if flt scale fzero then (st, Raise ValueError)
    else (mkState (heap st) (fs st) (trace st) (Datatypes.S (draws st))
            (ticks st),
          Ok (normal e (draws st) loc scale)).

Definition log_event (ev : event F) : M F unit :=
  fun st => (mkState (heap st) (fs st) (trace st ++ [ev]) (draws st) (ticks st),
             Ok tt).

Definition fs_put (fname : string) (f : file F) : M F unit :=
  fun st => (mkState (heap st) ((fname, f) :: fs_remove fname (fs st))
               (trace st) (draws st) (ticks st),
             Ok tt).

(** [open(filename, 'w')]: the file exists and is empty from here on. *)
Definition open_w (fname : string) : M F unit :=
  log_event (EvOpen F fname) ;; fs_put fname (TextFile F []).

(** [f.write(s)] on the file opened under [fname]. *)
Definition fwrite (fname : string) (s : string) : M F unit :=
  fun st =>
    let old := match fs_lookup fname (fs st) with
               | Some (TextFile _ w) => w
               | _ => []
               end in
    (log_event (EvWrite F fname s) ;; fs_put fname (TextFile F (old ++ [s]))) st.

(** The name [N.savez] writes to: it adds the extension when missing. *)
Definition npz_name (fname : string) : string :=
  if ends_with ".npz" fname then fname else (fname ++ ".npz")%string.

(** [N.savez(filename, chain=..., lnprobability=...)] *)
Definition savez (fname : string) (chain : array3 F) (lnprob : array2 F)
  : M F unit :=
  log_event (EvSavez (npz_name fname) chain lnprob) ;;
  fs_put (npz_name fname) (NpzFile chain lnprob).

(** [N.load(filename)], then the fields ['chain'] and ['lnprobability']. *)
Definition load (fname : string) : M F (array3 F * array2 F) :=
  fun st => match fs_lookup fname (fs st) with
            | Some (NpzFile c l) => (st, Ok (c, l))
            | _ => (st, Raise IOError)
            end.

(** A fresh array object; its address is returned. *)
Definition alloc (o : obj F) : M F nat :=
  fun st => (mkState (heap st ++ [o]) (fs st) (trace st) (draws st) (ticks st),
             Ok (length (heap st))).

Definition deref3 (r : nat) : M F (array3 F) :=
  fun st => match nth_error (heap st) r with
            | Some (Obj3 a) => (st, Ok a)
            | _ => (st, Raise ValueError)
            end.

Definition deref2 (r : nat) : M F (array2 F) :=
  fun st => match nth_error (heap st) r with
            | Some (Obj2 a) => (st, Ok a)
            | _ => (st, Raise ValueError)
            end.

(** In-place update of the object at address [r]. *)
Definition store (r : nat) (o : obj F) : M F unit :=
  fun st => (mkState (list_set r o (heap st)) (fs st) (trace st) (draws st) (ticks st),
             Ok tt).

(* ------------------------------------------------------------------ *)
(** ** getInitialParameters *)

(** A NaN is the one value that is not [<=] itself. *)
Definition is_nan (x : F) : bool := negb (fle x x).

(** [N.maximum], [N.minimum] and [N.clip(v, lo, hi)], which numpy
    documents as [minimum(maximum(v, lo), hi)].  [N.maximum] and
    [N.minimum] return an operand that is a NaN, the first one if both
    are, so a NaN draw is clipped to a NaN. *)
Definition fmaximum (a b : F) : F :=
  if is_nan a then a else if is_nan b then b
  else if fle b a then a else b.
Definition fminimum (a b : F) : F :=
  if is_nan a then a else if is_nan b then b
  else if fle a b then a else b.
Definition clip (v lo hi : F) : F := fminimum (fmaximum v lo) hi.

(** The spread of the normal draw for one parameter. *)
Definition draw_width (p : par F) : F :=
  let width := val_delta p in
  let swidth := fmul (val_sigma p) ftenth in
  if flt fzero swidth && flt swidth width then swidth else width.

(** The inner loop: one walker. *)
Fixpoint init_walker (ps : list (par F)) : M F (list F) :=
  match ps with
  | [] => ret []
  | p :: rest =>
      v <- random_normal (val_init p) (draw_width p) ;;
      let v := clip v (val_hardmin p) (val_hardmax p) in
      pwalker <- init_walker rest ;;
      ret (v :: pwalker)
  end.

(** The outer loop: [n] walkers. *)
Fixpoint init_walkers (ps : list (par F)) (n : nat) : M F (list (list F)) :=
  match n with
  | O => ret []
  | Datatypes.S n' =>
      pwalker <- init_walker ps ;;
      p0 <- init_walkers ps n' ;;
      ret (pwalker :: p0)
  end.

(** [N.array(p0)]: a list of equal-length rows becomes a 2-D array, the
    empty list a 1-D array of length 0. *)
Definition N_array (p0 : list (list F)) : ndarray F :=
  match p0 with
  | [] => Arr1 []
  | r :: _ => Arr2 (mkA2 (length p0, length r) p0)
  end.

Definition getInitialParameters (ps : list (par F)) (nwalkers : Z)
  : M F (ndarray F) :=
  p0 <- init_walkers ps (Z.to_nat nwalkers) ;;
  ret (N_array p0).

(* ------------------------------------------------------------------ *)
(** ** writeNpz *)

Definition writeNpz (filename : string) (chain : array3 F)
  (lnprob : array2 F) (maxindex : Z) : M F unit :=
  let cl :=
    if (maxindex <? Z.of_nat (dim1 chain))%Z
    then (slice3 chain maxindex, slice2 lnprob maxindex)
    else (chain, lnprob) in
  savez filename (fst cl) (snd cl).

(* ------------------------------------------------------------------ *)
(** ** writeXSpecChain *)

(** [N.reshape(a, (length, width))] of a 3-D array, in C order. *)
Definition reshape_rows (a : array3 F) (length width : nat)
  : result (array2 F) :=
  if dim0 a * dim1 a * dim2 a =? length * width
  then Ok (mkA2 (length, width) (concat (data3 a)))
  else Raise ValueError.

(** [N.reshape(a, (length, 1))] of a 2-D array, in C order. *)
Definition reshape_col (a : array2 F) (length : nat) : result (array2 F) :=
  if rows a * cols a =? length * 1
  then Ok (mkA2 (length, 1) (map (fun x => [x]) (concat (data2 a))))
  else Raise ValueError.

(** [-a*2], elementwise. *)
Definition neg_times2 (a : array2 F) : array2 F :=
  mkA2 (shape2 a) (map (map (fun x => fmul (fneg x) ftwo)) (data2 a)).

(** [N.column_stack((a, b))] of two 2-D arrays. *)
Definition column_stack (a b : array2 F) : result (array2 F) :=
  concatenate2 a b.

(** [a[:, i]] *)
Definition get_col (a : array2 F) (i : Z) : result (list F) :=
  (do k <- norm_index (cols a) i;
   Ok (map (fun r => nth k r fzero) (data2 a)))%res.

(** One column label of the header. *)
Definition label (idx : Z) (p : par F) : string :=
  (fmt_i idx ++ " " ++ name p ++ " "
   ++ (if String.eqb (unit_ p) "" then "0" else unit_ p))%string.

(** One data line. *)
Definition fmt_line (line : list F) : string :=
  (join tab (map fmt_g line) ++ nl)%string.

(** The loop that undoes the log of some parameters, in place on the
    array at address [chain]. *)
Definition undo_log (chain : nat) (params : list (par F)) (i_idx : Z * Z)
  : M F unit :=
  p <- lift (py_getitem params (snd i_idx - 1)) ;;
  if log p
  then a <- deref2 chain ;;
       col <- lift (get_col a (fst i_idx)) ;;
       a' <- lift (set_col a (fst i_idx) (map (fpow ften) col)) ;;
       store chain (Obj2 a')
  else ret tt.

(** The loop that collects the column labels. *)
Fixpoint header_labels (params : list (par F)) (idxs : list Z)
  : result (list string) :=
  match idxs with
  | [] => Ok []
  | idx :: rest =>
      (do p <- py_getitem params (idx - 1);
       do hdr <- header_labels params rest;
       Ok (label idx p :: hdr))%res
  end.

(** [chain] and [lnprob] are the addresses of the caller's arrays. *)
Definition writeXSpecChain (filename : string) (chain lnprob : nat)
  (params : list (par F)) (paridxs : list Z) : M F unit :=
  open_w filename ;;
  fwrite filename
    ("! Markov chain file generated by xspec " ++ dquote ++ "chain"
     ++ dquote ++ " command." ++ nl)%string ;;
  fwrite filename
    ("!    Do not modify, else file may not reload properly." ++ nl)%string ;;
  c <- deref3 chain ;;
  let length := dim0 c * dim1 c in
  let width := dim2 c in
  fwrite filename
    ("!Length: " ++ fmt_i (Z.of_nat length) ++ "  Width: "
     ++ fmt_i (Z.of_nat width + 1) ++ nl)%string ;;
  l <- deref2 lnprob ;;
  a <- lift (reshape_rows c length width) ;;
  b <- lift (reshape_col (neg_times2 l) length) ;;
  stacked <- lift (column_stack a b) ;;
  chain <- alloc (Obj2 stacked) ;;
  for_each (enumerate paridxs) (undo_log chain params) ;;
  hdr <- lift (header_labels params paridxs) ;;
  fwrite filename
  ("!" ++ join " " (hdr ++ ["Chi-Squared"%string])%list ++ nl)%string ;;
  final <- deref2 chain ;;
  for_each (data2 final) (fun line => fwrite filename (fmt_line line)).

(* ------------------------------------------------------------------ *)
(** ** doMCMC *)

(** The local variables [chain], [lnprob], [start] and [pos] once the
    buffers are set up. *)
Record buffers : Type := mkBuf {
  b_chain : array3 F;
  b_lnprob : array2 F;
  b_start : Z;
  b_pos : array2 F
}.

(** Fresh buffers, or the buffers of the checkpoint extended with blank
    entries. *)
Definition init_buffers (continuerun : bool) (nwalkers niters : Z)
  (ndims : nat) (outnpz : string) (pos : array2 F) : M F buffers :=
  if negb continuerun
  then
    chain <- lift (zeros3 nwalkers niters (Z.of_nat ndims)) ;;
    lnprob <- lift (zeros2 nwalkers niters) ;;
    ret (mkBuf chain lnprob 0%Z pos)
  else
    f <- load outnpz ;;
    let chain := fst f in
    let lnprob := snd f in
    let start := Z.of_nat (dim1 chain) in
    pos <- lift (get_iter chain (-1)%Z) ;;
    blankchain <- lift (zeros3 nwalkers (niters - start)%Z (Z.of_nat ndims)) ;;
    blankprob <- lift (zeros2 nwalkers (niters - start)%Z) ;;
    chain <- lift (concatenate3 chain blankchain) ;;
    lnprob <- lift (concatenate2 lnprob blankprob) ;;
    ret (mkBuf chain lnprob start pos).

(** The variables the sampling loop updates, and the generator it draws
    from. *)
Record loop_state : Type := mkLoop {
  l_chain : array3 F;
  l_lnprob : array2 F;
  l_index : Z;
  l_lastsave : Z;
  l_gen : G
}.

(** How the [try] block is left: the generator is exhausted, or
    [KeyboardInterrupt] is raised. *)
Inductive loop_exit : Type := Exhausted | Interrupted.

Definition interrupted_at (j : nat) (ph : phase) : bool :=
  match interrupt e with
  | Some (j', ph') => (j =? j') && phase_eqb ph ph'
  | None => false
  end.

(** The autosave at the end of a pass. *)
Definition autosave_step (autosave : bool) (outnpz : string)
  (ls : loop_state) : M F loop_state :=
  if autosave
  then
    now <- time ;;
    if (now - l_lastsave ls >? 60 * 10)%Z
    then
      lastsave <- time ;;
      writeNpz outnpz (l_chain ls) (l_lnprob ls) (l_index ls) ;;
      ret (mkLoop (l_chain ls) (l_lnprob ls) (l_index ls) lastsave (l_gen ls))
    else ret ls
  else ret ls.

(** The [for] loop over the generator: [n] passes remain, [j] have been
    made. *)
Fixpoint sample_loop (autosave : bool) (outnpz : string) (n j : nat)
  (ls : loop_state) : M F (loop_exit * loop_state) :=
  if interrupted_at j InStep then ret (Interrupted, ls)
  else
    match n with
    | O => ret (Exhausted, ls)
    | Datatypes.S n' =>
        pl <- lift (next e (l_gen ls)) ;;
        let p := fst (fst pl) in
        let l := snd (fst pl) in
        let g := snd pl in
        chain <- lift (set_iter (l_chain ls) (l_index ls) p) ;;
        if interrupted_at j AfterChain
        then ret (Interrupted,
                  mkLoop chain (l_lnprob ls) (l_index ls) (l_lastsave ls) g)
        else
          lnprob <- lift (set_col (l_lnprob ls) (l_index ls) l) ;;
          if interrupted_at j AfterLnprob
          then ret (Interrupted,
                    mkLoop chain lnprob (l_index ls) (l_lastsave ls) g)
          else
            let index := (l_index ls + 1)%Z in
            let ls1 := mkLoop chain lnprob index (l_lastsave ls) g in
            if interrupted_at j AfterIndex then ret (Interrupted, ls1)
            else
              ls2 <- autosave_step autosave outnpz ls1 ;;
              sample_loop autosave outnpz n' (Datatypes.S j) ls2
    end.

(** The call [writeXSpecChain(outchain, chain, lnprob, ...)]: the arrays
    are passed by reference, and the caller goes on with whatever is at
    their addresses afterwards. *)
Definition call_writeXSpecChain (outchain : string) (chain : array3 F)
  (lnprob : array2 F) (params : list (par F)) (idxs : list Z)
  : M F (array3 F * array2 F) :=
  rc <- alloc (Obj3 chain) ;;
  rl <- alloc (Obj2 lnprob) ;;
  writeXSpecChain outchain rc rl params idxs ;;
  chain' <- deref3 rc ;;
  lnprob' <- deref2 rl ;;
  ret (chain', lnprob').

(** [p0.shape[1]] *)
Definition shape_1 (p0 : ndarray F) : result (array2 F * nat) :=
  match p0 with
  | Arr2 a => Ok (a, cols a)
  | Arr1 _ => Raise IndexError
  end.

(** [not initialparameters] *)
Definition no_file (f : option string) : bool :=
  match f with
  | None => true
  | Some s => String.eqb s ""
  end.

(** The local variables at the end of [doMCMC], kept for the theorems:
    how the loop was left, the buffers and the cursor handed to the
    last [writeNpz], the cursor the loop started from and the population
    handed to the sampler. *)
Record locals : Type := mkLocals {
  v_exit : loop_exit;
  v_chain : array3 F;
  v_lnprob : array2 F;
  v_index : Z;
  v_start : Z;
  v_pos : array2 F
}.

(** The start of [doMCMC], up to and including the burn-in: the pool, the
    number of dimensions, the sampler's random state and the
    population. *)
Definition setup (xcm : string) (nwalkers nburn : Z) (systems : list string)
  (debug continuerun nochdir : bool) (initialparameters : option string)
  (lognorm : bool) (chunksize : Z)
  : M F (pool F * nat * option S * array2 F) :=
  pool <- lift (XspecPool e xcm (expandSystems systems) debug nochdir
                  lognorm chunksize) ;;
  p0 <- (if no_file initialparameters
         then getInitialParameters (parameters pool) nwalkers
         else match initialparameters with
              | Some f => lift (loadtxt e f)
              | None => lift (Raise IOError)
              end) ;;
  p0n <- lift (shape_1 p0) ;;
  let p0 := fst p0n in
  let ndims := snd p0n in
  lift (EnsembleSampler e nwalkers ndims) ;;
  if negb continuerun && (nburn >? 0)%Z
  then burnt <- lift (run_mcmc e p0 nburn) ;;
       ret (pool, ndims, Some (snd burnt), fst burnt)
  else ret (pool, ndims, None, p0).

(** The end of [doMCMC]: the [except] and [else] clauses of the [try],
    then the last [writeNpz]. *)
Definition finish (outchain outnpz : string) (pl : pool F)
  (r : loop_exit * loop_state) : M F (array3 F * array2 F) :=
  let ls := snd r in
  cl <- match fst r with
        | Interrupted => ret (l_chain ls, l_lnprob ls)
        | Exhausted =>
            call_writeXSpecChain outchain (l_chain ls) (l_lnprob ls)
              (parlist pl) (paridxs pl)
        end ;;
  writeNpz outnpz (fst cl) (snd cl) (l_index ls) ;;
  ret cl.

Definition doMCMC (xcm : string) (nwalkers nburn niters : Z)
  (systems : list string) (outchain outnpz : string) (debug : bool)
  (continuerun autosave nochdir : bool) (initialparameters : option string)
  (lognorm : bool) (chunksize : Z) : M F locals :=
  s <- setup xcm nwalkers nburn systems debug continuerun nochdir
         initialparameters lognorm chunksize ;;
  let pl := fst (fst (fst s)) in
  let ndims := snd (fst (fst s)) in
  let state := snd (fst s) in
  let pos := snd s in
  b <- init_buffers continuerun nwalkers niters ndims outnpz pos ;;
  let start := b_start b in
  let pos := b_pos b in
  lastsave <- time ;;
  let gen := sample e pos state in
  r <- sample_loop autosave outnpz (Z.to_nat (niters - start)) 0
         (mkLoop (b_chain b) (b_lnprob b) start lastsave gen) ;;
  cl <- finish outchain outnpz pl r ;;
  ret (mkLocals (fst r) (fst cl) (snd cl) (l_index (snd r)) start pos).

End Driver.

(* ------------------------------------------------------------------ *)
(** ** Reference definitions used in the statements *)

(** The longest prefix of [s] made of characters in [cls], and the rest. *)
Fixpoint span (cls : ascii -> bool) (s : string) : string * string :=
  match s with
  | EmptyString => (EmptyString, EmptyString)
  | String c t =>
      if cls c
      then (String c (fst (span cls t)), snd (span cls t))
      else (EmptyString, s)
  end.

Definition nonempty (s : string) : bool :=
  match s with
  | EmptyString => false
  | String _ _ => true
  end.

Fixpoint all_chars (cls : ascii -> bool) (s : string) : bool :=
  match s with
  | EmptyString => true
  | String c t => cls c && all_chars cls t
  end.

(** What [expandSystems] looks for at the start of an entry: a run of
    letters and digits, a star, a run of digits.  Whatever follows the
    digits is not looked at. *)
Definition leading_star_form (s : string) : option (string * string) :=
  let nm := fst (span is_alnum s) in
  match snd (span is_alnum s) with
  | String c r =>
      let k := fst (span is_digit r) in
      if nonempty nm && Ascii.eqb c "*"%char && nonempty k
      then Some (nm, k)
      else None
  | EmptyString => None
  end.

Definition expand_entry (s : string) : list string :=
  match leading_star_form s with
  | Some m => repeat (fst m) (int_of_string (snd m))
  | None => [s]
  end.

(** The shorthand as the configuration surface words it: the whole entry
    is [NAME*K], [K] a count.  The entry is split at its last star. *)
Fixpoint split_last_star (s : string) : option (string * string) :=
  match s with
  | EmptyString => None
  | String c t =>
      match split_last_star t with
      | Some m => Some (String c (fst m), snd m)
      | None => if Ascii.eqb c "*"%char then Some (EmptyString, t) else None
      end
  end.

Definition whole_star_form (s : string) : option (string * string) :=
  match split_last_star s with
  | Some m =>
      if nonempty (fst m) && nonempty (snd m) && all_chars is_digit (snd m)
      then Some m
      else None
  | None => None
  end.

Definition expand_entry_as_worded (s : string) : list string :=
  match whole_star_form s with
  | Some m => repeat (fst m) (int_of_string (snd m))
  | None => [s]
  end.

(** The state after [n] more draws from the random generator. *)
Definition add_draws {F} (n : nat) (st : state F) : state F :=
  mkState (heap st) (fs st) (trace st) (n + draws st) (ticks st).

Section Reference.
Context {F S G : Type} `{Num F}.
Variable e : env F S G.

(** The values one walker gets when its first draw is draw number [k]:
    each is the clipped normal draw for its parameter. *)
Fixpoint clipped_draws (k : nat) (ps : list (par F)) : list F :=
  match ps with
  | [] => []
  | p :: rest =>
      clip (normal e k (val_init p) (draw_width p))
        (val_hardmin p) (val_hardmax p)
      :: clipped_draws (Datatypes.S k) rest
  end.

Definition within_hard_range (p : par F) (v : F) : bool :=
  fle (val_hardmin p) v && fle v (val_hardmax p).

End Reference.

(* ------------------------------------------------------------------ *)
(** ** A concrete carrier and concrete runs *)

Module Toy.

(** Integers counting tenths: [x] stands for [x/10]. *)
#[global] Instance ZNum : Num Z := {|
  fzero := 0%Z;
  ftenth := 1%Z;
  ftwo := 20%Z;
  ften := 100%Z;
  fneg := Z.opp;
  fmul := fun a b => (a * b / 10)%Z;
  fpow := fun a b => (10 * (a / 10) ^ (b / 10))%Z;
  fle := Z.leb;
  flt := Z.ltb;
  fmt_g := fmt_i
|}.

Definition kT : par Z := mkPar "kT" "keV" 10%Z 5%Z 20%Z 0%Z 100%Z false.
Definition norm : par Z := mkPar "norm" "" 30%Z 5%Z 0%Z 0%Z 100%Z true.

Definition the_pool : pool Z := mkPool [kT; norm] [kT; norm] [1%Z; 2%Z].

(** A sampler whose generator state is the population: each step moves
    every coordinate up by one and reports minus the row sum. *)
Definition step (g : array2 Z) : result (array2 Z * list Z * array2 Z) :=
  let g' := mkA2 (shape2 g) (map (map Z.succ) (data2 g)) in
  Ok (g', map (fun r => Z.opp (fold_right Z.add 0%Z r)) (data2 g'), g').

Definition the_env (intr : option (nat * phase)) : env Z unit (array2 Z) := {|
  XspecPool := fun _ _ _ _ _ _ => Ok the_pool;
  loadtxt := fun _ => Raise IOError;
  EnsembleSampler := fun k dim =>
    if Z.even k && (2 * Z.of_nat dim <=? k)%Z then Ok tt
    else Raise AssertionError;
  run_mcmc := fun p _ => Ok (p, tt);
  sample := fun p _ => p;
  next := step;
  normal := fun k loc sc => (loc + Z.of_nat k * sc)%Z;
  clock := fun k => (Z.of_nat k * 400)%Z;
  interrupt := intr
|}.

Definition empty_state : state Z := mkState [] [] [] 0 0.

End Toy.

(** The state after [N.savez] has written [c] and [l] under [fname]. *)
Definition after_savez {F} (fname : string) (c : array3 F) (l : array2 F)
  (st : state F) : state F :=
  mkState (heap st) ((fname, NpzFile c l) :: fs_remove fname (fs st))
    (trace st ++ [EvSavez fname c l]) (draws st) (ticks st).

(** The first [m] iterations of every walker. *)
Definition prefix3 {F} (m : nat) (a : array3 F) : array3 F :=
  mkA3 (dim0 a, m, dim2 a) (map (firstn m) (data3 a)).

Definition prefix2 {F} (m : nat) (a : array2 F) : array2 F :=
  mkA2 (rows a, m) (map (firstn m) (data2 a)).

(** The state while the exporter has [fname] open with [w] written so
    far, on heap [hp]; [st] is the state the exporter was entered in. *)
Definition exporting {F} (fname : string) (w : list string)
  (hp : list (obj F)) (st : state F) : state F :=
  mkState hp ((fname, TextFile F w) :: fs_remove fname (fs st))
    (trace st ++ EvOpen F fname :: map (EvWrite F fname) w)
    (draws st) (ticks st).

Section ExportReference.
Context {F : Type} `{Num F}.

(** The parameter [params[idx-1]] behind each column. *)
Fixpoint columns_of (params : list (par F)) (idxs : list Z)
  : result (list (Z * par F)) :=
  match idxs with
  | [] => Ok []
  | idx :: rest =>
      (do p <- py_getitem params (idx - 1);
       do cs <- columns_of params rest;
       Ok ((idx, p) :: cs))%res
  end.

(** The log flag and the label of each column. *)
Definition flags_of (cs : list (Z * par F)) : list bool :=
  map (fun c => log (snd c)) cs.

Definition labels_of (cs : list (Z * par F)) : list string :=
  map (fun c => label (fst c) (snd c)) cs.

(** One pass of the in-place loop on one row: column [i] becomes
    [10**] itself. *)
Definition undo_at (i : nat) (row : list F) : list F :=
  list_set i (fpow ften (nth i row fzero)) row.

(** The in-place loop on the contents, from column [i] on. *)
Fixpoint undo_cols (i : nat) (flags : list bool) (d : list (list F))
  : list (list F) :=
  match flags with
  | [] => d
  | f :: fl =>
      undo_cols (Datatypes.S i) fl (if f then map (undo_at i) d else d)
  end.

(** A row with the flagged columns exponentiated. *)
Fixpoint undo_row (flags : list bool) (row : list F) : list F :=
  match flags, row with
  | f :: fl, v :: r => (if f then fpow ften v else v) :: undo_row fl r
  | _, _ => row
  end.

Fixpoint undo_row_from (i : nat) (flags : list bool) (row : list F)
  : list F :=
  match i, row with
  | O, _ => undo_row flags row
  | Datatypes.S i', v :: r => v :: undo_row_from i' flags r
  | Datatypes.S _, [] => []
  end.

(** The exported row of one sample: its parameter values, the flagged
    ones exponentiated, then [-lnprob*2]. *)
Definition export_row (flags : list bool) (sample : list F) (lp : F)
  : list F :=
  undo_row flags sample ++ [fmul (fneg lp) ftwo].

(** The exported table: one row per sample, the samples of walker 0 first,
    in iteration order, then those of walker 1, and so on. *)
Definition export_table (flags : list bool) (chain : array3 F)
  (lnprob : array2 F) : list (list F) :=
  map2 (export_row flags) (concat (data3 chain)) (concat (data2 lnprob)).

(** The three fixed header lines and the label line. *)
Definition export_header (chain : array3 F) (labels : list string)
  : list string :=
  [ ("! Markov chain file generated by xspec " ++ dquote ++ "chain"
     ++ dquote ++ " command." ++ nl)%string;
    ("!    Do not modify, else file may not reload properly." ++ nl)%string;
    ("!Length: " ++ fmt_i (Z.of_nat (dim0 chain * dim1 chain))
     ++ "  Width: " ++ fmt_i (Z.of_nat (dim2 chain) + 1) ++ nl)%string;
    ("!" ++ join " " (labels ++ ["Chi-Squared"%string])%list ++ nl)%string ].

(** [chain[w, i, d]] and [lnprob[w, i]] *)
Definition at3 (a : array3 F) (w i d : nat) : F :=
  nth d (nth i (nth w (data3 a) []) []) fzero.

Definition at2 (a : array2 F) (w i : nat) : F :=
  nth i (nth w (data2 a) []) fzero.

End ExportReference.

Section SampleReference.
Context {F : Type} `{Num F}.

(** [chain[w, i, :]], the parameter vector of walker [w] at iteration
    [i]. *)
Definition sample_at (a : array3 F) (w i : nat) : list F :=
  nth i (nth w (data3 a) []) [].

(** What the label line says about column [idx] with parameter [p]. *)
Definition label_as_worded (idx : Z) (p : par F) : string :=
  (fmt_i idx ++ " " ++ name p ++ " "
   ++ match unit_ p with
      | EmptyString => "0"
      | String _ _ => unit_ p
      end)%string.

End SampleReference.

Module ToyExport.
Import Toy.

(** Two walkers, two iterations, the two example parameters. *)
Definition chain : array3 Z :=
  mkA3 (2, 2, 2) [[[11; 36]; [12; 37]]; [[15; 46]; [16; 47]]]%Z.

Definition lnprob : array2 Z :=
  mkA2 (2, 2) [[-47; -49]; [-61; -63]]%Z.

Definition entry_state : state Z :=
  mkState [Obj3 chain; Obj2 lnprob] [] [] 0 0.

Definition columns : list (Z * par Z) := [(1%Z, kT); (2%Z, norm)].

End ToyExport.

Section LoopReference.
Context {F S G : Type} `{Num F}.
Variable e : env F S G.

Definition is_savez (ev : event F) : bool :=
  match ev with
  | EvSavez _ _ _ => true
  | _ => false
  end.

Definition is_open (ev : event F) : bool :=
  match ev with
  | EvOpen _ _ => true
  | _ => false
  end.

(** Between [st] and [st'] nothing was written but checkpoints. *)
Definition only_saves (st st' : state F) : Prop :=
  heap st' = heap st /\ draws st' = draws st
  /\ exists evs, trace st' = trace st ++ evs /\ forallb is_savez evs = true.

(** The buffers have capacity [N] for [nw] walkers and [nd] parameters. *)
Definition loop_inv (nw N nd : nat) (ls : @loop_state F G) : Prop :=
  shape3 (l_chain ls) = (nw, N, nd) /\ wf3 (l_chain ls) = true
  /\ shape2 (l_lnprob ls) = (nw, N) /\ wf2 (l_lnprob ls) = true.

(** The sampler's generator, in any state satisfying [I], yields one
    position per walker and one log-probability per walker, and is again
    in such a state. *)
Definition sampler_ok (I : G -> Prop) (nw nd : nat) : Prop :=
  forall g, I g ->
  exists p l g',
    next e g = Ok (p, l, g')
    /\ shape2 p = (nw, nd) /\ wf2 p = true /\ length l = nw /\ I g'.

(** How a loop of [n] passes, [j] already made, is left, and by how much
    the cursor has advanced by then. *)
Fixpoint passes_done (n j : nat) : loop_exit * nat :=
  if interrupted_at e j InStep then (Interrupted, 0)
  else
    match n with
    | O => (Exhausted, 0)
    | Datatypes.S n' =>
        if interrupted_at e j AfterChain || interrupted_at e j AfterLnprob
        then (Interrupted, 0)
        else if interrupted_at e j AfterIndex then (Interrupted, 1)
        else (fst (passes_done n' (Datatypes.S j)),
              Datatypes.S (snd (passes_done n' (Datatypes.S j))))
    end.

(** The buffers set up by [init_buffers] are well formed, of capacity
    [niters], and the cursor is inside. *)
Definition ready (nw N nd : nat) (niters : Z) (b : @buffers F) : Prop :=
  shape3 (b_chain b) = (nw, N, nd) /\ wf3 (b_chain b) = true
  /\ shape2 (b_lnprob b) = (nw, N) /\ wf2 (b_lnprob b) = true
  /\ niters = Z.of_nat N /\ (0 <= b_start b <= niters)%Z.

End LoopReference.

(** The position of the first event satisfying [p], and of the last. *)
Fixpoint first_pos {A} (p : A -> bool) (l : list A) : option nat :=
  match l with
  | [] => None
  | a :: t => if p a then Some 0 else option_map Datatypes.S (first_pos p t)
  end.

Fixpoint last_pos {A} (p : A -> bool) (l : list A) : option nat :=
  match l with
  | [] => None
  | a :: t =>
      match last_pos p t with
      | Some k => Some (Datatypes.S k)
      | None => if p a then Some 0 else None
      end
  end.

(** "The final checkpoint is written first, then the exporter is
    invoked": the last checkpoint of the trace comes before the file of
    the exporter is opened. *)
Definition checkpoint_then_export {F} (t : list (event F)) : bool :=
  match last_pos is_savez t, first_pos is_open t with
  | Some s, Some o => s <? o
  | _, _ => false
  end.

Module ToyRun.
Import Toy.

(** A fresh run of three iterations with four walkers, no burn-in, no
    autosave, under the environment [env]. *)
Definition fresh (env : env Z unit (array2 Z)) (niters : Z) (st : state Z)
  : state Z * result (@locals Z) :=
  doMCMC env "model.xcm" 4%Z 0%Z niters ["localhost"%string] "out.dat"
    "out.npz" false false false false None false 4%Z st.

(** The same run, resumed from the checkpoint in the file system. *)
Definition resumed (env : env Z unit (array2 Z)) (niters : Z) (st : state Z)
  : state Z * result (@locals Z) :=
  doMCMC env "model.xcm" 4%Z 0%Z niters ["localhost"%string] "out.dat"
    "out.npz" false true false false None false 4%Z st.

End ToyRun.

(** Between [st] and [st'] no file was written and no array passed by
    reference. *)
Definition same_files {F} (st st' : state F) : Prop :=
  trace st' = trace st /\ fs st' = fs st /\ heap st' = heap st.

Section FinishReference.
Context {F : Type} `{Num F}.

(** The lines of the export file of [chain] and [lnprob]. *)
Definition export_lines (cs : list (Z * par F)) (chain : array3 F)
  (lnprob : array2 F) : list string :=
  export_header chain (labels_of cs)
  ++ map fmt_line (export_table (flags_of cs) chain lnprob).

(** What the end of [doMCMC] writes before the last checkpoint: the
    export file when the loop ran to its end, nothing when it was
    interrupted. *)
Definition export_events (outchain : string) (cs : list (Z * par F))
  (chain : array3 F) (lnprob : array2 F) (ex : loop_exit) : list (event F) :=
  match ex with
  | Exhausted =>
      EvOpen F outchain
      :: map (EvWrite F outchain) (export_lines cs chain lnprob)
  | Interrupted => []
  end.

End FinishReference.

(** A computation that writes no file and leaves the heap alone. *)
Definition preserves {F A} (m : M F A) : Prop :=
  forall st st' r, m st = (st', r) -> same_files st st'.

Module ToyCheckpoints.
Import Toy.

(** A checkpoint with one filled iteration, and one with none: the
    latter is what a run interrupted during its first step leaves. *)
Definition one_chain : array3 Z :=
  mkA3 (4, 1, 2) [[[11; 36]]; [[15; 46]]; [[19; 56]]; [[23; 66]]]%Z.

Definition one_lnprob : array2 Z :=
  mkA2 (4, 1) [[-47]; [-61]; [-75]; [-89]]%Z.

Definition empty_chain : array3 Z := mkA3 (4, 0, 2) [[]; []; []; []].

Definition empty_lnprob : array2 Z := mkA2 (4, 0) [[]; []; []; []].

(** A state whose only file is the checkpoint [out.npz]. *)
Definition with_checkpoint (c : array3 Z) (l : array2 Z) : state Z :=
  mkState [] [("out.npz"%string, NpzFile c l)] [] 0 0.

(** The generator states of the example sampler the runs go through. *)
Definition four_by_two (g : array2 Z) : Prop :=
  shape2 g = (4, 2) /\ wf2 g = true.

(** The population [getInitialParameters] builds for four walkers from
    the first eight draws of the example environment. *)
Definition start_pos : array2 Z :=
  mkA2 (4, 2) [[10; 35]; [14; 45]; [18; 55]; [22; 65]]%Z.

(** The buffers of a fresh run of [n] iterations. *)
Definition fresh_buffers (n : nat) : @buffers Z :=
  mkBuf (mkA3 (4, n, 2) (repeat (repeat [0; 0]%Z n) 4))
    (mkA2 (4, n) (repeat (repeat 0%Z n) 4)) 0%Z start_pos.

(** The last iteration of the one-iteration checkpoint. *)
Definition one_last : array2 Z :=
  mkA2 (4, 2) [[11; 36]; [15; 46]; [19; 56]; [23; 66]]%Z.

End ToyCheckpoints.

(* ------------------------------------------------------------------ *)
(** ** main *)

(** The characters [str.split()] splits at: space, tab, newline,
    vertical tab, form feed, carriage return. *)
Definition is_space (c : ascii) : bool :=
  let n := nat_of_ascii c in (n =? 32) || ((9 <=? n) && (n <=? 13)).

(** [s.split()], scanning [s] with the word read so far in [cur]. *)
Fixpoint split_from (cur : string) (s : string) : list string :=
  match s with
  | EmptyString => if nonempty cur then [cur] else []
  | String c t =>
      if is_space c
      then if nonempty cur then cur :: split_from EmptyString t
           else split_from EmptyString t
      else split_from (cur ++ String c EmptyString) t
  end.

Definition py_split (s : string) : list string := split_from EmptyString s.

(** The namespace [p.parse_args()] returns. *)
Record args : Type := mkArgs {
  arg_xcm : string;
  arg_niters : Z;
  arg_nburn : Z;
  arg_nwalkers : Z;
  arg_systems : string;
  arg_output_npz : string;
  arg_output_chain : string;
  arg_continue_run : bool;
  arg_debug : bool;
  arg_no_chdir : bool;
  arg_initial_parameters : option string;
  arg_log_norm : bool;
  arg_chunk_size : Z
}.

Section Main.
Context {F S G : Type} `{Num F}.
Variable e : env F S G.

(** [main], from the parsed arguments on: [autosave] is not passed and
    keeps its default [True]. *)
Definition main (a : args) : M F (@locals F) :=
  doMCMC e (arg_xcm a) (arg_nwalkers a) (arg_nburn a) (arg_niters a)
    (py_split (arg_systems a)) (arg_output_chain a) (arg_output_npz a)
    (arg_debug a) (arg_continue_run a) true (arg_no_chdir a)
    (arg_initial_parameters a) (arg_log_norm a) (arg_chunk_size a).

End Main.

(** Whether [c] occurs in [s]. *)
Fixpoint has_char (c : ascii) (s : string) : bool :=
  match s with
  | EmptyString => false
  | String d t => Ascii.eqb d c || has_char c t
  end.

(** A word as [str.split()] yields them: not empty, no whitespace. *)
Definition is_word (s : string) : bool :=
  nonempty s && all_chars (fun c => negb (is_space c)) s.

(** How many iterations [writeNpz] saves of buffers of capacity [cap]
    when called with [maxindex]: a cursor at or beyond the capacity saves
    everything, a negative one counts from the end. *)
Definition saved_iterations (cap : nat) (maxindex : Z) : nat :=
  if (maxindex <? 0)%Z then Z.to_nat (Z.of_nat cap + maxindex)
  else Nat.min (Z.to_nat maxindex) cap.

Section ExporterInvariant.
Context {F : Type} `{Num F}.

(** The two comment lines every export file starts with. *)
Definition comment_lines : list string :=
  [ ("! Markov chain file generated by xspec " ++ dquote ++ "chain"
     ++ dquote ++ " command." ++ nl)%string;
    ("!    Do not modify, else file may not reload properly." ++ nl)%string ].

(** The third line, for a chain [c]. *)
Definition length_line (c : array3 F) : string :=
  ("!Length: " ++ fmt_i (Z.of_nat (dim0 c * dim1 c)) ++ "  Width: "
   ++ fmt_i (Z.of_nat (dim2 c) + 1) ++ nl)%string.

(** A computation that, run while the exporter has [fname] open, does
    nothing but append lines to that file and change the heap from
    address [base] on; it may raise. *)
Definition appends_only {A} (fname : string) (base : nat) (m : M F A)
  : Prop :=
  forall w hp st0, base <= length hp ->
  exists w' hp' r,
    m (exporting fname w hp st0) = (exporting fname (w ++ w') hp' st0, r)
    /\ firstn base hp' = firstn base hp /\ length hp <= length hp'.

End ExporterInvariant.

Section LoopDetail.
Context {F S G : Type} `{Num F}.
Variable e : env F S G.

(** The first [k] results the generator yields from state [g], and the
    state it is left in; the exception of the first step that raises. *)
Fixpoint yields (g : G) (k : nat) : result (list (array2 F * list F) * G) :=
  match k with
  | O => Ok ([], g)
  | Datatypes.S k' =>
      (do r <- next e g;
       do rest <- yields (snd r) k';
       Ok (fst r :: fst rest, snd rest))%res
  end.

(** A result of the sampler fit for buffers of [nw] walkers and [nd]
    parameters. *)
Definition fits (nw nd : nat) (y : array2 F * list F) : Prop :=
  shape2 (fst y) = (nw, nd) /\ wf2 (fst y) = true /\ length (snd y) = nw.

(** [ev] is a checkpoint written to the file of [outnpz] with the cursor
    at some [m], [lo < m <= hi], holding the first [m] iterations of [c]
    and [l]. *)
Definition is_prefix_save (outnpz : string) (c : array3 F) (l : array2 F)
  (lo hi : Z) (ev : event F) : Prop :=
  exists m, (lo < Z.of_nat m <= hi)%Z
    /\ ev = EvSavez (npz_name outnpz) (prefix3 m c) (prefix2 m l).

End LoopDetail.

Module ToyFailures.
Import Toy.

(** The example environment with another pool and another sampler. *)
Definition env_with (pl : pool Z)
  (nxt : array2 Z -> result (array2 Z * list Z * array2 Z))
  : env Z unit (array2 Z) := {|
  XspecPool := fun _ _ _ _ _ _ => Ok pl;
  loadtxt := fun _ => Raise IOError;
  EnsembleSampler := fun k dim =>
    if Z.even k && (2 * Z.of_nat dim <=? k)%Z then Ok tt
    else Raise AssertionError;
  run_mcmc := fun p _ => Ok (p, tt);
  sample := fun p _ => p;
  next := nxt;
  normal := fun k loc sc => (loc + Z.of_nat k * sc)%Z;
  clock := fun k => (Z.of_nat k * 400)%Z;
  interrupt := None
|}.

(** A pool whose second column index names a third parameter, which
    does not exist. *)
Definition bad_pool : pool Z := mkPool [kT; norm] [kT; norm] [1%Z; 3%Z].

(** A sampler that fails once the first walker's first coordinate has
    reached [limit]. *)
Definition failing_step (limit : Z) (g : array2 Z)
  : result (array2 Z * list Z * array2 Z) :=
  if (limit <=? nth 0 (nth 0 (data2 g) []) 0)%Z then Raise KeyError
  else step g.

End ToyFailures.

Module ToyClock.
Import Toy.

(** The example environment with a clock that reads one second more at
    every reading. *)
Definition seconds_env : env Z unit (array2 Z) := {|
  XspecPool := fun _ _ _ _ _ _ => Ok the_pool;
  loadtxt := fun _ => Raise IOError;
  EnsembleSampler := fun k dim =>
    if Z.even k && (2 * Z.of_nat dim <=? k)%Z then Ok tt
    else Raise AssertionError;
  run_mcmc := fun p _ => Ok (p, tt);
  sample := fun p _ => p;
  next := step;
  normal := fun k loc sc => (loc + Z.of_nat k * sc)%Z;
  clock := fun k => Z.of_nat k;
  interrupt := None
|}.

End ToyClock.

Section BuilderReference.
Context {F : Type} `{Num F}.

(** The spread of the draw of [p] is not negative, so the draw is
    made. *)
Definition width_ok (p : par F) : bool := negb (flt (draw_width p) fzero).

(** The hard limits of [p] are numbers, the lower one first. *)
Definition proper_range (p : par F) : bool :=
  negb (is_nan (val_hardmin p)) && negb (is_nan (val_hardmax p))
  && fle (val_hardmin p) (val_hardmax p).

End BuilderReference.

Module ToyRanges.
Import Toy.

(** A frozen parameter, for which xspec reports a negative
    [val_delta]. *)
Definition frozen : par Z :=
  mkPar "nH" "10^22" 10%Z (-1)%Z 0%Z 0%Z 100%Z false.

(** A parameter whose hard limits are the wrong way round. *)
Definition inverted : par Z :=
  mkPar "kT" "keV" 10%Z 5%Z 20%Z 100%Z 0%Z false.

End ToyRanges.

(** [line.split(sep)] for a one-character [sep], scanning with the field
    read so far in [cur]. *)
Fixpoint split_at (sep : ascii) (cur s : string) : list string :=
  match s with
  | EmptyString => [cur]
  | String c t =>
      if Ascii.eqb c sep then cur :: split_at sep EmptyString t
      else split_at sep (cur ++ String c EmptyString) t
  end.

(** The columns of a line of the export file: what is between its
    tabs. *)
Definition fields_of (line : string) : list string :=
  split_at (ascii_of_nat 9) EmptyString line.

(* ================================================================== *)
(** * Theorems *)

(* ------------------------------------------------------------------ *)
(** ** Results and the state monad *)

Lemma bind_ok {F A B} (m : M F A) (k : A -> M F B) st st' a :
  m st = (st', Ok a) -> bind m k st = k a st'.
Proof. intros E. unfold bind. rewrite E. reflexivity. Qed.

Lemma bind_raise {F A B} (m : M F A) (k : A -> M F B) st st' x :
  m st = (st', Raise x) -> bind m k st = (st', Raise x).
Proof. intros E. unfold bind. rewrite E. reflexivity. Qed.


(* ------------------------------------------------------------------ *)
(** ** InitialStateBuilder *)

Section InitialState.
Context {F S G : Type} `{Num F}.
Variable e : env F S G.

Lemma add_draws_0 (st : state F) : add_draws 0 st = st.
Proof. destruct st; reflexivity. Qed.

Lemma random_normal_ok loc scale (st : state F) :
  flt scale fzero = false ->
  random_normal e loc scale st
  = (add_draws 1 st, Ok (normal e (draws st) loc scale)).
Proof. intros Hs. unfold random_normal. rewrite Hs. reflexivity. Qed.

Lemma random_normal_negative loc scale (st : state F) :
  flt scale fzero = true ->
  random_normal e loc scale st = (st, Raise ValueError).
Proof. intros Hs. unfold random_normal. rewrite Hs. reflexivity. Qed.

Lemma init_walker_spec ps st :
  forallb width_ok ps = true ->
  init_walker e ps st
  = (add_draws (length ps) st, Ok (clipped_draws e (draws st) ps)).
Proof.
  revert st. induction ps as [| p ps IH]; intros st Hw.
  - cbn. rewrite add_draws_0. reflexivity.
  - cbn [forallb] in Hw. apply andb_true_iff in Hw. destruct Hw as [Hp Hw].
    apply negb_true_iff in Hp.
    cbn [init_walker].
    rewrite (bind_ok _ _ _ (random_normal_ok _ _ st Hp)).
    unfold bind at 1. rewrite (IH _ Hw). cbn.
    unfold add_draws, ret. cbn.
    rewrite Nat.add_succ_r. reflexivity.
Qed.

Lemma init_walkers_spec ps n st :
  forallb width_ok ps = true ->
  init_walkers e ps n st
  = (add_draws (n * length ps) st,
     Ok (map (fun w => clipped_draws e (w * length ps + draws st) ps)
           (seq 0 n))).
Proof.
  intros Hw. revert st. induction n as [| n IH]; intros st.
  - cbn. rewrite add_draws_0. reflexivity.
  - cbn [init_walkers]. unfold bind at 1. rewrite (init_walker_spec _ _ Hw).
    unfold bind at 1. rewrite IH. unfold ret.
    f_equal.
    + unfold add_draws. cbn. f_equal. lia.
    + f_equal. cbn [seq map]. f_equal.
      rewrite <- seq_shift, map_map. apply map_ext. intros w.
      f_equal. cbn. lia.
Qed.

(** One walker when some parameter has a negative spread: the draw of
    the first such parameter raises. *)
Lemma init_walker_negative ps st :
  forallb width_ok ps = false ->
  exists k, k < length ps
    /\ init_walker e ps st = (add_draws k st, Raise ValueError).
Proof.
  revert st. induction ps as [| p ps IH]; intros st Hw; [discriminate |].
  cbn [forallb] in Hw. cbn [init_walker length].
  destruct (width_ok p) eqn:Hp.
  - cbn [andb] in Hw. apply negb_true_iff in Hp.
    rewrite (bind_ok _ _ _ (random_normal_ok _ _ st Hp)).
    destruct (IH (add_draws 1 st) Hw) as [k [Hk Hrun]].
    exists (Datatypes.S k). split; [lia |].
    unfold bind at 1. rewrite Hrun.
    unfold add_draws. cbn. rewrite Nat.add_succ_r. reflexivity.
  - apply negb_false_iff in Hp. exists 0. split; [lia |].
    rewrite (bind_raise _ _ _ (random_normal_negative _ _ st Hp)).
    rewrite add_draws_0. reflexivity.
Qed.

(** Clipping a number into a range of numbers, [lo <= hi], gives a value
    of the range. *)
Lemma clip_within v lo hi :
  is_nan v = false -> is_nan lo = false -> is_nan hi = false ->
  fle lo hi = true -> fle lo (clip v lo hi) && fle (clip v lo hi) hi = true.
Proof.
  intros Hv Hlo Hhi Hlh.
  pose proof Hlo as Hlo'. pose proof Hhi as Hhi'.
  unfold is_nan in Hlo', Hhi'.
  apply negb_false_iff in Hlo'. apply negb_false_iff in Hhi'.
  unfold clip, fmaximum. rewrite Hv, Hlo.
  destruct (fle lo v) eqn:E1; unfold fminimum.
  - rewrite Hv, Hhi. destruct (fle v hi) eqn:E2.
    + rewrite E1, E2. reflexivity.
    + rewrite Hlh, Hhi'. reflexivity.
  - rewrite Hlo, Hhi, Hlh, Hlo', Hlh. reflexivity.
Qed.

Lemma clipped_draws_within ps k :
  forallb proper_range ps = true ->
  (forall j p, In p ps ->
     is_nan (normal e j (val_init p) (draw_width p)) = false) ->
  Forall2 (fun p v => within_hard_range p v = true) ps (clipped_draws e k ps).
Proof.
  revert k. induction ps as [| p ps IH]; intros k Hr Hn; cbn.
  - constructor.
  - cbn in Hr. apply andb_true_iff in Hr. destruct Hr as [Hp Hr].
    unfold proper_range in Hp.
    apply andb_true_iff in Hp. destruct Hp as [Hp Hlh].
    apply andb_true_iff in Hp. destruct Hp as [Hlo Hhi].
    apply negb_true_iff in Hlo. apply negb_true_iff in Hhi.
    constructor.
    + unfold within_hard_range. apply clip_within; try assumption.
      apply Hn. left. reflexivity.
    + apply IH; [exact Hr |]. intros j q Hq. apply Hn. right. exact Hq.
Qed.

(** C8, as the code has it.  When no parameter has a negative spread,
    [getInitialParameters] returns without raising, makes exactly one
    draw per walker and parameter (it never draws again), and every
    value is the clipped draw; when moreover every hard range is a range
    of numbers with [val_hardmin <= val_hardmax] and the draws are
    numbers, every value lies within the hard range of its parameter.
    When some parameter has a negative spread and there is a walker, the
    draw of that parameter raises [ValueError]. *)
Theorem getInitialParameters_within_bounds ps nwalkers st :
  let n := Z.to_nat nwalkers in
  let p0 := map (fun w => clipped_draws e (w * length ps + draws st) ps)
              (seq 0 n) in
  (forallb width_ok ps = true ->
   getInitialParameters e ps nwalkers st
   = (add_draws (n * length ps) st, Ok (N_array p0))
   /\ length p0 = n
   /\ (forallb proper_range ps = true ->
       (forall j p, In p ps ->
          is_nan (normal e j (val_init p) (draw_width p)) = false) ->
       Forall (Forall2 (fun p v => within_hard_range p v = true) ps) p0))
  /\ (forallb width_ok ps = false -> (1 <= nwalkers)%Z ->
      exists k, k < length ps
        /\ getInitialParameters e ps nwalkers st
           = (add_draws k st, Raise ValueError)).
Proof.
  intros n p0. split.
  - intros Hw. split; [| split].
    + unfold getInitialParameters. unfold bind.
      rewrite (init_walkers_spec _ _ _ Hw). reflexivity.
    + unfold p0. rewrite length_map, length_seq. reflexivity.
    + intros Hr Hn. unfold p0. apply Forall_map. apply Forall_forall.
      intros w _. apply clipped_draws_within; assumption.
  - intros Hw Hn1.
    destruct (init_walker_negative ps st Hw) as [k [Hk Hrun]].
    exists k. split; [exact Hk |].
    unfold getInitialParameters. apply bind_raise.
    destruct n as [| n'] eqn:En; [unfold n in En; lia |].
    fold n. rewrite En. cbn [init_walkers]. apply bind_raise. exact Hrun.
Qed.

(** C9. The spread of the draw is [val_sigma*0.1] when
    [0 < val_sigma*0.1 < val_delta] and [val_delta] otherwise, the boundary
    [val_sigma*0.1 = val_delta] included; it is the spread the draw of the
    parameter is made with, a draw that [N.random.normal] refuses when
    that spread is negative. *)
Theorem draw_width_override (p : par F) :
  let swidth := fmul (val_sigma p) ftenth in
  (flt fzero swidth = true -> flt swidth (val_delta p) = true ->
   draw_width p = swidth)
  /\ (flt fzero swidth = false \/ flt swidth (val_delta p) = false ->
      draw_width p = val_delta p)
  /\ (swidth = val_delta p -> draw_width p = val_delta p)
  /\ (forall st,
        init_walker e [p] st
        = if flt (draw_width p) fzero then (st, Raise ValueError)
          else (add_draws 1 st,
                Ok [clip (normal e (draws st) (val_init p) (draw_width p))
                      (val_hardmin p) (val_hardmax p)])).
Proof.
  intros swidth. split; [| split; [| split]].
  - intros H0 H1. unfold draw_width. fold swidth. rewrite H0, H1. reflexivity.
  - intros [H0 | H1]; unfold draw_width; fold swidth.
    + rewrite H0. reflexivity.
    + rewrite H1, andb_false_r. reflexivity.
  - intros E. unfold draw_width. fold swidth. rewrite E.
    destruct (_ && _); reflexivity.
  - intros st. destruct (flt (draw_width p) fzero) eqn:Hw.
    + cbn [init_walker]. apply bind_raise.
      apply random_normal_negative. exact Hw.
    + rewrite init_walker_spec; [reflexivity |].
      cbn [forallb]. unfold width_ok. rewrite Hw. reflexivity.
Qed.

End InitialState.

(** C8 at a concrete model: four walkers over the two example
    parameters. *)
Lemma getInitialParameters_within_bounds_witness :
  let ps := [Toy.kT; Toy.norm] in
  let p0 := map (fun w => clipped_draws (Toy.the_env None) (w * 2 + 0) ps)
              (seq 0 4) in
  getInitialParameters (Toy.the_env None) ps 4%Z Toy.empty_state
  = (add_draws 8 Toy.empty_state, Ok (N_array p0))
  /\ length p0 = 4
  /\ Forall (Forall2 (fun p v => within_hard_range p v = true) ps) p0.
Proof.
  assert (Hw : forallb width_ok [Toy.kT; Toy.norm] = true)
    by (vm_compute; reflexivity).
  destruct (proj1 (getInitialParameters_within_bounds (Toy.the_env None)
                     [Toy.kT; Toy.norm] 4%Z Toy.empty_state) Hw)
    as [Hrun [Hlen Hin]].
  split; [exact Hrun |]. split; [exact Hlen |].
  apply Hin; [vm_compute; reflexivity |].
  intros j p _. unfold is_nan. cbn [fle Toy.ZNum].
  rewrite Z.leb_refl. reflexivity.
Defined.

(** C8 as worded does not hold.  A parameter whose [val_delta] is
    negative, as xspec has it for a frozen parameter, makes the builder
    raise; and with a hard range whose limits are the wrong way round
    the value the builder returns is [val_hardmax], which is below
    [val_hardmin] and so outside the range. *)
Theorem getInitialParameters_not_always_within :
  getInitialParameters (Toy.the_env None) [ToyRanges.frozen] 1%Z
    Toy.empty_state
  = (Toy.empty_state, Raise ValueError)
  /\ getInitialParameters (Toy.the_env None) [ToyRanges.inverted] 1%Z
       Toy.empty_state
     = (add_draws 1 Toy.empty_state,
        Ok (N_array [[val_hardmax ToyRanges.inverted]]))
  /\ within_hard_range ToyRanges.inverted (val_hardmax ToyRanges.inverted)
     = false.
Proof. vm_compute. repeat split. Qed.

(** C9 at a concrete parameter: [val_sigma*0.1 = 2 < 5 = val_delta]. *)
Lemma draw_width_override_witness :
  draw_width Toy.kT = fmul (val_sigma Toy.kT) ftenth.
Proof.
  apply (proj1 (draw_width_override (Toy.the_env None) Toy.kT));
    reflexivity.
Defined.

(* ------------------------------------------------------------------ *)
(** ** expandSystems *)

Lemma first_some_app {A B} (f : A -> option B) l1 l2 :
  first_some f (l1 ++ l2)
  = match first_some f l1 with
    | Some b => Some b
    | None => first_some f l2
    end.
Proof.
  induction l1 as [| a l1 IH]; cbn; [reflexivity |].
  destruct (f a); [reflexivity | exact IH].
Qed.

Lemma first_some_single {A B} (f : A -> option B) a :
  first_some f [a] = f a.
Proof. cbn. destruct (f a); reflexivity. Qed.

Lemma first_some_map {A A' B} (g : A -> A') (f : A' -> option B) l :
  first_some f (map g l) = first_some (fun a => f (g a)) l.
Proof.
  induction l as [| a l IH]; cbn; [reflexivity |].
  destruct (f (g a)); [reflexivity | exact IH].
Qed.

Lemma first_some_ext {A B} (f g : A -> option B) l :
  (forall a, f a = g a) -> first_some f l = first_some g l.
Proof.
  intros E. induction l as [| a l IH]; cbn; [reflexivity |].
  rewrite E, IH. reflexivity.
Qed.

Lemma first_some_option_map {A B C} (f : A -> option B) (h : B -> C) l :
  first_some (fun a => option_map h (f a)) l = option_map h (first_some f l).
Proof.
  induction l as [| a l IH]; cbn; [reflexivity |].
  destruct (f a); [reflexivity | exact IH].
Qed.

(** The candidates of [cls+] are empty exactly when the string does not
    start with a character of the class; otherwise the first candidate is
    the longest run. *)
Lemma plus_matches_head cls s :
  match plus_matches cls s with
  | [] => fst (span cls s) = EmptyString
  | m :: _ => m = span cls s /\ nonempty (fst m) = true
  end.
Proof.
  induction s as [| c t IH]; cbn; [reflexivity |].
  destruct (cls c); [| reflexivity].
  destruct (plus_matches cls t) as [| m l]; cbn.
  - rewrite IH. destruct t as [| c' t']; cbn in *.
    + split; reflexivity.
    + destruct (cls c'); cbn in *; [discriminate |]. split; reflexivity.
  - destruct IH as [IH _]. rewrite IH. split; reflexivity.
Qed.

(** The second group: the longest run of digits, if there is one. *)
Lemma digits_group (nm r : string) :
  first_some (fun g2 => Some (nm, fst g2)) (plus_matches is_digit r)
  = if nonempty (fst (span is_digit r))
    then Some (nm, fst (span is_digit r))
    else None.
Proof.
  pose proof (plus_matches_head is_digit r) as Hh.
  destruct (plus_matches is_digit r) as [| m l]; cbn.
  - rewrite Hh. reflexivity.
  - destruct Hh as [Hm Hne]. rewrite <- Hm, Hne. reflexivity.
Qed.


Lemma try_name_spec g1 :
  try_name g1
  = match snd g1 with
    | String c r =>
        if Ascii.eqb c "*"%char && nonempty (fst (span is_digit r))
        then Some (fst g1, fst (span is_digit r))
        else None
    | EmptyString => None
    end.
Proof.
  unfold try_name. destruct (snd g1) as [| c r]; [reflexivity |].
  destruct (Ascii.eqb c "*"%char); [| reflexivity].
  rewrite digits_group. reflexivity.
Qed.

Lemma leading_star_form_try s :
  leading_star_form s
  = if nonempty (fst (span is_alnum s))
    then try_name (span is_alnum s)
    else None.
Proof.
  rewrite try_name_spec. unfold leading_star_form.
  destruct (snd (span is_alnum s)) as [| c r].
  - destruct (nonempty _); reflexivity.
  - destruct (nonempty (fst (span is_alnum s))); reflexivity.
Qed.

Lemma star_not_alnum c : is_alnum c = true -> Ascii.eqb c "*"%char = false.
Proof.
  intros Hc. destruct (Ascii.eqb_spec c "*"%char) as [-> | _];
    [discriminate Hc | reflexivity].
Qed.

(** The backtracking matcher finds what a single left-to-right scan
    finds: shorter candidates for the name are followed by a letter or a
    digit, never by the star. *)
Lemma re_match_system_scan s : re_match_system s = leading_star_form s.
Proof.
  rewrite leading_star_form_try. unfold re_match_system.
  induction s as [| c t IH]; [reflexivity |].
  cbn [plus_matches span]. destruct (is_alnum c) eqn:Hc; [| reflexivity].
  cbn [fst snd nonempty].
  rewrite first_some_app, first_some_map.
  rewrite (first_some_ext _
             (fun a => option_map
                         (fun m => (String c (fst m), snd m)) (try_name a))).
  2:{ intros [m r]. rewrite !try_name_spec. cbn [fst snd].
      destruct r as [| c' r']; [reflexivity |].
      destruct (_ && _); reflexivity. }
  rewrite first_some_option_map, IH, first_some_single.
  destruct t as [| c' t'].
  - reflexivity.
  - cbn [span]. destruct (is_alnum c') eqn:Hc'; cbn [fst snd nonempty].
    + rewrite !try_name_spec. cbn [fst snd].
      rewrite (star_not_alnum c' Hc'). cbn [andb].
      destruct (snd (span is_alnum t')) as [| d r]; [reflexivity |].
      destruct (_ && _); reflexivity.
    + reflexivity.
Qed.

Lemma expandSystems_flat_map systems :
  expandSystems systems = flat_map expand_entry systems.
Proof.
  induction systems as [| s rest IH]; [reflexivity |].
  cbn [expandSystems flat_map]. unfold expand_entry at 1.
  rewrite re_match_system_scan, IH.
  destruct (leading_star_form s); reflexivity.
Qed.

Lemma span_app_stop cls a b :
  all_chars cls a = true ->
  match b with
  | EmptyString => True
  | String c _ => cls c = false
  end ->
  span cls (a ++ b) = (a, b).
Proof.
  intros Ha Hb. induction a as [| c a IH]; cbn in *.
  - destruct b as [| c b]; [reflexivity |]. cbn. rewrite Hb. reflexivity.
  - apply andb_true_iff in Ha. destruct Ha as [Hc Ha].
    rewrite Hc, (IH Ha). reflexivity.
Qed.

Lemma span_decompose cls s :
  s = (fst (span cls s) ++ snd (span cls s))%string
  /\ all_chars cls (fst (span cls s)) = true
  /\ match snd (span cls s) with
     | EmptyString => True
     | String c _ => cls c = false
     end.
Proof.
  induction s as [| c t [IH1 [IH2 IH3]]]; cbn.
  - repeat split.
  - destruct (cls c) eqn:Hc; cbn.
    + rewrite <- IH1, Hc, IH2. repeat split. exact IH3.
    + rewrite Hc. repeat split.
Qed.

(** An entry has the leading form exactly when it splits into a name of
    letters and digits, a star, a run of digits, and a rest that does not
    go on with a digit. *)
Lemma leading_star_form_inv s nm k :
  leading_star_form s = Some (nm, k) ->
  exists rest,
    s = (nm ++ "*" ++ k ++ rest)%string
    /\ nonempty nm = true /\ all_chars is_alnum nm = true
    /\ nonempty k = true /\ all_chars is_digit k = true
    /\ match rest with
       | EmptyString => True
       | String c _ => is_digit c = false
       end.
Proof.
  unfold leading_star_form.
  destruct (span_decompose is_alnum s) as [Hs [Hall _]].
  destruct (snd (span is_alnum s)) as [| c r] eqn:Er; [discriminate |].
  destruct (span_decompose is_digit r) as [Hr [Hdig Hstop]].
  destruct (nonempty (fst (span is_alnum s))) eqn:Hn; [| discriminate].
  destruct (Ascii.eqb_spec c "*"%char) as [-> | _]; [| discriminate].
  destruct (nonempty (fst (span is_digit r))) eqn:Hk; [| discriminate].
  cbn [andb]. intros E. injection E as <- <-.
  exists (snd (span is_digit r)).
  split; [| repeat split; assumption].
  rewrite Hs at 1. f_equal. cbn [append]. f_equal. exact Hr.
Qed.

(** C10, as the code has it.  Order is kept: the result is the
    concatenation, entry by entry, of what each entry expands to.  An
    entry that starts with [NAME*K], [NAME] letters and digits and [K]
    digits, gives [K] copies of [NAME], and what follows [K] is dropped;
    in particular an entry that is exactly [NAME*K] does.  An entry that
    does not start so passes through unchanged. *)
Theorem expandSystems_leading_form systems :
  expandSystems systems = flat_map expand_entry systems
  /\ (forall nm k rest,
        nonempty nm = true -> all_chars is_alnum nm = true ->
        nonempty k = true -> all_chars is_digit k = true ->
        match rest with
        | EmptyString => True
        | String c _ => is_digit c = false
        end ->
        expand_entry (nm ++ "*" ++ k ++ rest) = repeat nm (int_of_string k))
  /\ (forall s,
        (forall nm k rest,
           s = (nm ++ "*" ++ k ++ rest)%string ->
           nonempty nm = true -> all_chars is_alnum nm = true ->
           nonempty k = true -> all_chars is_digit k = true ->
           False) ->
        expand_entry s = [s]).
Proof.
  split; [apply expandSystems_flat_map | split].
  - intros nm k rest Hn Ha Hk Hd Hrest.
    unfold expand_entry, leading_star_form.
    rewrite (span_app_stop is_alnum nm ("*" ++ k ++ rest) Ha eq_refl).
    cbn [fst snd append]. rewrite (span_app_stop is_digit k rest Hd Hrest).
    cbn [fst snd]. rewrite Hn, Hk. reflexivity.
  - intros s Hnone. unfold expand_entry.
    destruct (leading_star_form s) as [[nm k] |] eqn:E; [| reflexivity].
    destruct (@leading_star_form_inv s nm k E)
      as [rest [Hs [Hn [Ha [Hk [Hd _]]]]]].
    destruct (Hnone nm k rest Hs Hn Ha Hk Hd).
Qed.

(** C10 at concrete entries. *)
Lemma expandSystems_leading_form_witness :
  expand_entry "node7*3" = ["node7"; "node7"; "node7"]%string
  /\ expand_entry "my-host*2" = ["my-host*2"%string].
Proof.
  split.
  - apply (proj1 (proj2 (expandSystems_leading_form [])) "node7" "3" "")%string;
      reflexivity.
  - apply (proj2 (proj2 (expandSystems_leading_form []))).
    intros nm k rest Hs Hn Ha _ _.
    destruct nm as [| c1 nm]; [discriminate Hn |].
    cbn in Hs. injection Hs as Hc1 Hs.
    destruct nm as [| c2 nm]; cbn in Hs; [discriminate Hs |].
    injection Hs as Hc2 Hs.
    destruct nm as [| c3 nm]; cbn in Hs; [discriminate Hs |].
    injection Hs as Hc3 Hs. subst c1 c2 c3.
    vm_compute in Ha. discriminate Ha.
Defined.

(** C10 as worded fails: ["a*2b"] is not of the form [NAME*K], since
    ["2b"] is not a count, and yet it is not passed through unchanged. *)
Lemma expandSystems_not_as_worded :
  whole_star_form "a*2b" = None
  /\ expandSystems ["a*2b"%string] = ["a"; "a"]%string
  /\ expandSystems ["a*2b"%string]
     <> flat_map expand_entry_as_worded ["a*2b"%string].
Proof.
  split; [reflexivity | split; [reflexivity | discriminate]].
Qed.

(* ------------------------------------------------------------------ *)
(** ** Arrays *)

Lemma wf_rows_spec {A} n m (d : list (list A)) :
  wf_rows n m d = true <-> length d = n /\ Forall (fun r => length r = m) d.
Proof.
  unfold wf_rows. rewrite andb_true_iff, Nat.eqb_eq, forallb_forall, Forall_forall.
  split; intros [Hl Hr]; (split; [exact Hl |]); intros r Hin.
  - apply Nat.eqb_eq, Hr, Hin.
  - apply Nat.eqb_eq, Hr, Hin.
Qed.

Lemma wf3_spec {F} (a : array3 F) :
  wf3 a = true
  <-> length (data3 a) = dim0 a
      /\ Forall (fun w => length w = dim1 a
                          /\ Forall (fun r => length r = dim2 a) w) (data3 a).
Proof.
  unfold wf3. rewrite andb_true_iff, Nat.eqb_eq, forallb_forall, Forall_forall.
  split; intros [Hl Hr]; (split; [exact Hl |]); intros w Hin.
  - apply wf_rows_spec, Hr, Hin.
  - apply wf_rows_spec, Hr, Hin.
Qed.

Lemma wf2_spec {F} (a : array2 F) :
  wf2 a = true
  <-> length (data2 a) = rows a /\ Forall (fun r => length r = cols a) (data2 a).
Proof. apply wf_rows_spec. Qed.

Lemma map_firstn_all {A} n (d : list (list A)) :
  Forall (fun r => length r = n) d -> map (firstn n) d = d.
Proof.
  induction 1 as [| r d Hr _ IH]; cbn; [reflexivity |].
  rewrite IH. f_equal. rewrite <- Hr. apply firstn_all.
Qed.

Lemma Forall_firstn_length {A} m n (d : list (list A)) :
  m <= n -> Forall (fun r => length r = n) d ->
  Forall (fun r => length r = m) (map (firstn m) d).
Proof.
  intros Hmn Hd. apply Forall_map. revert Hd. apply Forall_impl.
  intros r Hr. rewrite length_firstn. lia.
Qed.

Lemma In_firstn {A} n (l : list A) x : In x (firstn n l) -> In x l.
Proof.
  intros Hin. rewrite <- (firstn_skipn n l). apply in_or_app. left. exact Hin.
Qed.

Lemma wf3_prefix {F} m (a : array3 F) :
  m <= dim1 a -> wf3 a = true -> wf3 (prefix3 m a) = true.
Proof.
  intros Hm Ha. apply wf3_spec in Ha. destruct Ha as [Hl Hw].
  apply wf3_spec. unfold prefix3, dim0, dim1, dim2. cbn [shape3 data3 fst snd].
  split.
  - rewrite length_map. exact Hl.
  - apply Forall_map. revert Hw. apply Forall_impl. intros w [Hw Hr].
    split.
    + rewrite length_firstn. fold (dim1 a) in Hw. lia.
    + apply Forall_forall. intros r Hin.
      apply (proj1 (Forall_forall _ _) Hr). apply (In_firstn m). exact Hin.
Qed.

Lemma wf2_prefix {F} m (a : array2 F) :
  m <= cols a -> wf2 a = true -> wf2 (prefix2 m a) = true.
Proof.
  intros Hm Ha. apply wf2_spec in Ha. destruct Ha as [Hl Hr].
  apply wf2_spec. unfold prefix2, rows, cols. cbn [shape2 data2 fst snd].
  split.
  - rewrite length_map. exact Hl.
  - apply Forall_firstn_length with (n := cols a); assumption.
Qed.

Lemma prefix3_full {F} (a : array3 F) :
  wf3 a = true -> prefix3 (dim1 a) a = a.
Proof.
  intros Ha. apply wf3_spec in Ha. destruct Ha as [_ Hw].
  destruct a as [[[n0 n1] n2] d]. unfold prefix3, dim0, dim1, dim2 in *.
  cbn [shape3 data3 fst snd] in *. f_equal.
  apply map_firstn_all. revert Hw. apply Forall_impl. intros w [Hw _]. exact Hw.
Qed.

Lemma prefix2_full {F} (a : array2 F) :
  wf2 a = true -> prefix2 (cols a) a = a.
Proof.
  intros Ha. apply wf2_spec in Ha. destruct Ha as [_ Hr].
  destruct a as [[n0 n1] d]. unfold prefix2, rows, cols in *.
  cbn [shape2 data2 fst snd] in *. f_equal.
  apply map_firstn_all. exact Hr.
Qed.

Lemma slice_stop_inside n m :
  (0 <= m <= Z.of_nat n)%Z -> slice_stop n m = Z.to_nat m.
Proof.
  intros Hm. unfold slice_stop.
  destruct (Z.ltb_spec m 0); lia.
Qed.

(* ------------------------------------------------------------------ *)
(** ** CheckpointStore *)

Section Checkpoint.
Context {F S G : Type} `{Num F}.
Variable e : env F S G.

(** [writeNpz] never raises and writes one snapshot. *)
Lemma writeNpz_run filename (chain : array3 F) lnprob maxindex st :
  writeNpz filename chain lnprob maxindex st
  = (after_savez (npz_name filename)
       (if (maxindex <? Z.of_nat (dim1 chain))%Z
        then slice3 chain maxindex else chain)
       (if (maxindex <? Z.of_nat (dim1 chain))%Z
        then slice2 lnprob maxindex else lnprob) st,
     Ok tt).
Proof.
  unfold writeNpz. destruct (maxindex <? Z.of_nat (dim1 chain))%Z; reflexivity.
Qed.

(** With a cursor inside the capacity, what is saved is the prefix up to
    the cursor, whether or not a slice had to be taken. *)
Lemma writeNpz_prefix_run filename (chain : array3 F) lnprob maxindex st :
  wf3 chain = true -> wf2 lnprob = true ->
  shape2 lnprob = (dim0 chain, dim1 chain) ->
  (0 <= maxindex <= Z.of_nat (dim1 chain))%Z ->
  writeNpz filename chain lnprob maxindex st
  = (after_savez (npz_name filename) (prefix3 (Z.to_nat maxindex) chain)
       (prefix2 (Z.to_nat maxindex) lnprob) st,
     Ok tt).
Proof.
  intros Hc Hl Hs Hm.
  assert (Hcols : cols lnprob = dim1 chain) by (unfold cols; rewrite Hs; reflexivity).
  rewrite writeNpz_run.
  destruct (Z.ltb_spec maxindex (Z.of_nat (dim1 chain))) as [Hlt | Hge].
  - unfold slice3, slice2. rewrite Hcols.
    rewrite (@slice_stop_inside (dim1 chain) maxindex Hm). reflexivity.
  - assert (Em : Z.to_nat maxindex = dim1 chain) by lia.
    rewrite Em, (@prefix3_full _ chain Hc).
    rewrite <- Hcols, (@prefix2_full _ lnprob Hl). reflexivity.
Qed.

(** C2. With buffers of capacity [dim1 chain] and a cursor inside the
    capacity, what [writeNpz] saves is the filled prefix and nothing else:
    arrays of shapes [(nwalkers, maxindex, ndims)] and
    [(nwalkers, maxindex)] that hold the first [maxindex] iterations of
    every walker. *)
Theorem writeNpz_saves_filled_prefix
  filename (chain : array3 F) lnprob maxindex st :
  wf3 chain = true -> wf2 lnprob = true ->
  shape2 lnprob = (dim0 chain, dim1 chain) ->
  (0 <= maxindex <= Z.of_nat (dim1 chain))%Z ->
  let m := Z.to_nat maxindex in
  writeNpz filename chain lnprob maxindex st
  = (after_savez (npz_name filename) (prefix3 m chain) (prefix2 m lnprob) st,
     Ok tt)
  /\ shape3 (prefix3 m chain) = (dim0 chain, m, dim2 chain)
  /\ shape2 (prefix2 m lnprob) = (dim0 chain, m)
  /\ wf3 (prefix3 m chain) = true
  /\ wf2 (prefix2 m lnprob) = true.
Proof.
  intros Hc Hl Hs Hm m.
  assert (Hrows : rows lnprob = dim0 chain) by (unfold rows; rewrite Hs; reflexivity).
  assert (Hcols : cols lnprob = dim1 chain) by (unfold cols; rewrite Hs; reflexivity).
  split; [| split; [| split; [| split]]].
  - apply writeNpz_prefix_run; assumption.
  - reflexivity.
  - unfold prefix2. cbn [shape2]. rewrite Hrows. reflexivity.
  - apply wf3_prefix; [unfold m; lia | exact Hc].
  - apply wf2_prefix; [rewrite Hcols; unfold m; lia | exact Hl].
Qed.

End Checkpoint.

(* ------------------------------------------------------------------ *)
(** ** ChainExporter *)

Lemma norm_index_inside n i :
  (0 <= i < Z.of_nat n)%Z -> norm_index n i = Ok (Z.to_nat i).
Proof.
  intros Hi. unfold norm_index.
  destruct (Z.leb_spec 0 i); [| lia].
  destruct (Z.ltb_spec i (Z.of_nat n)); [reflexivity | lia].
Qed.

Lemma fs_remove_idem {F} fname (l : list (string * file F)) x :
  fs_remove fname ((fname, x) :: fs_remove fname l) = fs_remove fname l.
Proof.
  unfold fs_remove. cbn [filter fst]. rewrite String.eqb_refl. cbn [negb].
  induction l as [| [n f] l IH]; cbn [filter fst]; [reflexivity |].
  destruct (negb (String.eqb n fname)) eqn:E; cbn [filter fst].
  - rewrite E, IH. reflexivity.
  - exact IH.
Qed.

Lemma nth_error_snoc {A} (l : list A) x : nth_error (l ++ [x]) (length l) = Some x.
Proof. rewrite nth_error_app2, Nat.sub_diag by lia. reflexivity. Qed.

Lemma list_set_snoc {A} (l : list A) x y :
  list_set (length l) y (l ++ [x]) = l ++ [y].
Proof. induction l as [| a l IH]; cbn; [reflexivity | rewrite IH; reflexivity]. Qed.

Lemma map2_map_same {A B C} (f : A -> B -> C) (g : A -> B) l :
  map2 f l (map g l) = map (fun a => f a (g a)) l.
Proof. induction l as [| a l IH]; cbn; [reflexivity | rewrite IH; reflexivity]. Qed.

Lemma map2_length {A B C} (f : A -> B -> C) l m :
  length l = length m -> length (map2 f l m) = length l.
Proof.
  revert m. induction l as [| a l IH]; intros [| b m] Hl; cbn in *;
    try reflexivity; try discriminate.
  rewrite IH by lia. reflexivity.
Qed.

Section Exporter.
Context {F : Type} `{Num F}.

Lemma open_w_run fname (st : state F) :
  open_w fname st = (exporting fname [] (heap st) st, Ok tt).
Proof. reflexivity. Qed.

Lemma fwrite_run fname s w hp (st : state F) :
  fwrite fname s (exporting fname w hp st)
  = (exporting fname (w ++ [s]) hp st, Ok tt).
Proof.
  unfold fwrite, exporting. cbn [fs fs_lookup]. rewrite String.eqb_refl.
  unfold bind, log_event, fs_put. cbn [heap fs trace draws ticks].
  rewrite fs_remove_idem, map_app, <- app_assoc. reflexivity.
Qed.

Lemma deref3_run fname w hp (st : state F) r a :
  nth_error hp r = Some (Obj3 a) ->
  deref3 r (exporting fname w hp st) = (exporting fname w hp st, Ok a).
Proof. intros E. unfold deref3. cbn [exporting heap]. rewrite E. reflexivity. Qed.

Lemma deref2_run fname w hp (st : state F) r a :
  nth_error hp r = Some (Obj2 a) ->
  deref2 r (exporting fname w hp st) = (exporting fname w hp st, Ok a).
Proof. intros E. unfold deref2. cbn [exporting heap]. rewrite E. reflexivity. Qed.

Lemma alloc_run fname w hp (st : state F) o :
  alloc o (exporting fname w hp st)
  = (exporting fname w (hp ++ [o]) st, Ok (length hp)).
Proof. reflexivity. Qed.

Lemma for_each_fwrite {A} fname (g : A -> string) ls w hp (st : state F) :
  for_each ls (fun line => fwrite fname (g line)) (exporting fname w hp st)
  = (exporting fname (w ++ map g ls) hp st, Ok tt).
Proof.
  revert w. induction ls as [| x ls IH]; intros w; cbn [for_each map].
  - rewrite app_nil_r. reflexivity.
  - rewrite (bind_ok _ _ _ (fwrite_run fname (g x) w hp st)).
    rewrite IH, <- app_assoc. reflexivity.
Qed.


Lemma undo_at_cons i v (r : list F) :
  undo_at (Datatypes.S i) (v :: r) = v :: undo_at i r.
Proof. reflexivity. Qed.

Lemma undo_row_nil (row : list F) : undo_row [] row = row.
Proof. destruct row; reflexivity. Qed.

Lemma undo_row_from_nil i (row : list F) : undo_row_from i [] row = row.
Proof.
  revert row. induction i as [| i IH]; intros row; cbn.
  - apply undo_row_nil.
  - destruct row as [| v r]; [reflexivity |]. rewrite IH. reflexivity.
Qed.

Lemma undo_row_from_step (f : bool) fl i (row : list F) :
  undo_row_from (Datatypes.S i) fl (if f then undo_at i row else row)
  = undo_row_from i (f :: fl) row.
Proof.
  revert row. induction i as [| i IH]; intros [| v r].
  - destruct f; reflexivity.
  - destruct f; reflexivity.
  - destruct f; reflexivity.
  - specialize (IH r). destruct f.
    + rewrite undo_at_cons. cbn [undo_row_from] in *. rewrite IH. reflexivity.
    + cbn [undo_row_from] in *. rewrite IH. reflexivity.
Qed.

(** The in-place loop, column after column, does to every row what
    [undo_row] does in one pass. *)
Lemma undo_cols_rows flags : forall i (d : list (list F)),
  undo_cols i flags d = map (undo_row_from i flags) d.
Proof.
  induction flags as [| f fl IH]; intros i d; cbn [undo_cols].
  - rewrite <- (map_id d) at 1. apply map_ext. intros row.
    rewrite undo_row_from_nil. reflexivity.
  - rewrite IH. destruct f.
    + rewrite map_map. apply map_ext. intros row.
      apply (undo_row_from_step true).
    + apply map_ext. intros row. apply (undo_row_from_step false).
Qed.


Lemma columns_of_length params idxs (cs : list (Z * par F)) :
  columns_of params idxs = Ok cs -> length cs = length idxs.
Proof.
  revert cs. induction idxs as [| idx rest IH]; intros cs Hc; cbn in Hc.
  - injection Hc as <-. reflexivity.
  - destruct (py_getitem params (idx - 1)) as [p | x]; [| discriminate].
    destruct (columns_of params rest) as [cs' | x]; [| discriminate].
    cbn in Hc. injection Hc as <-. cbn. rewrite (IH cs' eq_refl). reflexivity.
Qed.

Lemma header_labels_columns params idxs (cs : list (Z * par F)) :
  columns_of params idxs = Ok cs ->
  header_labels params idxs = Ok (labels_of cs).
Proof.
  revert cs. induction idxs as [| idx rest IH]; intros cs Hc; cbn in Hc.
  - injection Hc as <-. reflexivity.
  - cbn [header_labels].
    destruct (py_getitem params (idx - 1)) as [p | x]; [| discriminate].
    destruct (columns_of params rest) as [cs' | x]; [| discriminate].
    cbn in Hc. injection Hc as <-. cbn [rbind].
    rewrite (IH cs' eq_refl). reflexivity.
Qed.

(** The loop over [enumerate(paridxs)], run on the stacked array at the
    top of the heap. *)
Lemma undo_loop_run fname w hp0 (st0 : state F) len wd params :
  forall idxs cs i d,
    columns_of params idxs = Ok cs ->
    i + length idxs <= wd ->
    length d = len ->
    for_each (enumerate_from (Z.of_nat i) idxs) (undo_log (length hp0) params)
      (exporting fname w (hp0 ++ [Obj2 (mkA2 (len, wd) d)]) st0)
    = (exporting fname w
         (hp0 ++ [Obj2 (mkA2 (len, wd) (undo_cols i (flags_of cs) d))]) st0,
       Ok tt).
Proof.
  induction idxs as [| idx rest IH]; intros cs i d Hf Hi Hd.
  - cbn in Hf. injection Hf as <-. reflexivity.
  - cbn [columns_of] in Hf.
    destruct (py_getitem params (idx - 1)) as [p | x] eqn:Ep; [| discriminate].
    cbn [rbind] in Hf.
    destruct (columns_of params rest) as [cs' | x] eqn:Ecs; [| discriminate].
    cbn [rbind] in Hf. injection Hf as <-.
    cbn [enumerate_from for_each length] in *.
    replace (Z.of_nat i + 1)%Z with (Z.of_nat (Datatypes.S i)) by lia.
    assert (Hstep :
      undo_log (length hp0) params (Z.of_nat i, idx)
        (exporting fname w (hp0 ++ [Obj2 (mkA2 (len, wd) d)]) st0)
      = (exporting fname w
           (hp0 ++ [Obj2 (mkA2 (len, wd)
                            (if log p then map (undo_at i) d else d))]) st0,
         Ok tt)).
    { unfold undo_log. cbn [fst snd]. unfold bind at 1, lift at 1.
      rewrite Ep. destruct (log p); [| reflexivity].
      unfold bind at 1, deref2 at 1. unfold exporting at 1. cbn [heap].
      rewrite nth_error_snoc. fold (exporting fname w
        (hp0 ++ [Obj2 (mkA2 (len, wd) d)]) st0).
      unfold get_col, set_col, broadcast_to, cols, rows.
      cbn [shape2 data2 fst snd].
      rewrite norm_index_inside by lia. rewrite Nat2Z.id. cbn [rbind].
      unfold bind at 1, lift at 1.
      unfold bind at 1, lift at 1.
      rewrite !length_map, Hd, Nat.eqb_refl. cbn [rbind].
      unfold store, exporting. cbn [heap fs trace draws ticks].
      rewrite list_set_snoc, map_map, map2_map_same. reflexivity. }
    rewrite (bind_ok _ _ _ Hstep). cbn [flags_of map snd undo_cols].
    apply IH; [reflexivity | lia |].
    destruct (log p); [rewrite length_map |]; exact Hd.
Qed.

End Exporter.

Lemma length_concat_uniform {A} n (d : list (list A)) :
  Forall (fun r => length r = n) d -> length (concat d) = length d * n.
Proof.
  induction 1 as [| r d Hr _ IH]; cbn; [reflexivity |].
  rewrite length_app, IH, Hr. reflexivity.
Qed.

Lemma Forall_concat {A} (P : A -> Prop) (d : list (list A)) :
  Forall (Forall P) d -> Forall P (concat d).
Proof.
  induction 1 as [| r d Hr _ IH]; cbn; [constructor |].
  apply Forall_app. split; assumption.
Qed.

Section ExporterRun.
Context {F : Type} `{Num F}.

Lemma undo_row_app flags (r s : list F) :
  length flags <= length r -> undo_row flags (r ++ s) = undo_row flags r ++ s.
Proof.
  revert r. induction flags as [| f fl IH]; intros r Hl.
  - rewrite !undo_row_nil. reflexivity.
  - destruct r as [| v r]; cbn in Hl; [lia |].
    cbn. rewrite IH by lia. reflexivity.
Qed.

Lemma undo_row_length flags (r : list F) :
  length (undo_row flags r) = length r.
Proof.
  revert r. induction flags as [| f fl IH]; intros [| v r]; cbn;
    try reflexivity.
  rewrite IH. reflexivity.
Qed.

Lemma stacked_rows flags (X : list (list F)) (Y : list F) :
  Forall (fun r => length flags <= length r) X ->
  map (undo_row flags)
    (map2 (@app F) X (map (fun x => [x]) (map (fun x => fmul (fneg x) ftwo) Y)))
  = map2 (export_row flags) X Y.
Proof.
  intros HX. revert Y. induction HX as [| r X Hr _ IH]; intros [| y Y];
    cbn; try reflexivity.
  rewrite IH. unfold export_row at 1. rewrite undo_row_app by exact Hr.
  reflexivity.
Qed.

Lemma wf3_samples (c : array3 F) :
  wf3 c = true ->
  length (concat (data3 c)) = dim0 c * dim1 c
  /\ Forall (fun r => length r = dim2 c) (concat (data3 c)).
Proof.
  intros Hc. apply wf3_spec in Hc. destruct Hc as [Hl Hw]. split.
  - rewrite <- Hl. apply length_concat_uniform.
    revert Hw. apply Forall_impl. intros w [Hw _]. exact Hw.
  - apply Forall_concat. revert Hw. apply Forall_impl. intros w [_ Hr].
    exact Hr.
Qed.

Lemma wf2_entries (l : array2 F) :
  wf2 l = true -> length (concat (data2 l)) = rows l * cols l.
Proof.
  intros Hl. apply wf2_spec in Hl. destruct Hl as [Hn Hr].
  rewrite <- Hn. apply length_concat_uniform. exact Hr.
Qed.

Lemma export_table_length flags (c : array3 F) l :
  wf3 c = true -> wf2 l = true -> shape2 l = (dim0 c, dim1 c) ->
  length (export_table flags c l) = dim0 c * dim1 c.
Proof.
  intros Hc Hl Hs. unfold export_table.
  destruct (wf3_samples c Hc) as [Hn _].
  rewrite map2_length; [exact Hn |].
  rewrite Hn, (wf2_entries l Hl). unfold rows, cols. rewrite Hs. reflexivity.
Qed.

(** The exporter, run from start to end: it does not raise, it leaves
    the file with the header and one line per row of the table, and the
    only change to the heap is one new array, the table. *)
Lemma writeXSpecChain_run filename rc rl params idxs cs
  (c : array3 F) l (st : state F) :
  nth_error (heap st) rc = Some (Obj3 c) ->
  nth_error (heap st) rl = Some (Obj2 l) ->
  wf3 c = true -> wf2 l = true -> shape2 l = (dim0 c, dim1 c) ->
  columns_of params idxs = Ok cs ->
  length idxs <= dim2 c ->
  let table := export_table (flags_of cs) c l in
  writeXSpecChain filename rc rl params idxs st
  = (exporting filename
       (export_header c (labels_of cs) ++ map fmt_line table)
       (heap st ++ [Obj2 (mkA2 (dim0 c * dim1 c, dim2 c + 1) table)]) st,
     Ok tt).
Proof.
  intros Hrc Hrl Hc Hl Hs Hcs Hlen table.
  destruct (wf3_samples c Hc) as [Hn Hrows].
  assert (Hrl' : rows l = dim0 c) by (unfold rows; rewrite Hs; reflexivity).
  assert (Hcl' : cols l = dim1 c) by (unfold cols; rewrite Hs; reflexivity).
  unfold writeXSpecChain.
  rewrite (bind_ok _ _ _ (open_w_run filename st)).
  rewrite (bind_ok _ _ _ (fwrite_run filename _ _ _ st)).
  rewrite (bind_ok _ _ _ (fwrite_run filename _ _ _ st)).
  rewrite (bind_ok _ _ _ (deref3_run filename _ _ st rc Hrc)).
  rewrite (bind_ok _ _ _ (fwrite_run filename _ _ _ st)).
  rewrite (bind_ok _ _ _ (deref2_run filename _ _ st rl Hrl)).
  unfold bind at 1, lift at 1, reshape_rows. rewrite Nat.eqb_refl.
  unfold bind at 1, lift at 1, reshape_col, neg_times2, rows, cols.
  cbn [shape2 data2]. fold (rows l) (cols l).
  rewrite Hrl', Hcl', Nat.mul_1_r, Nat.eqb_refl.
  unfold bind at 1, lift at 1, column_stack, concatenate2, rows, cols.
  cbn [shape2 data2 fst snd]. rewrite Nat.eqb_refl.
  rewrite (bind_ok _ _ _ (alloc_run filename _ _ st _)).
  unfold enumerate.
  assert (Elen :
    length (map2 (@app F) (concat (data3 c))
              (map (fun x => [x])
                 (concat (map (map (fun x => fmul (fneg x) ftwo)) (data2 l)))))
    = dim0 c * dim1 c).
  { rewrite map2_length; [exact Hn |].
    rewrite Hn, length_map, <- concat_map, length_map.
    rewrite (wf2_entries l Hl), Hrl', Hcl'. reflexivity. }
  assert (Hle : 0 + length idxs <= dim2 c + 1) by lia.
  rewrite (bind_ok _ _ _
             (@undo_loop_run _ _ filename _ (heap st) st (dim0 c * dim1 c)
                (dim2 c + 1) params idxs cs 0 _ Hcs Hle Elen)).
  unfold bind at 1, lift at 1.
  rewrite (header_labels_columns params idxs Hcs).
  rewrite (bind_ok _ _ _ (fwrite_run filename _ _ _ st)).
  rewrite (bind_ok _ _ _
             (deref2_run filename _ _ st (length (heap st))
                (nth_error_snoc (heap st) _))).
  cbn [data2]. rewrite for_each_fwrite.
  assert (Etab :
    undo_cols 0 (flags_of cs)
      (map2 (@app F) (concat (data3 c))
         (map (fun x => [x])
            (concat (map (map (fun x => fmul (fneg x) ftwo)) (data2 l)))))
    = table).
  { rewrite undo_cols_rows. cbn [undo_row_from].
    rewrite <- (concat_map (fun x => fmul (fneg x) ftwo)).
    unfold table, export_table.
    rewrite <- stacked_rows; [reflexivity |].
    revert Hrows. apply Forall_impl. intros r Hr. rewrite Hr.
    unfold flags_of. rewrite length_map, (columns_of_length _ _ Hcs).
    exact Hlen. }
  rewrite Etab. reflexivity.
Qed.

End ExporterRun.

Unset Implicit Arguments.

Lemma nth_error_concat_uniform {A} n (d : list (list A)) :
  Forall (fun r => length r = n) d ->
  forall w i, w < length d -> i < n ->
  nth_error (concat d) (w * n + i) = nth_error (nth w d []) i.
Proof.
  induction 1 as [| r d Hr _ IH]; intros w i Hw Hi; cbn in Hw; [lia |].
  destruct w as [| w]; cbn [concat nth].
  - cbn. apply nth_error_app1. lia.
  - replace (Datatypes.S w * n + i) with (length r + (w * n + i)) by (cbn; lia).
    rewrite nth_error_app2 by lia.
    replace (length r + (w * n + i) - length r) with (w * n + i) by lia.
    apply IH; lia.
Qed.

Lemma nth_error_map2 {A B C} (f : A -> B -> C) l m k a b :
  nth_error l k = Some a -> nth_error m k = Some b ->
  nth_error (map2 f l m) k = Some (f a b).
Proof.
  revert m k. induction l as [| x l IH]; intros [| y m] [| k] Ha Hb;
    cbn in *; try discriminate.
  - injection Ha as <-. injection Hb as <-. reflexivity.
  - apply IH; assumption.
Qed.

Lemma nth_error_nth_inside {A} (l : list A) k d :
  k < length l -> nth_error l k = Some (nth k l d).
Proof.
  revert k. induction l as [| x l IH]; intros [| k] Hk; cbn in *;
    try lia; [reflexivity |].
  apply IH. lia.
Qed.

Lemma nth_inside_Forall {A} (P : A -> Prop) (l : list A) k d :
  Forall P l -> k < length l -> P (nth k l d).
Proof.
  intros HP Hk. apply (proj1 (Forall_forall P l) HP). apply nth_In. exact Hk.
Qed.

Lemma Forall2_nth_error_right {A B} (R : A -> B -> Prop) l m d y :
  Forall2 R l m -> nth_error m d = Some y ->
  exists x, nth_error l d = Some x /\ R x y.
Proof.
  intros HF. revert d. induction HF as [| a b l m Hab _ IH]; intros [| d] E;
    cbn in E; try discriminate.
  - injection E as <-. exists a. split; [reflexivity | exact Hab].
  - apply IH. exact E.
Qed.

Section ExporterTheorems.
Context {F : Type} `{Num F}.

Lemma undo_row_nth_error flags : forall (r : list F) d,
  nth_error (undo_row flags r) d
  = option_map (fun v => if nth d flags false then fpow ften v else v)
      (nth_error r d).
Proof.
  induction flags as [| f fl IH]; intros r d.
  - rewrite undo_row_nil. destruct (nth_error r d), d; reflexivity.
  - destruct r as [| v r]; [destruct d; reflexivity |].
    destruct d as [| d]; cbn; [reflexivity |]. apply IH.
Qed.

Lemma flags_of_nth (cs : list (Z * par F)) d idx p :
  nth_error cs d = Some (idx, p) -> nth d (flags_of cs) false = log p.
Proof.
  intros E. unfold flags_of.
  apply nth_error_nth. rewrite nth_error_map, E. reflexivity.
Qed.

Lemma columns_of_getitem params idxs (cs : list (Z * par F)) :
  columns_of params idxs = Ok cs ->
  Forall2 (fun idx c => fst c = idx /\ py_getitem params (idx - 1) = Ok (snd c))
    idxs cs.
Proof.
  revert cs. induction idxs as [| idx rest IH]; intros cs Hc; cbn in Hc.
  - injection Hc as <-. constructor.
  - destruct (py_getitem params (idx - 1)) as [p | x] eqn:Ep; [| discriminate].
    destruct (columns_of params rest) as [cs' | x]; [| discriminate].
    cbn in Hc. injection Hc as <-. constructor.
    + split; [reflexivity | exact Ep].
    + apply IH. reflexivity.
Qed.

(** The row of sample [(w, i)] is row [w * niters + i] of the table. *)
Lemma export_table_row flags (c : array3 F) l w i :
  wf3 c = true -> wf2 l = true -> shape2 l = (dim0 c, dim1 c) ->
  w < dim0 c -> i < dim1 c ->
  nth_error (export_table flags c l) (w * dim1 c + i)
  = Some (export_row flags (sample_at c w i) (at2 l w i))
  /\ length (sample_at c w i) = dim2 c.
Proof.
  intros Hc Hl Hs Hw Hi.
  apply wf3_spec in Hc. destruct Hc as [Hn0 Hws].
  apply wf2_spec in Hl. destruct Hl as [Hm0 Hrs].
  assert (Hrl : rows l = dim0 c) by (unfold rows; rewrite Hs; reflexivity).
  assert (Hcl : cols l = dim1 c) by (unfold cols; rewrite Hs; reflexivity).
  assert (Hwalker : length (nth w (data3 c) []) = dim1 c
                    /\ Forall (fun r => length r = dim2 c) (nth w (data3 c) [])).
  { apply (nth_inside_Forall
             (fun w => length w = dim1 c /\ Forall (fun r => length r = dim2 c) w));
      [exact Hws | lia]. }
  destruct Hwalker as [Hwl Hwr].
  split.
  - unfold export_table. apply nth_error_map2.
    + rewrite (nth_error_concat_uniform (dim1 c)); try lia.
      * apply nth_error_nth_inside. lia.
      * revert Hws. apply Forall_impl. intros x [Hx _]. exact Hx.
    + rewrite (nth_error_concat_uniform (dim1 c)); try lia.
      * apply nth_error_nth_inside.
        rewrite (nth_inside_Forall (fun r => length r = cols l) (data2 l) w [] Hrs);
          lia.
      * rewrite <- Hcl. exact Hrs.
  - unfold sample_at.
    apply (nth_inside_Forall (fun r => length r = dim2 c)); [exact Hwr | lia].
Qed.

Lemma exporting_lookup fname w hp (st : state F) :
  fs_lookup fname (fs (exporting fname w hp st)) = Some (TextFile F w).
Proof. cbn. rewrite String.eqb_refl. reflexivity. Qed.

(** C6. In every exported row the last column is [-lnprob*2] of that
    sample, that is minus two times its log-probability; the column of a
    parameter flagged [log] holds [10**v] for the internal value [v], the
    other columns hold the internal value; and the arrays handed to the
    exporter are left as they were, the transform being applied to an
    array of the exporter's own. *)
Theorem writeXSpecChain_values filename rc rl params idxs cs
  (c : array3 F) l (st : state F) :
  nth_error (heap st) rc = Some (Obj3 c) ->
  nth_error (heap st) rl = Some (Obj2 l) ->
  wf3 c = true -> wf2 l = true -> shape2 l = (dim0 c, dim1 c) ->
  columns_of params idxs = Ok cs ->
  length idxs <= dim2 c ->
  exists st' table,
    writeXSpecChain filename rc rl params idxs st = (st', Ok tt)
    /\ fs_lookup filename (fs st')
       = Some (TextFile F (export_header c (labels_of cs)
                           ++ map fmt_line table))
    /\ (forall w i, w < dim0 c -> i < dim1 c ->
        exists row,
          nth_error table (w * dim1 c + i) = Some row
          /\ nth_error row (dim2 c) = Some (fmul (fneg (at2 l w i)) ftwo)
          /\ (forall d idx p,
                nth_error cs d = Some (idx, p) ->
                py_getitem params (idx - 1) = Ok p
                /\ nth_error row d
                   = Some (if log p then fpow ften (at3 c w i d)
                           else at3 c w i d)))
    /\ nth_error (heap st') rc = Some (Obj3 c)
    /\ nth_error (heap st') rl = Some (Obj2 l).
Proof.
  intros Hrc Hrl Hc Hl Hs Hcs Hlen.
  eexists. exists (export_table (flags_of cs) c l).
  split; [apply (@writeXSpecChain_run _ _ filename rc rl params idxs cs c l st
                  Hrc Hrl Hc Hl Hs Hcs Hlen) |].
  split; [apply exporting_lookup |].
  split; [| split].
  - intros w i Hw Hi.
    destruct (export_table_row (flags_of cs) c l w i Hc Hl Hs Hw Hi) as [Hrow Hsl].
    eexists. split; [exact Hrow |].
    assert (Hfl : length (flags_of cs) <= length (sample_at c w i)).
    { unfold flags_of. rewrite length_map, (columns_of_length _ _ Hcs). lia. }
    split.
    + unfold export_row. rewrite nth_error_app2; rewrite undo_row_length, Hsl;
        [| lia]. rewrite Nat.sub_diag. reflexivity.
    + intros d idx p Hd.
      assert (Hdl : d < length cs) by (apply nth_error_Some; rewrite Hd; discriminate).
      rewrite (columns_of_length _ _ Hcs) in Hdl.
      split.
      * pose proof (columns_of_getitem params idxs cs Hcs) as HF.
        destruct (Forall2_nth_error_right _ idxs cs d (idx, p) HF Hd)
          as [idx' [Hidx [E1 E2]]].
        cbn [fst snd] in E1, E2. subst idx'. exact E2.
      * unfold export_row. rewrite nth_error_app1 by (rewrite undo_row_length; lia).
        rewrite undo_row_nth_error, (flags_of_nth cs d idx p Hd).
        unfold at3. fold (sample_at c w i).
        rewrite (nth_error_nth_inside (sample_at c w i) d fzero) by lia.
        reflexivity.
  - cbn [exporting heap]. rewrite nth_error_app1; [exact Hrc |].
    apply nth_error_Some. rewrite Hrc. discriminate.
  - cbn [exporting heap]. rewrite nth_error_app1; [exact Hrl |].
    apply nth_error_Some. rewrite Hrl. discriminate.
Qed.

End ExporterTheorems.

Lemma Forall_map2 {A B C} (P : A -> Prop) (Q : C -> Prop) (f : A -> B -> C) l m :
  (forall a b, P a -> Q (f a b)) -> Forall P l -> Forall Q (map2 f l m).
Proof.
  intros Hf HP. revert m. induction HP as [| a l Ha _ IH]; intros [| b m];
    cbn; constructor.
  - apply Hf. exact Ha.
  - apply IH.
Qed.

(** Reading a line back: the text between the tabs. *)
Lemma append_snoc_char (cur : string) c x :
  ((cur ++ String c EmptyString) ++ x)%string = (cur ++ String c x)%string.
Proof. induction cur as [| d cur IH]; cbn; [reflexivity | rewrite IH; reflexivity]. Qed.

Lemma append_empty_right (s : string) : (s ++ EmptyString)%string = s.
Proof. induction s as [| c s IH]; cbn; [reflexivity | rewrite IH; reflexivity]. Qed.

Lemma split_at_field sep x : forall cur rest,
  has_char sep x = false ->
  split_at sep cur (x ++ rest) = split_at sep (cur ++ x) rest.
Proof.
  induction x as [| c x IH]; intros cur rest Hx.
  - rewrite append_empty_right. reflexivity.
  - cbn [has_char] in Hx. apply orb_false_iff in Hx. destruct Hx as [Hc Hx].
    cbn [append split_at]. rewrite Hc.
    rewrite (IH _ _ Hx), append_snoc_char. reflexivity.
Qed.

Lemma split_at_join sep (fields : list string) : forall x cur,
  Forall (fun f => has_char sep f = false) (x :: fields) ->
  split_at sep cur (join (String sep EmptyString) (x :: fields))
  = (cur ++ x)%string :: fields.
Proof.
  induction fields as [| y fields IH]; intros x cur Hf.
  - cbn [join]. rewrite <- (append_empty_right x) at 1.
    rewrite split_at_field by (inversion Hf; assumption). reflexivity.
  - inversion Hf as [| ? ? Hx Hrest]; subst.
    change (join (String sep EmptyString) (x :: y :: fields))
      with (x ++ String sep EmptyString
              ++ join (String sep EmptyString) (y :: fields))%string.
    rewrite split_at_field by exact Hx.
    cbn [append split_at]. rewrite Ascii.eqb_refl.
    rewrite (IH y EmptyString Hrest). reflexivity.
Qed.

Lemma fields_of_join (fields : list string) :
  fields <> [] ->
  Forall (fun f => has_char (ascii_of_nat 9) f = false) fields ->
  fields_of (join tab fields) = fields.
Proof.
  intros Hne Hf. destruct fields as [| x fields]; [contradiction |].
  unfold fields_of, tab. rewrite (split_at_join _ fields x EmptyString Hf).
  reflexivity.
Qed.

Section ExporterTable.
Context {F : Type} `{Num F}.

Lemma label_worded idx (p : par F) : label idx p = label_as_worded idx p.
Proof. unfold label, label_as_worded. destruct (unit_ p); reflexivity. Qed.

(** C7. For a chain of shape [(nwalkers, niters, ndims)] the exported
    file is: the two fixed comment lines; the line stating
    [nwalkers*niters] rows and [ndims+1] columns; the label line, one
    [index name unit] label per column index in their order, the unit
    replaced by ["0"] when empty, then ["Chi-Squared"]; then exactly
    [nwalkers*niters] data lines of [ndims+1] columns each, the line of
    walker [w] and iteration [i] at position [w*niters + i].  A data
    line is the ["%g"] texts of the values of its row, separated by tabs
    and ended by a newline: read back at its tabs it gives exactly those
    [ndims+1] texts. *)
Theorem writeXSpecChain_table filename rc rl params idxs cs
  (c : array3 F) l (st : state F) :
  nth_error (heap st) rc = Some (Obj3 c) ->
  nth_error (heap st) rl = Some (Obj2 l) ->
  wf3 c = true -> wf2 l = true -> shape2 l = (dim0 c, dim1 c) ->
  columns_of params idxs = Ok cs ->
  length idxs = dim2 c ->
  exists st' table labels,
    writeXSpecChain filename rc rl params idxs st = (st', Ok tt)
    /\ fs_lookup filename (fs st')
       = Some (TextFile F
                 ([ ("! Markov chain file generated by xspec " ++ dquote
                     ++ "chain" ++ dquote ++ " command." ++ nl)%string;
                    ("!    Do not modify, else file may not reload properly."
                     ++ nl)%string;
                    ("!Length: " ++ fmt_i (Z.of_nat (dim0 c * dim1 c))
                     ++ "  Width: " ++ fmt_i (Z.of_nat (dim2 c + 1))
                     ++ nl)%string;
                    ("!" ++ join " " (labels ++ ["Chi-Squared"%string])%list
                     ++ nl)%string ]
                  ++ map (fun row =>
                            (join tab (map fmt_g row) ++ nl)%string) table))
    /\ length table = dim0 c * dim1 c
    /\ Forall (fun row => length row = dim2 c + 1) table
    /\ (forall row, In row table ->
        Forall (fun v => has_char (ascii_of_nat 9) (fmt_g v) = false) row ->
        fields_of (join tab (map fmt_g row)) = map fmt_g row
        /\ length (fields_of (join tab (map fmt_g row))) = dim2 c + 1)
    /\ (forall w i, w < dim0 c -> i < dim1 c ->
        nth_error table (w * dim1 c + i)
        = Some (export_row (flags_of cs) (sample_at c w i) (at2 l w i)))
    /\ Forall2 (fun idx lab =>
                  exists p, py_getitem params (idx - 1) = Ok p
                            /\ lab = label_as_worded idx p)
         idxs labels.
Proof.
  intros Hrc Hrl Hc Hl Hs Hcs Hlen.
  assert (Hle : length idxs <= dim2 c) by lia.
  eexists. exists (export_table (flags_of cs) c l), (labels_of cs).
  split; [apply (@writeXSpecChain_run _ _ filename rc rl params idxs cs c l st
                  Hrc Hrl Hc Hl Hs Hcs Hle) |].
  assert (Hrows : Forall (fun row => length row = dim2 c + 1)
                    (export_table (flags_of cs) c l)).
  { unfold export_table.
    apply (Forall_map2 (fun r => length r = dim2 c)).
    + intros r y Hr. unfold export_row.
      rewrite length_app, undo_row_length, Hr. reflexivity.
    + apply wf3_samples. exact Hc. }
  split; [| split; [| split; [| split; [| split]]]].
  - rewrite exporting_lookup. unfold export_header.
    replace (Z.of_nat (dim2 c + 1)) with (Z.of_nat (dim2 c) + 1)%Z by lia.
    unfold fmt_line. reflexivity.
  - apply export_table_length; assumption.
  - exact Hrows.
  - intros row Hin Htabs.
    pose proof (proj1 (Forall_forall _ _) Hrows row Hin) as Hlen'.
    assert (Hf : fields_of (join tab (map fmt_g row)) = map fmt_g row).
    { apply fields_of_join.
      - destruct row; [cbn in Hlen'; lia | discriminate].
      - apply Forall_map. exact Htabs. }
    split; [exact Hf |]. rewrite Hf, length_map. exact Hlen'.
  - intros w i Hw Hi.
    apply (export_table_row (flags_of cs) c l w i Hc Hl Hs Hw Hi).
  - pose proof (columns_of_getitem params idxs cs Hcs) as HF.
    unfold labels_of. clear - HF. induction HF as [| idx [idx' p] idxs cs [E1 E2] _ IH];
      cbn [map]; constructor.
    + cbn [fst snd] in *. subst idx'. exists p.
      split; [exact E2 | apply label_worded].
    + exact IH.
Qed.

End ExporterTable.

(** C6 at a concrete model: two walkers, two iterations, the parameters
    [kT] (linear) and [norm] (log). *)
Lemma writeXSpecChain_values_witness :
  exists st' table row,
    writeXSpecChain "out.dat" 0 1 (parlist Toy.the_pool)
      (paridxs Toy.the_pool) ToyExport.entry_state = (st', Ok tt)
    /\ nth_error table 1 = Some row
    /\ nth_error row 0 = Some 12%Z
    /\ nth_error row 1 = Some 10000%Z
    /\ nth_error row 2 = Some 98%Z
    /\ nth_error (heap st') 0 = Some (Obj3 ToyExport.chain).
Proof.
  destruct (writeXSpecChain_values "out.dat" 0 1 (parlist Toy.the_pool)
              (paridxs Toy.the_pool) ToyExport.columns
              ToyExport.chain ToyExport.lnprob
              ToyExport.entry_state
              eq_refl eq_refl eq_refl eq_refl eq_refl eq_refl (le_n 2))
    as [st' [table [Hrun [_ [Hrows [Hheap _]]]]]].
  destruct (Hrows 0 1 (Nat.lt_0_succ 1) (Nat.lt_succ_diag_r 1))
    as [row [Hrow [Hlast Hcol]]].
  exists st', table, row.
  split; [exact Hrun |].
  split; [exact Hrow |].
  split; [exact (proj2 (Hcol 0 1%Z Toy.kT eq_refl)) |].
  split; [exact (proj2 (Hcol 1 2%Z Toy.norm eq_refl)) |].
  split; [exact Hlast | exact Hheap].
Defined.

(** C7 at the same model: four data lines after the four header lines. *)
Lemma writeXSpecChain_table_witness :
  exists st' (table : list (list Z)) labels row,
    writeXSpecChain "out.dat" 0 1 (parlist Toy.the_pool)
      (paridxs Toy.the_pool) ToyExport.entry_state = (st', Ok tt)
    /\ length table = 4
    /\ labels = ["1 kT keV"; "2 norm 0"]%string
    /\ nth_error table 0 = Some row
    /\ fields_of (join tab (map fmt_g row)) = ["11"; "10000"; "94"]%string.
Proof.
  destruct (writeXSpecChain_table "out.dat" 0 1 (parlist Toy.the_pool)
              (paridxs Toy.the_pool) ToyExport.columns
              ToyExport.chain ToyExport.lnprob
              ToyExport.entry_state
              eq_refl eq_refl eq_refl eq_refl eq_refl eq_refl eq_refl)
    as [st' [table [labels [Hrun [_ [Hlen [_ [Hfields [Hnth Hlab]]]]]]]]].
  pose proof (Hnth 0 0 ltac:(cbn; lia) ltac:(cbn; lia)) as Hrow.
  cbn [Nat.mul Nat.add] in Hrow.
  exists st', table, labels. eexists.
  split; [exact Hrun | split; [exact Hlen |]].
  split; [| split; [exact Hrow |]].
  - inversion Hlab as [| i1 l1 t1 tl1 [p1 [E1 ->]] Hlab1]; subst.
    inversion Hlab1 as [| i2 l2 t2 tl2 [p2 [E2 ->]] Hlab2]; subst.
    inversion Hlab2; subst.
    cbn in E1, E2. injection E1 as <-. injection E2 as <-. reflexivity.
  - destruct (Hfields _ (nth_error_In _ _ Hrow)) as [Hf _].
    + vm_compute. repeat constructor.
    + rewrite Hf. vm_compute. reflexivity.
Defined.

(** C2 at a concrete model: capacity two, one iteration filled. *)
Lemma writeNpz_saves_filled_prefix_witness :
  writeNpz "out.npz" ToyExport.chain ToyExport.lnprob 1%Z
    Toy.empty_state
  = (after_savez "out.npz"
       (mkA3 (2, 1, 2) [[[11; 36]]; [[15; 46]]]%Z)
       (mkA2 (2, 1) [[-47]; [-61]]%Z) Toy.empty_state,
     Ok tt).
Proof.
  assert (Hm : (0 <= 1 <= Z.of_nat (dim1 ToyExport.chain))%Z)
    by (split; discriminate).
  exact (proj1 (@writeNpz_saves_filled_prefix Z "out.npz"%string
                  ToyExport.chain ToyExport.lnprob 1%Z
                  Toy.empty_state eq_refl eq_refl eq_refl Hm)).
Defined.

(* ------------------------------------------------------------------ *)
(** ** Writing one iteration into the buffers *)

Lemma list_set_length {A} k (x : A) l : length (list_set k x l) = length l.
Proof.
  revert k. induction l as [| a l IH]; intros [| k]; cbn; try reflexivity.
  rewrite IH. reflexivity.
Qed.

Lemma firstn_list_set {A} m k (x : A) l :
  m <= k -> firstn m (list_set k x l) = firstn m l.
Proof.
  revert m k. induction l as [| a l IH]; intros m [| k] Hm; cbn.
  - reflexivity.
  - reflexivity.
  - replace m with 0 by lia. reflexivity.
  - destruct m as [| m]; [reflexivity |]. cbn. rewrite IH by lia. reflexivity.
Qed.

Lemma Forall_list_set {A} (P : A -> Prop) k x l :
  Forall P l -> P x -> Forall P (list_set k x l).
Proof.
  intros HP Hx. revert k. induction HP as [| a l Ha Hl IH]; intros [| k]; cbn;
    constructor; auto.
Qed.

Lemma Forall_map2_both {A B C} (P : A -> Prop) (Q : B -> Prop) (R : C -> Prop)
  (f : A -> B -> C) l m :
  (forall a b, P a -> Q b -> R (f a b)) ->
  Forall P l -> Forall Q m -> Forall R (map2 f l m).
Proof.
  intros Hf HP. revert m. induction HP as [| a l Ha _ IH]; intros m HQ.
  - constructor.
  - destruct HQ as [| b m Hb HQ]; cbn; constructor.
    + apply Hf; assumption.
    + apply IH. exact HQ.
Qed.

Lemma map_map2_left {A B C} (g : A -> C) (f : A -> B -> A) l m :
  length l = length m ->
  (forall a b, g (f a b) = g a) ->
  map g (map2 f l m) = map g l.
Proof.
  intros Hl Hf. revert m Hl. induction l as [| a l IH]; intros [| b m] Hl;
    cbn in *; try reflexivity; try discriminate.
  rewrite Hf, IH by lia. reflexivity.
Qed.

Section Buffers.
Context {F : Type} `{Num F}.

Lemma set_iter_ok (a : array3 F) i p nw N nd :
  shape3 a = (nw, N, nd) -> wf3 a = true ->
  shape2 p = (nw, nd) -> wf2 p = true ->
  (0 <= i < Z.of_nat N)%Z ->
  exists a',
    set_iter a i p = Ok a'
    /\ shape3 a' = (nw, N, nd) /\ wf3 a' = true
    /\ (forall X, (Z.of_nat X <= i)%Z -> prefix3 X a' = prefix3 X a).
Proof.
  intros Hsa Hwa Hsp Hwp Hi.
  apply wf3_spec in Hwa. apply wf2_spec in Hwp.
  unfold dim0, dim1, dim2, rows, cols in *. rewrite Hsa in Hwa. rewrite Hsp in Hwp.
  cbn [fst snd] in Hwa, Hwp. destruct Hwa as [Hla Hfa]. destruct Hwp as [Hlp Hfp].
  unfold set_iter, broadcast2, broadcast_to, dim0, dim1, dim2, rows, cols.
  rewrite Hsa, Hsp. cbn [fst snd].
  rewrite norm_index_inside by exact Hi. cbn [rbind].
  rewrite !Nat.eqb_refl. cbn [rbind].
  eexists. split; [reflexivity |].
  split; [reflexivity |]. split.
  - apply wf3_spec. unfold dim0, dim1, dim2. cbn [shape3 data3 fst snd]. split.
    + rewrite map2_length; [exact Hla | lia].
    + apply (Forall_map2_both
               (fun w => length w = N /\ Forall (fun r => length r = nd) w)
               (fun r => length r = nd)); [| exact Hfa | exact Hfp].
      intros w r [Hw Hr] Hrl. split.
      * rewrite list_set_length. exact Hw.
      * apply Forall_list_set; assumption.
  - intros X HX. unfold prefix3, dim0, dim2. cbn [shape3 data3].
    rewrite Hsa. f_equal.
    apply map_map2_left; [lia |].
    intros w r. apply firstn_list_set. lia.
Qed.

Lemma set_col_ok (a : array2 F) i l nw N :
  shape2 a = (nw, N) -> wf2 a = true -> length l = nw ->
  (0 <= i < Z.of_nat N)%Z ->
  exists a',
    set_col a i l = Ok a'
    /\ shape2 a' = (nw, N) /\ wf2 a' = true
    /\ (forall X, (Z.of_nat X <= i)%Z -> prefix2 X a' = prefix2 X a).
Proof.
  intros Hsa Hwa Hl Hi.
  apply wf2_spec in Hwa. unfold rows, cols in *. rewrite Hsa in Hwa.
  cbn [fst snd] in Hwa. destruct Hwa as [Hla Hfa].
  unfold set_col, broadcast_to, rows, cols. rewrite Hsa. cbn [fst snd].
  rewrite norm_index_inside by exact Hi. cbn [rbind].
  rewrite Hl, Nat.eqb_refl. cbn [rbind].
  eexists. split; [reflexivity |].
  split; [reflexivity |]. split.
  - apply wf2_spec. unfold rows, cols. cbn [shape2 data2 fst snd]. split.
    + rewrite map2_length; [exact Hla | lia].
    + apply (Forall_map2_both (fun r => length r = N) (fun _ => True));
        [| exact Hfa | apply Forall_forall; trivial].
      intros r x Hr _. rewrite list_set_length. exact Hr.
  - intros X HX. unfold prefix2, rows. cbn [shape2 data2].
    rewrite Hsa. f_equal.
    apply map_map2_left; [lia |].
    intros r x. apply firstn_list_set. lia.
Qed.

End Buffers.

(* ------------------------------------------------------------------ *)
(** ** ResumableSamplingLoop *)

Section Loop.
Context {F S G : Type} `{Num F}.
Variable e : env F S G.

Lemma only_saves_refl (st : state F) : only_saves st st.
Proof.
  split; [reflexivity | split; [reflexivity |]].
  exists []. rewrite app_nil_r. split; reflexivity.
Qed.

Lemma only_saves_trans (st1 st2 st3 : state F) :
  only_saves st1 st2 -> only_saves st2 st3 -> only_saves st1 st3.
Proof.
  intros [Hh1 [Hd1 [ev1 [Ht1 Hs1]]]] [Hh2 [Hd2 [ev2 [Ht2 Hs2]]]].
  split; [congruence | split; [congruence |]].
  exists (ev1 ++ ev2). split.
  - rewrite Ht2, Ht1, app_assoc. reflexivity.
  - rewrite forallb_app, Hs1, Hs2. reflexivity.
Qed.

Lemma time_run (st : state F) :
  exists st', time e st = (st', Ok (clock e (ticks st)))
              /\ only_saves st st' /\ fs st' = fs st.
Proof.
  eexists. split; [reflexivity |]. split; [| reflexivity].
  split; [reflexivity | split; [reflexivity |]].
  exists []. cbn. rewrite app_nil_r. split; reflexivity.
Qed.

Lemma after_savez_only_saves fname c l (st : state F) :
  only_saves st (after_savez fname c l st).
Proof.
  split; [reflexivity | split; [reflexivity |]].
  exists [EvSavez fname c l]. split; reflexivity.
Qed.

Lemma autosave_step_run autosave outnpz ls (st : state F) :
  exists st' t,
    autosave_step e autosave outnpz ls st
    = (st', Ok (mkLoop (l_chain ls) (l_lnprob ls) (l_index ls) t (l_gen ls)))
    /\ only_saves st st'.
Proof.
  unfold autosave_step. destruct autosave.
  - destruct (time_run st) as [st1 [Ht [Hs1 _]]].
    rewrite (bind_ok _ _ _ Ht).
    destruct (clock e (ticks st) - l_lastsave ls >? 60 * 10)%Z.
    + destruct (time_run st1) as [st2 [Ht2 [Hs2 _]]].
      rewrite (bind_ok _ _ _ Ht2).
      rewrite (bind_ok _ _ _ (writeNpz_run outnpz _ _ _ st2)).
      eexists. eexists. split; [reflexivity |].
      apply (only_saves_trans st st1 _ Hs1).
      apply (only_saves_trans st1 st2 _ Hs2).
      apply after_savez_only_saves.
    + exists st1, (l_lastsave ls). split; [destruct ls; reflexivity | exact Hs1].
  - exists st, (l_lastsave ls). split; [destruct ls; reflexivity |].
    apply only_saves_refl.
Qed.

(** The loop never raises when the sampler behaves; it leaves through
    the exit [passes_done] computes, with the cursor advanced by as many
    passes, with buffers of the same capacity, having written nothing but
    checkpoints, and without touching any iteration before the cursor it
    started from. *)
Lemma sample_loop_runs autosave outnpz I nw N nd :
  sampler_ok e I nw nd ->
  forall n j ls (st : state F),
    I (l_gen ls) ->
    loop_inv nw N nd ls -> (0 <= l_index ls)%Z ->
    (l_index ls + Z.of_nat n = Z.of_nat N)%Z ->
    exists st' ls',
      sample_loop e autosave outnpz n j ls st
      = (st', Ok (fst (passes_done e n j), ls'))
      /\ loop_inv nw N nd ls' /\ only_saves st st'
      /\ l_index ls' = (l_index ls + Z.of_nat (snd (passes_done e n j)))%Z
      /\ snd (passes_done e n j) <= n
      /\ (forall X, (Z.of_nat X <= l_index ls)%Z ->
          prefix3 X (l_chain ls') = prefix3 X (l_chain ls)
          /\ prefix2 X (l_lnprob ls') = prefix2 X (l_lnprob ls)).
Proof.
  intros Hs. induction n as [| n IH]; intros j ls st Hg Hinv Hi0 HiN.
  - cbn [sample_loop passes_done].
    destruct (interrupted_at e j InStep); exists st, ls; cbn [fst snd];
      (split; [reflexivity |]); (split; [exact Hinv |]);
      (split; [apply only_saves_refl |]);
      (split; [lia |]); (split; [lia |]); intros X _; split; reflexivity.
  - cbn [sample_loop passes_done].
    destruct (interrupted_at e j InStep).
    { exists st, ls; cbn [fst snd];
        (split; [reflexivity |]); (split; [exact Hinv |]);
        (split; [apply only_saves_refl |]);
        (split; [lia |]); (split; [lia |]); intros X _; split; reflexivity. }
    destruct (Hs (l_gen ls) Hg) as [p [l [g' [Hnext [Hsp [Hwp [Hll Hg']]]]]]].
    destruct Hinv as [Hsc [Hwc [Hsl Hwl]]].
    assert (Hidx : (0 <= l_index ls < Z.of_nat N)%Z) by lia.
    destruct (set_iter_ok (l_chain ls) (l_index ls) p nw N nd
                Hsc Hwc Hsp Hwp Hidx) as [c' [Hset [Hsc' [Hwc' Hpc]]]].
    destruct (set_col_ok (l_lnprob ls) (l_index ls) l nw N
                Hsl Hwl Hll Hidx) as [l' [Hcol [Hsl' [Hwl' Hpl]]]].
    unfold bind at 1, lift at 1. rewrite Hnext. cbn [fst snd].
    unfold bind at 1, lift at 1. rewrite Hset.
    destruct (interrupted_at e j AfterChain).
    { cbn [orb fst snd]. eexists. eexists. split; [reflexivity |].
      cbn [l_chain l_lnprob l_index].
      split; [repeat split; assumption |].
      split; [apply only_saves_refl |].
      split; [lia |]. split; [lia |].
      intros X HX. split; [apply Hpc; exact HX | reflexivity]. }
    unfold bind at 1, lift at 1. rewrite Hcol.
    destruct (interrupted_at e j AfterLnprob).
    { cbn [orb fst snd]. eexists. eexists. split; [reflexivity |].
      cbn [l_chain l_lnprob l_index].
      split; [repeat split; assumption |].
      split; [apply only_saves_refl |].
      split; [lia |]. split; [lia |].
      intros X HX. split; [apply Hpc | apply Hpl]; exact HX. }
    cbn [orb].
    destruct (interrupted_at e j AfterIndex).
    { cbn [fst snd]. eexists. eexists. split; [reflexivity |].
      cbn [l_chain l_lnprob l_index].
      split; [repeat split; assumption |].
      split; [apply only_saves_refl |].
      split; [lia |]. split; [lia |].
      intros X HX. split; [apply Hpc | apply Hpl]; exact HX. }
    cbn [fst snd].
    destruct (autosave_step_run autosave outnpz
                (mkLoop c' l' (l_index ls + 1)%Z (l_lastsave ls) g') st)
      as [st1 [t [Hauto Hs1]]].
    rewrite (bind_ok _ _ _ Hauto). cbn [l_chain l_lnprob l_index l_gen].
    destruct (IH (Datatypes.S j) (mkLoop c' l' (l_index ls + 1)%Z t g') st1)
      as [st2 [ls2 [Hrun [Hinv2 [Hs2 [Hi2 [Hle2 Hp2]]]]]]].
    + exact Hg'.
    + repeat split; assumption.
    + cbn [l_index]. lia.
    + cbn [l_index]. lia.
    + exists st2, ls2. split; [exact Hrun |].
      split; [exact Hinv2 |].
      split; [apply (only_saves_trans st st1 st2 Hs1 Hs2) |].
      cbn [l_index l_chain l_lnprob] in *.
      split; [lia |]. split; [lia |].
      intros X HX. destruct (Hp2 X ltac:(lia)) as [E3 E2].
      rewrite E3, E2. split; [apply Hpc | apply Hpl]; exact HX.
Qed.

End Loop.


Lemma map2_repeat {A B C} (f : A -> B -> C) l b n :
  length l = n -> map2 f l (repeat b n) = map (fun a => f a b) l.
Proof.
  intros <-. induction l as [| a l IH]; cbn; [reflexivity |].
  rewrite IH. reflexivity.
Qed.

Lemma firstn_app_exact {A} (l m : list A) n :
  length l = n -> firstn n (l ++ m) = l.
Proof.
  intros <-. rewrite firstn_app, Nat.sub_diag, firstn_all. cbn.
  apply app_nil_r.
Qed.

Section Exits.
Context {F S G : Type} `{Num F}.
Variable e : env F S G.

(** Without a signal the generator is exhausted after all its passes. *)
Lemma passes_done_undisturbed n j :
  interrupt e = None -> passes_done e n j = (Exhausted, n).
Proof.
  intros Hn. revert j. induction n as [| n IH]; intros j;
    cbn [passes_done]; unfold interrupted_at; rewrite Hn; cbn [orb].
  - reflexivity.
  - rewrite IH. reflexivity.
Qed.

(** A loop that runs to its end has made all its passes. *)
Lemma passes_done_exhausted n j :
  fst (passes_done e n j) = Exhausted -> snd (passes_done e n j) = n.
Proof.
  revert j. induction n as [| n IH]; intros j; cbn [passes_done].
  - destruct (interrupted_at e j InStep); [discriminate | reflexivity].
  - destruct (interrupted_at e j InStep); [discriminate |].
    destruct (interrupted_at e j AfterChain || interrupted_at e j AfterLnprob);
      [discriminate |].
    destruct (interrupted_at e j AfterIndex); [discriminate |].
    cbn [fst snd]. intros E. rewrite (IH _ E). reflexivity.
Qed.

(** A signal in pass [k] stops the loop there: the cursor has advanced
    by the passes before it, and by one more if the signal comes after
    the cursor is advanced. *)
Lemma passes_done_interrupted k ph n j :
  interrupt e = Some (k, ph) ->
  j <= k -> (k < j + n \/ (k = j + n /\ ph = InStep)) ->
  passes_done e n j
  = (Interrupted, (k - j) + (if phase_eqb ph AfterIndex then 1 else 0)).
Proof.
  intros Hint. revert j. induction n as [| n IH]; intros j Hj Hk;
    cbn [passes_done]; unfold interrupted_at; rewrite Hint.
  - destruct Hk as [Hk | [Hk ->]]; [lia |].
    replace k with j by lia. rewrite Nat.eqb_refl, Nat.sub_diag. reflexivity.
  - destruct (Nat.eqb_spec j k) as [-> | Hne].
    + rewrite Nat.sub_diag. destruct ph; reflexivity.
    + cbn [andb orb]. rewrite IH.
      * cbn [fst snd]. f_equal. lia.
      * lia.
      * destruct Hk as [Hk | [Hk Hph]]; [left; lia | right; split; [lia | exact Hph]].
Qed.

End Exits.

Lemma Forall_repeat {A} (P : A -> Prop) x n : P x -> Forall P (repeat x n).
Proof. intros Hx. induction n; cbn; constructor; assumption. Qed.

Section InitBuffers.
Context {F : Type} `{Num F}.

Lemma zeros3_ok a b c :
  (0 <= a)%Z -> (0 <= b)%Z -> (0 <= c)%Z ->
  exists z : array3 F,
    zeros3 a b c = Ok z
    /\ shape3 z = (Z.to_nat a, Z.to_nat b, Z.to_nat c)
    /\ data3 z = repeat (repeat (repeat fzero (Z.to_nat c)) (Z.to_nat b))
                   (Z.to_nat a)
    /\ wf3 z = true.
Proof.
  intros Ha Hb Hc. unfold zeros3, any_negative. cbn [existsb].
  destruct (Z.ltb_spec a 0); [lia |].
  destruct (Z.ltb_spec b 0); [lia |].
  destruct (Z.ltb_spec c 0); [lia |].
  cbn [orb]. eexists. split; [reflexivity |].
  split; [reflexivity |]. split; [reflexivity |].
  apply wf3_spec. unfold dim0, dim1, dim2. cbn [shape3 data3 fst snd].
  split; [apply repeat_length |].
  apply Forall_repeat. split; [apply repeat_length |].
  apply Forall_repeat. apply repeat_length.
Qed.

Lemma zeros2_ok a b :
  (0 <= a)%Z -> (0 <= b)%Z ->
  exists z : array2 F,
    zeros2 a b = Ok z
    /\ shape2 z = (Z.to_nat a, Z.to_nat b)
    /\ data2 z = repeat (repeat fzero (Z.to_nat b)) (Z.to_nat a)
    /\ wf2 z = true.
Proof.
  intros Ha Hb. unfold zeros2, any_negative. cbn [existsb].
  destruct (Z.ltb_spec a 0); [lia |].
  destruct (Z.ltb_spec b 0); [lia |].
  cbn [orb]. eexists. split; [reflexivity |].
  split; [reflexivity |]. split; [reflexivity |].
  apply wf2_spec. unfold rows, cols. cbn [shape2 data2 fst snd].
  split; [apply repeat_length |].
  apply Forall_repeat. apply repeat_length.
Qed.

(** A fresh run: zero-filled buffers of capacity [niters], cursor 0. *)
Lemma init_buffers_fresh nwalkers niters nd outnpz pos (st : state F) :
  (0 <= nwalkers)%Z -> (0 <= niters)%Z ->
  exists b,
    init_buffers false nwalkers niters nd outnpz pos st = (st, Ok b)
    /\ ready (Z.to_nat nwalkers) (Z.to_nat niters) nd niters b
    /\ b_start b = 0%Z /\ b_pos b = pos.
Proof.
  intros Hw Hn.
  destruct (zeros3_ok nwalkers niters (Z.of_nat nd) Hw Hn ltac:(lia))
    as [c [Hc [Hsc [_ Hwc]]]].
  destruct (zeros2_ok nwalkers niters Hw Hn) as [l [Hl [Hsl [_ Hwl]]]].
  unfold init_buffers. cbn [negb].
  unfold bind at 1, lift at 1. rewrite Hc.
  unfold bind at 1, lift at 1. rewrite Hl.
  eexists. split; [reflexivity |]. cbn [b_start b_pos].
  split; [| split; reflexivity].
  unfold ready. cbn [b_chain b_lnprob b_start].
  rewrite Hsc, Hsl, Nat2Z.id.
  repeat split; try assumption; lia.
Qed.

(** A resumed run: the cursor is the filled length of the checkpoint,
    the population is the last filled iteration, and the buffers are the
    checkpoint's followed by zeros up to capacity [niters]. *)
Lemma init_buffers_resume nwalkers niters nd outnpz pos0 (st : state F)
  ck lk nw X :
  fs_lookup outnpz (fs st) = Some (NpzFile ck lk) ->
  wf3 ck = true -> wf2 lk = true ->
  shape3 ck = (nw, X, nd) -> shape2 lk = (nw, X) ->
  nwalkers = Z.of_nat nw -> 1 <= X -> (Z.of_nat X <= niters)%Z ->
  let blank := Z.to_nat niters - X in
  let b :=
    mkBuf
      (mkA3 (nw, X + blank, nd)
         (map (fun w => w ++ repeat (repeat fzero nd) blank) (data3 ck)))
      (mkA2 (nw, X + blank)
         (map (fun r => r ++ repeat fzero blank) (data2 lk)))
      (Z.of_nat X)
      (mkA2 (nw, nd) (map (fun w => nth (X - 1) w []) (data3 ck))) in
  init_buffers true nwalkers niters nd outnpz pos0 st = (st, Ok b)
  /\ ready nw (Z.to_nat niters) nd niters b
  /\ prefix3 X (b_chain b) = ck
  /\ prefix2 X (b_lnprob b) = lk.
Proof.
  intros Hfs Hwc Hwl Hsc Hsl Hnw HX HN blank b.
  pose proof Hwc as Hwc'. pose proof Hwl as Hwl'.
  apply wf3_spec in Hwc'. apply wf2_spec in Hwl'.
  unfold dim0, dim1, dim2, rows, cols in Hwc', Hwl'.
  rewrite Hsc in Hwc'. rewrite Hsl in Hwl'. cbn [fst snd] in Hwc', Hwl'.
  destruct Hwc' as [Hlc Hfc]. destruct Hwl' as [Hll Hfl].
  assert (Hblank : Z.to_nat (niters - Z.of_nat X) = blank) by (unfold blank; lia).
  split; [| split; [| split]].
  - unfold init_buffers. cbn [negb].
    unfold bind at 1, load at 1. rewrite Hfs. cbn [fst snd].
    unfold bind at 1, lift at 1, get_iter, dim0, dim1, dim2.
    rewrite Hsc. cbn [fst snd].
    unfold norm_index.
    destruct (Z.leb_spec 0 (-1)); [lia |]. cbn [andb].
    destruct (Z.leb_spec (- Z.of_nat X) (-1)); [| lia].
    destruct (Z.ltb_spec (-1) 0); [| lia]. cbn [andb rbind].
    replace (Z.to_nat (Z.of_nat X + -1)) with (X - 1) by lia.
    destruct (zeros3_ok nwalkers (niters - Z.of_nat X) (Z.of_nat nd)
                ltac:(lia) ltac:(lia) ltac:(lia))
      as [zc [Hzc [Hszc [Hdzc _]]]].
    destruct (zeros2_ok nwalkers (niters - Z.of_nat X) ltac:(lia) ltac:(lia))
      as [zl [Hzl [Hszl [Hdzl _]]]].
    unfold bind at 1, lift at 1. rewrite Hzc.
    unfold bind at 1, lift at 1. rewrite Hzl.
    unfold bind at 1, lift at 1, concatenate3, dim0, dim1, dim2.
    rewrite Hsc, Hszc. cbn [fst snd].
    rewrite Hnw, !Nat2Z.id, !Nat.eqb_refl. cbn [andb].
    unfold bind at 1, lift at 1, concatenate2, rows, cols.
    rewrite Hsl, Hszl. cbn [fst snd].
    rewrite Hnw, !Nat2Z.id, !Nat.eqb_refl.
    unfold ret, b. rewrite Hdzc, Hdzl, Hnw, !Nat2Z.id, Hblank.
    rewrite (map2_repeat _ _ _ _ Hlc), (map2_repeat _ _ _ _ Hll).
    reflexivity.
  - unfold ready, b. cbn [b_chain b_lnprob b_start].
    assert (HXb : X + blank = Z.to_nat niters) by (unfold blank; lia).
    rewrite HXb.
    split; [reflexivity |]. split.
    { apply wf3_spec. unfold dim0, dim1, dim2. cbn [shape3 data3 fst snd].
      split; [rewrite length_map; exact Hlc |].
      apply Forall_map. revert Hfc. apply Forall_impl. intros w [Hw Hr].
      split.
      - rewrite length_app, repeat_length. lia.
      - apply Forall_app. split; [exact Hr |].
        apply Forall_repeat. apply repeat_length. }
    split; [reflexivity |]. split.
    { apply wf2_spec. unfold rows, cols. cbn [shape2 data2 fst snd].
      split; [rewrite length_map; exact Hll |].
      apply Forall_map. revert Hfl. apply Forall_impl. intros r Hr.
      rewrite length_app, repeat_length. lia. }
    split; lia.
  - unfold b, prefix3, dim0, dim2. cbn [b_chain shape3 data3 fst snd].
    destruct ck as [shc dc]. cbn [shape3 data3] in *. subst shc. f_equal.
    rewrite map_map. rewrite <- (map_id dc) at 2.
    apply map_ext_Forall. revert Hfc. apply Forall_impl. intros w [Hw _].
    apply firstn_app_exact. exact Hw.
  - unfold b, prefix2, rows. cbn [b_lnprob shape2 data2 fst snd].
    destruct lk as [shl dl]. cbn [shape2 data2] in *. subst shl. f_equal.
    rewrite map_map. rewrite <- (map_id dl) at 2.
    apply map_ext_Forall. revert Hfl. apply Forall_impl. intros r Hr.
    apply firstn_app_exact. exact Hr.
Qed.

End InitBuffers.

(* ------------------------------------------------------------------ *)
(** ** The stages of doMCMC *)

Lemma same_files_refl {F} (st : state F) : same_files st st.
Proof. repeat split. Qed.

Lemma same_files_trans {F} (st1 st2 st3 : state F) :
  same_files st1 st2 -> same_files st2 st3 -> same_files st1 st3.
Proof.
  intros [Ht1 [Hf1 Hh1]] [Ht2 [Hf2 Hh2]]. repeat split; congruence.
Qed.

Lemma preserves_lift {F A} (r : result A) : preserves (@lift F A r).
Proof. intros st st' r' E. injection E as <- _. apply same_files_refl. Qed.

Lemma preserves_ret {F A} (a : A) : preserves (@ret F A a).
Proof. intros st st' r' E. injection E as <- _. apply same_files_refl. Qed.

Lemma preserves_bind {F A B} (m : M F A) (k : A -> M F B) :
  preserves m -> (forall a, preserves (k a)) -> preserves (bind m k).
Proof.
  intros Hm Hk st st' r E. unfold bind in E.
  destruct (m st) as [st1 [a | x]] eqn:Em.
  - apply (same_files_trans st st1 st'); [apply (Hm _ _ _ Em) |].
    apply (Hk a _ _ _ E).
  - injection E as <- _. apply (Hm _ _ _ Em).
Qed.

Section Stages.
Context {F S G : Type} `{Num F}.
Variable e : env F S G.

Lemma preserves_random_normal loc scale :
  preserves (random_normal e loc scale).
Proof.
  intros st st' r E. unfold random_normal in E.
  destruct (flt scale fzero); injection E as <- _; repeat split.
Qed.

Lemma preserves_init_walker ps : preserves (init_walker e ps).
Proof.
  induction ps as [| p ps IH]; cbn [init_walker].
  - apply preserves_ret.
  - apply preserves_bind; [apply preserves_random_normal | intros v].
    apply preserves_bind; [exact IH | intros w]. apply preserves_ret.
Qed.

Lemma preserves_init_walkers ps n : preserves (init_walkers e ps n).
Proof.
  induction n as [| n IH]; cbn [init_walkers].
  - apply preserves_ret.
  - apply preserves_bind; [apply preserves_init_walker | intros w].
    apply preserves_bind; [exact IH | intros p0]. apply preserves_ret.
Qed.

Lemma preserves_getInitialParameters ps nwalkers :
  preserves (getInitialParameters e ps nwalkers).
Proof.
  unfold getInitialParameters.
  apply preserves_bind; [apply preserves_init_walkers | intros p0].
  apply preserves_ret.
Qed.

(** Whatever [setup] does, it writes no file. *)
Lemma setup_preserves xcm nwalkers nburn systems debug continuerun nochdir
  initialparameters lognorm chunksize :
  preserves (setup e xcm nwalkers nburn systems debug continuerun nochdir
               initialparameters lognorm chunksize).
Proof.
  unfold setup.
  apply preserves_bind; [apply preserves_lift | intros pl].
  apply preserves_bind.
  { destruct (no_file initialparameters);
      [apply preserves_getInitialParameters |].
    destruct initialparameters; apply preserves_lift. }
  intros p0. apply preserves_bind; [apply preserves_lift | intros p0n].
  apply preserves_bind; [apply preserves_lift | intros _].
  destruct (negb continuerun && (nburn >? 0)%Z).
  - apply preserves_bind; [apply preserves_lift | intros burnt].
    apply preserves_ret.
  - apply preserves_ret.
Qed.

(** Resuming with fewer iterations than the checkpoint holds: the
    blank region would have a negative length, and [N.zeros] raises; with
    an empty checkpoint there is no last iteration to start from. *)
Lemma init_buffers_shrinking nwalkers niters nd outnpz pos (st : state F)
  ck lk :
  fs_lookup outnpz (fs st) = Some (NpzFile ck lk) ->
  (niters < Z.of_nat (dim1 ck))%Z ->
  init_buffers true nwalkers niters nd outnpz pos st
  = (st, Raise (if dim1 ck =? 0 then IndexError else ValueError)).
Proof.
  intros Hfs Hlt. unfold init_buffers. cbn [negb].
  unfold bind at 1, load at 1. rewrite Hfs. cbn [fst snd].
  unfold bind at 1, lift at 1, get_iter, norm_index.
  destruct (Z.leb_spec 0 (-1)); [lia |]. cbn [andb].
  destruct (Nat.eqb_spec (dim1 ck) 0) as [E0 | Hne].
  - rewrite E0. cbn. reflexivity.
  - destruct (Z.leb_spec (- Z.of_nat (dim1 ck)) (-1)); [| lia].
    destruct (Z.ltb_spec (-1) 0); [| lia]. cbn [andb rbind].
    unfold bind at 1, lift at 1, zeros3, any_negative. cbn [existsb].
    destruct (Z.ltb_spec (niters - Z.of_nat (dim1 ck)) 0); [| lia].
    rewrite orb_true_r. cbn [orb]. reflexivity.
Qed.

Lemma prefix3_prefix3 (a : array3 F) m n :
  m <= n -> prefix3 m (prefix3 n a) = prefix3 m a.
Proof.
  intros Hmn. unfold prefix3, dim0, dim2. cbn [shape3 data3 fst snd].
  f_equal. rewrite map_map. apply map_ext. intros w.
  rewrite firstn_firstn. f_equal. lia.
Qed.

Lemma prefix2_prefix2 (a : array2 F) m n :
  m <= n -> prefix2 m (prefix2 n a) = prefix2 m a.
Proof.
  intros Hmn. unfold prefix2, rows. cbn [shape2 data2 fst snd].
  f_equal. rewrite map_map. apply map_ext. intros w.
  rewrite firstn_firstn. f_equal. lia.
Qed.

Lemma alloc_plain o (st : state F) :
  alloc o st
  = (mkState (heap st ++ [o]) (fs st) (trace st) (draws st) (ticks st),
     Ok (length (heap st))).
Proof. reflexivity. Qed.

(** The call of the exporter from [doMCMC]: the file is written, and the
    caller gets its two arrays back as they were. *)
Lemma call_writeXSpecChain_run outchain (chain : array3 F) lnprob params idxs
  cs (st : state F) :
  wf3 chain = true -> wf2 lnprob = true ->
  shape2 lnprob = (dim0 chain, dim1 chain) ->
  columns_of params idxs = Ok cs ->
  length idxs <= dim2 chain ->
  exists st',
    call_writeXSpecChain outchain chain lnprob params idxs st
    = (st', Ok (chain, lnprob))
    /\ trace st'
       = trace st ++ EvOpen F outchain
                     :: map (EvWrite F outchain) (export_lines cs chain lnprob)
    /\ draws st' = draws st.
Proof.
  intros Hwc Hwl Hsl Hcs Hlen.
  unfold call_writeXSpecChain.
  rewrite (bind_ok _ _ _ (alloc_plain (Obj3 chain) st)).
  rewrite (bind_ok _ _ _ (alloc_plain (Obj2 lnprob) _)).
  cbn [heap fs trace draws ticks].
  set (st2 := mkState ((heap st ++ [Obj3 chain]) ++ [Obj2 lnprob])
                (fs st) (trace st) (draws st) (ticks st)).
  assert (Hrc : nth_error (heap st2) (length (heap st)) = Some (Obj3 chain)).
  { unfold st2. cbn [heap]. rewrite nth_error_app1.
    - apply nth_error_snoc.
    - rewrite length_app. cbn. lia. }
  assert (Hrl : nth_error (heap st2) (length (heap st ++ [Obj3 chain]))
                = Some (Obj2 lnprob)).
  { unfold st2. cbn [heap]. apply nth_error_snoc. }
  pose proof (@writeXSpecChain_run F _ outchain (length (heap st))
                (length (heap st ++ [Obj3 chain]))
                params idxs cs chain lnprob st2
                Hrc Hrl Hwc Hwl Hsl Hcs Hlen) as Hrun.
  cbv zeta in Hrun.
  rewrite (bind_ok _ _ _ Hrun).
  set (hp := heap st2 ++ _).
  assert (Hrc' : nth_error hp (length (heap st)) = Some (Obj3 chain)).
  { unfold hp. rewrite nth_error_app1; [exact Hrc |].
    apply nth_error_Some. rewrite Hrc. discriminate. }
  assert (Hrl' : nth_error hp (length (heap st ++ [Obj3 chain]))
                 = Some (Obj2 lnprob)).
  { unfold hp. rewrite nth_error_app1; [exact Hrl |].
    apply nth_error_Some. rewrite Hrl. discriminate. }
  rewrite (bind_ok _ _ _ (deref3_run outchain _ hp st2 _ Hrc')).
  rewrite (bind_ok _ _ _ (deref2_run outchain _ hp st2 _ Hrl')).
  eexists. split; [reflexivity |]. split; reflexivity.
Qed.

(** The end of the call: on [Exhausted] the export file is written in
    full and then the checkpoint; on [Interrupted] the checkpoint alone.
    The checkpoint holds the filled prefix, and the buffers come back
    from the exporter unchanged. *)
Lemma finish_run outchain outnpz pl ex (ls : @loop_state F G)
  (st : state F) nw N nd cs :
  loop_inv nw N nd ls ->
  (0 <= l_index ls <= Z.of_nat N)%Z ->
  (ex = Exhausted ->
   columns_of (parlist pl) (paridxs pl) = Ok cs
   /\ length (paridxs pl) <= nd) ->
  let cursor := Z.to_nat (l_index ls) in
  exists st',
    finish outchain outnpz pl (ex, ls) st
    = (st', Ok (l_chain ls, l_lnprob ls))
    /\ trace st'
       = trace st
         ++ export_events outchain cs (l_chain ls) (l_lnprob ls) ex
         ++ [EvSavez (npz_name outnpz) (prefix3 cursor (l_chain ls))
               (prefix2 cursor (l_lnprob ls))]
    /\ fs_lookup (npz_name outnpz) (fs st')
       = Some (NpzFile (prefix3 cursor (l_chain ls))
                 (prefix2 cursor (l_lnprob ls))).
Proof.
  intros [Hsc [Hwc [Hsl Hwl]]] Hidx Hex cursor.
  assert (Hd1 : dim1 (l_chain ls) = N) by (unfold dim1; rewrite Hsc; reflexivity).
  assert (Hd0 : dim0 (l_chain ls) = nw) by (unfold dim0; rewrite Hsc; reflexivity).
  assert (Hd2 : dim2 (l_chain ls) = nd) by (unfold dim2; rewrite Hsc; reflexivity).
  assert (Hsl' : shape2 (l_lnprob ls) = (dim0 (l_chain ls), dim1 (l_chain ls)))
    by (rewrite Hd0, Hd1; exact Hsl).
  assert (Hidx' : (0 <= l_index ls <= Z.of_nat (dim1 (l_chain ls)))%Z)
    by (rewrite Hd1; exact Hidx).
  pose proof (fun st' =>
                @writeNpz_prefix_run F outnpz (l_chain ls) (l_lnprob ls)
                  (l_index ls) st' Hwc Hwl Hsl' Hidx') as Hsave.
  unfold finish. cbn [fst snd]. destruct ex.
  - destruct (Hex eq_refl) as [Hcs Hlen].
    assert (Hlen' : length (paridxs pl) <= dim2 (l_chain ls)) by lia.
    destruct (call_writeXSpecChain_run outchain (l_chain ls) (l_lnprob ls)
                (parlist pl) (paridxs pl) cs st Hwc Hwl Hsl' Hcs Hlen')
      as [st1 [Hcall [Htr _]]].
    rewrite (bind_ok _ _ _ Hcall). cbn [fst snd].
    rewrite (bind_ok _ _ _ (Hsave st1)). unfold ret.
    eexists. split; [reflexivity |]. split.
    + cbn [after_savez trace export_events]. rewrite Htr, <- app_assoc.
      reflexivity.
    + cbn [after_savez fs fs_lookup]. rewrite String.eqb_refl. reflexivity.
  - rewrite (bind_ok _ _ st
               (eq_refl : ret (l_chain ls, l_lnprob ls) st
                          = (st, Ok (l_chain ls, l_lnprob ls)))).
    cbn [fst snd].
    rewrite (bind_ok _ _ _ (Hsave st)). unfold ret.
    eexists. split; [reflexivity |]. split.
    + reflexivity.
    + cbn [after_savez fs fs_lookup]. rewrite String.eqb_refl. reflexivity.
Qed.

End Stages.

Section Run.
Context {F S G : Type} `{Num F}.
Variable e : env F S G.

(** A whole call of [doMCMC] whose setup and buffers are in place and
    whose sampler behaves: it returns; the buffers keep their capacity;
    no iteration before the starting cursor is touched; apart from
    autosaved checkpoints, the only things written are the export file
    (if the loop ran to its end) and then the final checkpoint, which
    holds exactly the filled prefix. *)
Lemma doMCMC_run xcm nwalkers nburn niters systems outchain outnpz debug
  continuerun autosave nochdir initialparameters lognorm chunksize
  (st st1 : state F) pl nd state pos b I nw N cs :
  setup e xcm nwalkers nburn systems debug continuerun nochdir
    initialparameters lognorm chunksize st
  = (st1, Ok (pl, nd, state, pos)) ->
  init_buffers continuerun nwalkers niters nd outnpz pos st1 = (st1, Ok b) ->
  ready nw N nd niters b ->
  sampler_ok e I nw nd -> I (sample e (b_pos b) state) ->
  let out := passes_done e (Z.to_nat (niters - b_start b)) 0 in
  (fst out = Exhausted ->
   columns_of (parlist pl) (paridxs pl) = Ok cs
   /\ length (paridxs pl) <= nd) ->
  let cursor := Z.to_nat (b_start b) + snd out in
  exists st' c l evs,
    doMCMC e xcm nwalkers nburn niters systems outchain outnpz debug
      continuerun autosave nochdir initialparameters lognorm chunksize st
    = (st', Ok (mkLocals (fst out) c l (Z.of_nat cursor) (b_start b) (b_pos b)))
    /\ shape3 c = (nw, N, nd) /\ wf3 c = true
    /\ shape2 l = (nw, N) /\ wf2 l = true
    /\ cursor <= N
    /\ (forall X, (Z.of_nat X <= b_start b)%Z ->
        prefix3 X c = prefix3 X (b_chain b)
        /\ prefix2 X l = prefix2 X (b_lnprob b))
    /\ forallb is_savez evs = true
    /\ trace st'
       = trace st ++ evs ++ export_events outchain cs c l (fst out)
         ++ [EvSavez (npz_name outnpz) (prefix3 cursor c) (prefix2 cursor l)]
    /\ fs_lookup (npz_name outnpz) (fs st')
       = Some (NpzFile (prefix3 cursor c) (prefix2 cursor l)).
Proof.
  intros Hsetup Hinit [Hsc [Hwc [Hsl [Hwl [HN Hstart]]]]] Hs Hg0 out Hcols cursor.
  destruct (setup_preserves e xcm nwalkers nburn systems debug continuerun
              nochdir initialparameters lognorm chunksize st st1 _ Hsetup)
    as [Htr1 _].
  destruct (time_run e st1) as [st2 [Htime [Hs2 _]]].
  set (ls0 := mkLoop (b_chain b) (b_lnprob b) (b_start b)
                (clock e (ticks st1)) (sample e (b_pos b) state)).
  destruct (sample_loop_runs e autosave outnpz I nw N nd Hs
              (Z.to_nat (niters - b_start b)) 0 ls0 st2)
    as [st3 [ls [Hloop [Hinv [Hs3 [Hidx [Hle Hpre]]]]]]].
  { exact Hg0. }
  { repeat split; assumption. }
  { cbn [ls0 l_index]. lia. }
  { cbn [ls0 l_index]. lia. }
  fold out in Hloop, Hidx, Hle. cbn [ls0 l_index l_chain l_lnprob] in Hidx, Hpre.
  assert (Hcur : l_index ls = Z.of_nat cursor) by (unfold cursor; lia).
  destruct (finish_run outchain outnpz pl (fst out) ls st3 nw N nd cs Hinv)
    as [st4 [Hfin [Htr4 Hfs4]]].
  { lia. }
  { exact Hcols. }
  rewrite Hcur, Nat2Z.id in Htr4, Hfs4.
  destruct Hs2 as [_ [_ [ev2 [Htr2 Hev2]]]].
  destruct Hs3 as [_ [_ [ev3 [Htr3 Hev3]]]].
  destruct Hinv as [Hsc' [Hwc' [Hsl' Hwl']]].
  exists st4, (l_chain ls), (l_lnprob ls), (ev2 ++ ev3).
  split.
  { unfold doMCMC.
    rewrite (bind_ok _ _ st Hsetup). cbn [fst snd].
    rewrite (bind_ok _ _ st1 Hinit).
    rewrite (bind_ok _ _ st1 Htime).
    fold ls0. rewrite (bind_ok _ _ st2 Hloop).
    rewrite (bind_ok _ _ st3 Hfin). cbn [fst snd]. rewrite Hcur.
    reflexivity. }
  split; [exact Hsc' |]. split; [exact Hwc' |].
  split; [exact Hsl' |]. split; [exact Hwl' |].
  split; [unfold cursor; lia |].
  split; [exact Hpre |].
  split; [rewrite forallb_app, Hev2, Hev3; reflexivity |].
  split; [| exact Hfs4].
  rewrite Htr4, Htr3, Htr2, Htr1, <- !app_assoc. reflexivity.
Qed.

End Run.

Lemma forallb_savez_no_open {F} (t : list (event F)) :
  forallb is_savez t = true -> first_pos is_open t = None.
Proof.
  induction t as [| ev t IH]; cbn; [reflexivity |].
  intros Hs. apply andb_true_iff in Hs. destruct Hs as [Hev Ht].
  destruct ev; cbn in *; try discriminate.
  rewrite (IH Ht). reflexivity.
Qed.

Section RunTheorems.
Context {F S G : Type} `{Num F}.
Variable e : env F S G.

(** C3. A run, fresh or resumed, that receives the cancellation signal
    in pass [k] of the sampling loop returns normally; the cursor is the
    starting cursor plus the passes completed; apart from autosaved
    checkpoints the only thing it writes is the final checkpoint, whose
    arrays have shapes [(nwalkers, cursor, ndims)] and
    [(nwalkers, cursor)] and hold the filled prefix; the export file is
    never opened. *)
Theorem doMCMC_interrupted_checkpoint_only
  xcm nwalkers nburn niters systems outchain outnpz debug
  continuerun autosave nochdir initialparameters lognorm chunksize
  (st st1 : state F) pl nd state pos b I nw N k ph :
  setup e xcm nwalkers nburn systems debug continuerun nochdir
    initialparameters lognorm chunksize st
  = (st1, Ok (pl, nd, state, pos)) ->
  init_buffers continuerun nwalkers niters nd outnpz pos st1 = (st1, Ok b) ->
  ready nw N nd niters b ->
  sampler_ok e I nw nd -> I (sample e (b_pos b) state) ->
  interrupt e = Some (k, ph) ->
  (k < Z.to_nat (niters - b_start b)
   \/ (k = Z.to_nat (niters - b_start b) /\ ph = InStep)) ->
  let cursor :=
    Z.to_nat (b_start b) + (k + (if phase_eqb ph AfterIndex then 1 else 0)) in
  exists st' v evs,
    doMCMC e xcm nwalkers nburn niters systems outchain outnpz debug
      continuerun autosave nochdir initialparameters lognorm chunksize st
    = (st', Ok v)
    /\ v_exit v = Interrupted
    /\ v_index v = Z.of_nat cursor
    /\ trace st'
       = trace st ++ evs
         ++ [EvSavez (npz_name outnpz) (prefix3 cursor (v_chain v))
               (prefix2 cursor (v_lnprob v))]
    /\ forallb is_savez evs = true
    /\ first_pos is_open
         (evs ++ [EvSavez (npz_name outnpz) (prefix3 cursor (v_chain v))
                    (prefix2 cursor (v_lnprob v))]) = None
    /\ shape3 (prefix3 cursor (v_chain v)) = (nw, cursor, nd)
    /\ shape2 (prefix2 cursor (v_lnprob v)) = (nw, cursor)
    /\ wf3 (prefix3 cursor (v_chain v)) = true
    /\ wf2 (prefix2 cursor (v_lnprob v)) = true
    /\ fs_lookup (npz_name outnpz) (fs st')
       = Some (NpzFile (prefix3 cursor (v_chain v))
                 (prefix2 cursor (v_lnprob v))).
Proof.
  intros Hsetup Hinit Hready Hs Hg0 Hint Hk cursor.
  pose proof (passes_done_interrupted e k ph
                (Z.to_nat (niters - b_start b)) 0 Hint (Nat.le_0_l k) Hk)
    as Hout.
  rewrite Nat.sub_0_r in Hout.
  destruct (doMCMC_run e xcm nwalkers nburn niters systems outchain outnpz
              debug continuerun autosave nochdir initialparameters lognorm
              chunksize st st1 pl nd state pos b I nw N [] Hsetup Hinit
              Hready Hs Hg0)
    as [st' [c [l [evs [Hrun [Hsc [Hwc [Hsl [Hwl [Hle [_ [Hev [Htr Hfs]]]]]]]]]]]]].
  { rewrite Hout. discriminate. }
  rewrite Hout in Hrun, Htr, Hfs, Hle. cbn [fst snd export_events] in *.
  fold cursor in Hrun, Htr, Hfs, Hle.
  exists st', (mkLocals Interrupted c l (Z.of_nat cursor) (b_start b) (b_pos b)), evs.
  cbn [v_exit v_index v_chain v_lnprob].
  split; [exact Hrun |]. split; [reflexivity |]. split; [reflexivity |].
  split; [exact Htr |]. split; [exact Hev |].
  split.
  { apply forallb_savez_no_open. rewrite forallb_app, Hev. reflexivity. }
  split.
  { unfold prefix3, dim0, dim2. cbn [shape3]. rewrite Hsc. reflexivity. }
  split.
  { unfold prefix2, rows. cbn [shape2]. rewrite Hsl. reflexivity. }
  split.
  { apply wf3_prefix; [| exact Hwc]. unfold dim1. rewrite Hsc. exact Hle. }
  split.
  { apply wf2_prefix; [| exact Hwl]. unfold cols. rewrite Hsl. exact Hle. }
  exact Hfs.
Qed.

(** C4, as the code has it.  A run whose loop runs to its end (no
    signal arrives while it samples) returns normally with the cursor at
    [niters], and apart from autosaved checkpoints it writes, in this
    order: the whole export file, then the final checkpoint. *)
Theorem doMCMC_completed_export_then_checkpoint
  xcm nwalkers nburn niters systems outchain outnpz debug
  continuerun autosave nochdir initialparameters lognorm chunksize
  (st st1 : state F) pl nd state pos b I nw N cs :
  setup e xcm nwalkers nburn systems debug continuerun nochdir
    initialparameters lognorm chunksize st
  = (st1, Ok (pl, nd, state, pos)) ->
  init_buffers continuerun nwalkers niters nd outnpz pos st1 = (st1, Ok b) ->
  ready nw N nd niters b ->
  sampler_ok e I nw nd -> I (sample e (b_pos b) state) ->
  fst (passes_done e (Z.to_nat (niters - b_start b)) 0) = Exhausted ->
  columns_of (parlist pl) (paridxs pl) = Ok cs ->
  length (paridxs pl) <= nd ->
  exists st' v evs,
    doMCMC e xcm nwalkers nburn niters systems outchain outnpz debug
      continuerun autosave nochdir initialparameters lognorm chunksize st
    = (st', Ok v)
    /\ v_exit v = Exhausted
    /\ v_index v = niters
    /\ forallb is_savez evs = true
    /\ trace st'
       = trace st ++ evs
         ++ (EvOpen F outchain
             :: map (EvWrite F outchain)
                  (export_lines cs (v_chain v) (v_lnprob v)))
         ++ [EvSavez (npz_name outnpz) (v_chain v) (v_lnprob v)].
Proof.
  intros Hsetup Hinit Hready Hs Hg0 Hex Hcs Hlen.
  pose proof (passes_done_exhausted e (Z.to_nat (niters - b_start b)) 0 Hex)
    as Hn.
  destruct (doMCMC_run e xcm nwalkers nburn niters systems outchain outnpz
              debug continuerun autosave nochdir initialparameters lognorm
              chunksize st st1 pl nd state pos b I nw N cs Hsetup Hinit
              Hready Hs Hg0)
    as [st' [c [l [evs [Hrun [Hsc [Hwc [Hsl [Hwl [Hle [_ [Hev [Htr Hfs]]]]]]]]]]]]].
  { intros _. split; assumption. }
  rewrite Hex, Hn in Hrun. rewrite Hex, Hn in Htr.
  cbn [export_events] in Htr.
  destruct Hready as [_ [_ [_ [_ [HN Hstart]]]]].
  assert (Hcur : Z.to_nat (b_start b) + Z.to_nat (niters - b_start b) = N) by lia.
  rewrite Hcur in Hrun, Htr.
  assert (E3 : prefix3 N c = c).
  { replace N with (dim1 c) by (unfold dim1; rewrite Hsc; reflexivity).
    apply prefix3_full. exact Hwc. }
  assert (E2 : prefix2 N l = l).
  { replace N with (cols l) by (unfold cols; rewrite Hsl; reflexivity).
    apply prefix2_full. exact Hwl. }
  rewrite E3, E2 in Htr.
  exists st', (mkLocals Exhausted c l (Z.of_nat N) (b_start b) (b_pos b)), evs.
  cbn [v_exit v_index v_chain v_lnprob].
  split; [exact Hrun |]. split; [reflexivity |]. split; [lia |].
  split; [exact Hev | exact Htr].
Qed.

(** C5, as the code has it.  A resume request for fewer iterations than
    the checkpoint holds raises before the loop is entered, [ValueError]
    from [N.zeros] (or [IndexError] for an empty checkpoint), and no
    file is written.  The request for exactly as many iterations is not
    covered: it does not fail. *)
Theorem doMCMC_resume_shrinking_fails
  xcm nwalkers nburn niters systems outchain outnpz debug
  autosave nochdir initialparameters lognorm chunksize
  (st st1 : state F) pl nd state pos ck lk :
  setup e xcm nwalkers nburn systems debug true nochdir
    initialparameters lognorm chunksize st
  = (st1, Ok (pl, nd, state, pos)) ->
  fs_lookup outnpz (fs st) = Some (NpzFile ck lk) ->
  (niters < Z.of_nat (dim1 ck))%Z ->
  doMCMC e xcm nwalkers nburn niters systems outchain outnpz debug
    true autosave nochdir initialparameters lognorm chunksize st
  = (st1, Raise (if dim1 ck =? 0 then IndexError else ValueError))
  /\ trace st1 = trace st /\ fs st1 = fs st.
Proof.
  intros Hsetup Hfs Hlt.
  destruct (setup_preserves e xcm nwalkers nburn systems debug true
              nochdir initialparameters lognorm chunksize st st1 _ Hsetup)
    as [Htr [Hfs1 _]].
  split; [| split; assumption].
  unfold doMCMC. rewrite (bind_ok _ _ st Hsetup). cbn [fst snd].
  apply bind_raise.
  apply (init_buffers_shrinking nwalkers niters nd outnpz pos st1 ck lk);
    [rewrite Hfs1; exact Hfs | exact Hlt].
Qed.

(** C1, as the code has it.  Resuming a well-formed checkpoint of shape
    [(nwalkers, X, ndims)] with at least one filled iteration and
    [niters >= X]: the buffers are the checkpoint's followed by zeros up
    to capacity [niters]; the cursor starts at [X]; the population handed
    to the sampler is the checkpoint's last filled iteration; the run
    returns, interrupted or not, and the first [X] iterations of the
    final chain, and of the final checkpoint, are the checkpoint's. *)
Theorem doMCMC_resume_continues_checkpoint
  xcm nwalkers nburn niters systems outchain outnpz debug
  autosave nochdir initialparameters lognorm chunksize
  (st st1 : state F) pl nd state pos0 I cs ck lk nw X :
  setup e xcm nwalkers nburn systems debug true nochdir
    initialparameters lognorm chunksize st
  = (st1, Ok (pl, nd, state, pos0)) ->
  fs_lookup outnpz (fs st) = Some (NpzFile ck lk) ->
  wf3 ck = true -> wf2 lk = true ->
  shape3 ck = (nw, X, nd) -> shape2 lk = (nw, X) ->
  nwalkers = Z.of_nat nw -> 1 <= X -> (Z.of_nat X <= niters)%Z ->
  let last := mkA2 (nw, nd) (map (fun w => nth (X - 1) w []) (data3 ck)) in
  sampler_ok e I nw nd -> I (sample e last state) ->
  columns_of (parlist pl) (paridxs pl) = Ok cs ->
  length (paridxs pl) <= nd ->
  let blank := Z.to_nat niters - X in
  let b :=
    mkBuf
      (mkA3 (nw, X + blank, nd)
         (map (fun w => w ++ repeat (repeat fzero nd) blank) (data3 ck)))
      (mkA2 (nw, X + blank)
         (map (fun r => r ++ repeat fzero blank) (data2 lk)))
      (Z.of_nat X) last in
  init_buffers true nwalkers niters nd outnpz pos0 st1 = (st1, Ok b)
  /\ X + blank = Z.to_nat niters
  /\ exists st' v cursor,
      doMCMC e xcm nwalkers nburn niters systems outchain outnpz debug
        true autosave nochdir initialparameters lognorm chunksize st
      = (st', Ok v)
      /\ v_start v = Z.of_nat X
      /\ v_pos v = last
      /\ v_index v = Z.of_nat cursor /\ X <= cursor <= Z.to_nat niters
      /\ shape3 (v_chain v) = (nw, Z.to_nat niters, nd)
      /\ shape2 (v_lnprob v) = (nw, Z.to_nat niters)
      /\ prefix3 X (v_chain v) = ck
      /\ prefix2 X (v_lnprob v) = lk
      /\ fs_lookup (npz_name outnpz) (fs st')
         = Some (NpzFile (prefix3 cursor (v_chain v))
                   (prefix2 cursor (v_lnprob v)))
      /\ prefix3 X (prefix3 cursor (v_chain v)) = ck
      /\ prefix2 X (prefix2 cursor (v_lnprob v)) = lk.
Proof.
  intros Hsetup Hfs Hwc Hwl Hsc Hsl Hnw HX HN last Hs Hg0 Hcs Hlen blank b.
  destruct (setup_preserves e xcm nwalkers nburn systems debug true
              nochdir initialparameters lognorm chunksize st st1 _ Hsetup)
    as [_ [Hfs1 _]].
  rewrite <- Hfs1 in Hfs.
  destruct (init_buffers_resume nwalkers niters nd outnpz pos0 st1 ck lk nw X
              Hfs Hwc Hwl Hsc Hsl Hnw HX HN)
    as [Hinit [Hready [Hp3 Hp2]]].
  fold blank in Hinit, Hready, Hp3, Hp2. fold last in Hinit, Hready, Hp3, Hp2.
  fold b in Hinit, Hready, Hp3, Hp2.
  split; [exact Hinit |]. split; [unfold blank; lia |].
  destruct (doMCMC_run e xcm nwalkers nburn niters systems outchain outnpz
              debug true autosave nochdir initialparameters lognorm
              chunksize st st1 pl nd state pos0 b I nw (Z.to_nat niters) cs
              Hsetup Hinit Hready Hs Hg0)
    as [st' [c [l [evs [Hrun [Hsc' [Hwc' [Hsl' [Hwl' [Hle [Hpre [_ [_ Hfs']]]]]]]]]]]]].
  { intros _. split; assumption. }
  set (cursor := Z.to_nat (b_start b)
                 + snd (passes_done e (Z.to_nat (niters - b_start b)) 0)) in *.
  assert (HXc : X <= cursor) by (unfold cursor, b; cbn [b_start]; lia).
  destruct (Hpre X ltac:(unfold b; cbn [b_start]; lia)) as [E3 E2].
  eexists. eexists. exists cursor.
  split; [exact Hrun |]. cbn [v_start v_pos v_index v_chain v_lnprob].
  split; [reflexivity |]. split; [reflexivity |]. split; [reflexivity |].
  split; [split; [exact HXc | exact Hle] |].
  split; [exact Hsc' |]. split; [exact Hsl' |].
  split; [rewrite E3; exact Hp3 |]. split; [rewrite E2; exact Hp2 |].
  split; [exact Hfs' |].
  rewrite prefix3_prefix3, prefix2_prefix2 by exact HXc.
  split; [rewrite E3; exact Hp3 | rewrite E2; exact Hp2].
Qed.

End RunTheorems.

(* ------------------------------------------------------------------ *)
(** ** Concrete runs *)

Lemma step_ok intr :
  sampler_ok (Toy.the_env intr) ToyCheckpoints.four_by_two 4 2.
Proof.
  intros g [Hs Hw]. unfold Toy.the_env, next, Toy.step.
  eexists. eexists. eexists. split; [reflexivity |].
  apply wf2_spec in Hw. unfold rows, cols in Hw. rewrite Hs in Hw.
  cbn [fst snd] in Hw. destruct Hw as [Hl Hr].
  assert (Hw' : wf2 (mkA2 (shape2 g) (map (map Z.succ) (data2 g))) = true).
  { apply wf2_spec. unfold rows, cols. cbn [shape2 data2]. rewrite Hs.
    cbn [fst snd]. split; [rewrite length_map; exact Hl |].
    apply Forall_map. revert Hr. apply Forall_impl. intros r Hr.
    rewrite length_map. exact Hr. }
  split; [exact Hs |]. split; [exact Hw' |].
  split; [cbn [data2]; rewrite !length_map; exact Hl |].
  split; [exact Hs | exact Hw'].
Qed.

(** C3 at a concrete run: ten iterations requested, the signal arrives
    in the fourth pass after three are complete. *)
Lemma doMCMC_interrupted_checkpoint_only_witness :
  exists st' v evs,
    ToyRun.fresh (Toy.the_env (Some (3, InStep))) 10%Z
      Toy.empty_state = (st', Ok v)
    /\ v_exit v = Interrupted
    /\ v_index v = 3%Z
    /\ trace st'
       = evs ++ [EvSavez "out.npz" (prefix3 3 (v_chain v))
                   (prefix2 3 (v_lnprob v))]
    /\ first_pos is_open
         (evs ++ [EvSavez "out.npz" (prefix3 3 (v_chain v))
                    (prefix2 3 (v_lnprob v))]) = None
    /\ shape3 (prefix3 3 (v_chain v)) = (4, 3, 2).
Proof.
  assert (Hready : ready 4 10 2 10%Z (ToyCheckpoints.fresh_buffers 10)).
  { repeat split; try reflexivity; discriminate. }
  assert (Hg0 : ToyCheckpoints.four_by_two
                  (sample (Toy.the_env (Some (3, InStep)))
                     (b_pos (ToyCheckpoints.fresh_buffers 10)) None)).
  { split; reflexivity. }
  assert (Hk : 3 < Z.to_nat (10 - b_start (ToyCheckpoints.fresh_buffers 10))
               \/ (3 = Z.to_nat (10 - b_start (ToyCheckpoints.fresh_buffers 10))
                   /\ InStep = InStep)).
  { left. cbn. repeat constructor. }
  assert (Hsetup :
    setup (Toy.the_env (Some (3, InStep))) "model.xcm" 4%Z 0%Z
      ["localhost"%string] false false false None false 4%Z
      Toy.empty_state
    = (add_draws 8 Toy.empty_state,
       Ok (Toy.the_pool, 2, None, ToyCheckpoints.start_pos)))
    by (vm_compute; reflexivity).
  assert (Hinit :
    init_buffers false 4%Z 10%Z 2 "out.npz" ToyCheckpoints.start_pos
      (add_draws 8 Toy.empty_state)
    = (add_draws 8 Toy.empty_state,
       Ok (ToyCheckpoints.fresh_buffers 10)))
    by (vm_compute; reflexivity).
  destruct (doMCMC_interrupted_checkpoint_only
              (Toy.the_env (Some (3, InStep)))
              "model.xcm" 4%Z 0%Z 10%Z ["localhost"%string] "out.dat" "out.npz"
              false false false false None false 4%Z
              Toy.empty_state (add_draws 8 Toy.empty_state)
              Toy.the_pool 2 None ToyCheckpoints.start_pos
              (ToyCheckpoints.fresh_buffers 10)
              ToyCheckpoints.four_by_two 4 10 3 InStep
              Hsetup Hinit Hready (step_ok _) Hg0 eq_refl Hk)
    as [st' [v [evs [Hrun [Hex [Hidx [Htr [_ [Hno [Hsh _]]]]]]]]]].
  exists st', v, evs.
  split; [exact Hrun |]. split; [exact Hex |]. split; [exact Hidx |].
  split; [exact Htr |]. split; [exact Hno | exact Hsh].
Defined.

(** C4 at a concrete run: three iterations, no signal. *)
Lemma doMCMC_completed_export_then_checkpoint_witness :
  exists st' v evs,
    ToyRun.fresh (Toy.the_env None) 3%Z Toy.empty_state
    = (st', Ok v)
    /\ v_exit v = Exhausted
    /\ v_index v = 3%Z
    /\ trace st'
       = evs
         ++ (EvOpen Z "out.dat"
             :: map (EvWrite Z "out.dat")
                  (export_lines ToyExport.columns (v_chain v) (v_lnprob v)))
         ++ [EvSavez "out.npz" (v_chain v) (v_lnprob v)].
Proof.
  assert (Hready : ready 4 3 2 3%Z (ToyCheckpoints.fresh_buffers 3)).
  { repeat split; try reflexivity; discriminate. }
  assert (Hg0 : ToyCheckpoints.four_by_two
                  (sample (Toy.the_env None)
                     (b_pos (ToyCheckpoints.fresh_buffers 3)) None)).
  { split; reflexivity. }
  assert (Hsetup :
    setup (Toy.the_env None) "model.xcm" 4%Z 0%Z
      ["localhost"%string] false false false None false 4%Z
      Toy.empty_state
    = (add_draws 8 Toy.empty_state,
       Ok (Toy.the_pool, 2, None, ToyCheckpoints.start_pos)))
    by (vm_compute; reflexivity).
  assert (Hinit :
    init_buffers false 4%Z 3%Z 2 "out.npz" ToyCheckpoints.start_pos
      (add_draws 8 Toy.empty_state)
    = (add_draws 8 Toy.empty_state,
       Ok (ToyCheckpoints.fresh_buffers 3)))
    by (vm_compute; reflexivity).
  assert (Hcols :
    columns_of (parlist Toy.the_pool) (paridxs Toy.the_pool)
    = Ok ToyExport.columns) by (vm_compute; reflexivity).
  destruct (doMCMC_completed_export_then_checkpoint
              (Toy.the_env None)
              "model.xcm" 4%Z 0%Z 3%Z ["localhost"%string] "out.dat" "out.npz"
              false false false false None false 4%Z
              Toy.empty_state (add_draws 8 Toy.empty_state)
              Toy.the_pool 2 None ToyCheckpoints.start_pos
              (ToyCheckpoints.fresh_buffers 3)
              ToyCheckpoints.four_by_two 4 3 ToyExport.columns
              Hsetup Hinit Hready (step_ok _) Hg0 eq_refl Hcols (le_n 2))
    as [st' [v [evs [Hrun [Hex [Hidx [_ Htr]]]]]]].
  exists st', v, evs.
  split; [exact Hrun |]. split; [exact Hex |]. split; [exact Hidx | exact Htr].
Defined.

(** C4 as worded fails: in a completed run the export file is opened
    first, and the only checkpoint is written after its last line. *)
Lemma doMCMC_completed_checkpoint_comes_last :
  let r := ToyRun.fresh (Toy.the_env None) 1%Z Toy.empty_state in
  match snd r with
  | Ok v => v_exit v = Exhausted /\ v_index v = 1%Z
  | Raise _ => False
  end
  /\ first_pos is_open (trace (fst r)) = Some 0
  /\ first_pos is_savez (trace (fst r)) = Some 9
  /\ last_pos is_savez (trace (fst r)) = Some 9
  /\ checkpoint_then_export (trace (fst r)) = false.
Proof. vm_compute. repeat split. Qed.

(** C5 at a concrete request: the checkpoint holds one iteration, zero
    are requested. *)
Lemma doMCMC_resume_shrinking_fails_witness :
  ToyRun.resumed (Toy.the_env None) 0%Z
    (ToyCheckpoints.with_checkpoint ToyCheckpoints.one_chain
       ToyCheckpoints.one_lnprob)
  = (add_draws 8 (ToyCheckpoints.with_checkpoint
                    ToyCheckpoints.one_chain ToyCheckpoints.one_lnprob),
     Raise ValueError).
Proof.
  assert (Hsetup :
    setup (Toy.the_env None) "model.xcm" 4%Z 0%Z
      ["localhost"%string] false true false None false 4%Z
      (ToyCheckpoints.with_checkpoint ToyCheckpoints.one_chain
         ToyCheckpoints.one_lnprob)
    = (add_draws 8 (ToyCheckpoints.with_checkpoint
                      ToyCheckpoints.one_chain
                      ToyCheckpoints.one_lnprob),
       Ok (Toy.the_pool, 2, None, ToyCheckpoints.start_pos)))
    by (vm_compute; reflexivity).
  exact (proj1 (doMCMC_resume_shrinking_fails (Toy.the_env None)
                  "model.xcm" 4%Z 0%Z 0%Z ["localhost"%string] "out.dat"
                  "out.npz" false false false None false 4%Z
                  (ToyCheckpoints.with_checkpoint
                     ToyCheckpoints.one_chain ToyCheckpoints.one_lnprob)
                  (add_draws 8 (ToyCheckpoints.with_checkpoint
                                  ToyCheckpoints.one_chain
                                  ToyCheckpoints.one_lnprob))
                  Toy.the_pool 2 None ToyCheckpoints.start_pos
                  ToyCheckpoints.one_chain ToyCheckpoints.one_lnprob
                  Hsetup eq_refl eq_refl)).
Defined.

(** C5 as worded fails: with a checkpoint of one iteration and one
    iteration requested, the run does not fail; it samples nothing and
    writes both the export file and a checkpoint. *)
Lemma doMCMC_resume_same_length_runs :
  let r := ToyRun.resumed (Toy.the_env None) 1%Z
             (ToyCheckpoints.with_checkpoint ToyCheckpoints.one_chain
                ToyCheckpoints.one_lnprob) in
  dim1 ToyCheckpoints.one_chain = 1
  /\ match snd r with
     | Ok v => v_exit v = Exhausted /\ v_index v = 1%Z
     | Raise _ => False
     end
  /\ first_pos is_open (trace (fst r)) = Some 0
  /\ last_pos is_savez (trace (fst r)) = Some 9
  /\ fs_lookup "out.dat" (fs (fst r)) <> None.
Proof. vm_compute. repeat split. discriminate. Qed.

(** C1 at a concrete resume: one iteration in the checkpoint, three
    requested. *)
Lemma doMCMC_resume_continues_checkpoint_witness :
  exists st' v,
    ToyRun.resumed (Toy.the_env None) 3%Z
      (ToyCheckpoints.with_checkpoint ToyCheckpoints.one_chain
         ToyCheckpoints.one_lnprob) = (st', Ok v)
    /\ v_start v = 1%Z
    /\ v_pos v = ToyCheckpoints.one_last
    /\ shape3 (v_chain v) = (4, 3, 2)
    /\ prefix3 1 (v_chain v) = ToyCheckpoints.one_chain.
Proof.
  assert (Hg0 : ToyCheckpoints.four_by_two
                  (sample (Toy.the_env None)
                     ToyCheckpoints.one_last None)).
  { split; reflexivity. }
  assert (HN : (Z.of_nat 1 <= 3)%Z) by discriminate.
  assert (Hsetup :
    setup (Toy.the_env None) "model.xcm" 4%Z 0%Z
      ["localhost"%string] false true false None false 4%Z
      (ToyCheckpoints.with_checkpoint ToyCheckpoints.one_chain
         ToyCheckpoints.one_lnprob)
    = (add_draws 8 (ToyCheckpoints.with_checkpoint
                      ToyCheckpoints.one_chain
                      ToyCheckpoints.one_lnprob),
       Ok (Toy.the_pool, 2, None, ToyCheckpoints.start_pos)))
    by (vm_compute; reflexivity).
  assert (Hcols :
    columns_of (parlist Toy.the_pool) (paridxs Toy.the_pool)
    = Ok ToyExport.columns) by (vm_compute; reflexivity).
  destruct (doMCMC_resume_continues_checkpoint (Toy.the_env None)
              "model.xcm" 4%Z 0%Z 3%Z ["localhost"%string] "out.dat" "out.npz"
              false false false None false 4%Z
              (ToyCheckpoints.with_checkpoint ToyCheckpoints.one_chain
                 ToyCheckpoints.one_lnprob)
              (add_draws 8 (ToyCheckpoints.with_checkpoint
                              ToyCheckpoints.one_chain
                              ToyCheckpoints.one_lnprob))
              Toy.the_pool 2 None ToyCheckpoints.start_pos
              ToyCheckpoints.four_by_two ToyExport.columns
              ToyCheckpoints.one_chain ToyCheckpoints.one_lnprob 4 1
              Hsetup eq_refl eq_refl eq_refl eq_refl eq_refl eq_refl
              (le_n 1) HN (step_ok _) Hg0 Hcols (le_n 2))
    as [_ [_ [st' [v [cursor [Hrun [Hst [Hpos [_ [_ [Hsh [_ [Hpre _]]]]]]]]]]]]].
  exists st', v.
  split; [exact Hrun |]. split; [exact Hst |]. split; [exact Hpos |].
  split; [exact Hsh | exact Hpre].
Defined.

(** C1 as worded fails at [X = 0]: a run interrupted during its first
    step leaves a checkpoint with no filled iteration, and resuming it,
    with any [niters >= 0], raises [IndexError] when it asks for the
    last iteration: there is no cursor, no buffer and no final chain. *)
Lemma doMCMC_resume_empty_checkpoint_raises :
  fs (fst (ToyRun.fresh (Toy.the_env (Some (0, InStep))) 3%Z
             Toy.empty_state))
  = [("out.npz"%string,
      NpzFile ToyCheckpoints.empty_chain ToyCheckpoints.empty_lnprob)]
  /\ dim1 ToyCheckpoints.empty_chain = 0
  /\ snd (ToyRun.resumed (Toy.the_env None) 3%Z
            (ToyCheckpoints.with_checkpoint ToyCheckpoints.empty_chain
               ToyCheckpoints.empty_lnprob))
     = Raise IndexError.
Proof. vm_compute. repeat split. Qed.

(* ================================================================== *)
(** * Further properties of the code *)

(* ------------------------------------------------------------------ *)
(** ** expandSystems and main *)

Lemma append_nil_right (s : string) : (s ++ "")%string = s.
Proof. induction s as [| c s IH]; cbn; [reflexivity | rewrite IH; reflexivity]. Qed.

Lemma append_assoc_string (a b c : string) :
  ((a ++ b) ++ c)%string = (a ++ (b ++ c))%string.
Proof. induction a as [| x a IH]; cbn; [reflexivity | rewrite IH; reflexivity]. Qed.

Lemma span_whole cls a :
  all_chars cls a = true -> span cls a = (a, EmptyString).
Proof.
  intros Ha. rewrite <- (append_nil_right a) at 1.
  apply (@span_app_stop cls a EmptyString Ha I).
Qed.

(** A name of letters and digits has no star to expand at. *)
Lemma leading_star_form_name nm :
  all_chars is_alnum nm = true -> leading_star_form nm = None.
Proof.
  intros Ha. unfold leading_star_form. rewrite (span_whole is_alnum nm Ha).
  reflexivity.
Qed.

Lemma flat_map_repeat_fixed {A} (f : A -> list A) x n :
  f x = [x] -> flat_map f (repeat x n) = repeat x n.
Proof.
  intros Hx. induction n as [| n IH]; cbn; [reflexivity |].
  rewrite Hx, IH. reflexivity.
Qed.

Lemma expand_entry_again s :
  flat_map expand_entry (expand_entry s) = expand_entry s.
Proof.
  unfold expand_entry at 2 3.
  destruct (leading_star_form s) as [[nm k] |] eqn:E.
  - destruct (@leading_star_form_inv s nm k E) as [_ [_ [_ [Ha _]]]].
    cbn [fst snd]. apply flat_map_repeat_fixed.
    unfold expand_entry. rewrite (leading_star_form_name nm Ha). reflexivity.
  - cbn [flat_map]. unfold expand_entry. rewrite E. reflexivity.
Qed.

(** X1. Expanding twice is expanding once: what [expandSystems] returns
    holds no shorthand that it would expand. *)
Theorem expandSystems_idempotent systems :
  expandSystems (expandSystems systems) = expandSystems systems.
Proof.
  rewrite !expandSystems_flat_map.
  induction systems as [| s rest IH]; [reflexivity |].
  cbn [flat_map]. rewrite flat_map_app, IH, expand_entry_again. reflexivity.
Qed.

Lemma has_char_app c a b :
  has_char c (a ++ String c b) = true.
Proof.
  induction a as [| d a IH]; cbn.
  - rewrite Ascii.eqb_refl. reflexivity.
  - rewrite IH. apply orb_true_r.
Qed.

(** X2. A list in which no entry holds a star comes back unchanged. *)
Theorem expandSystems_without_star systems :
  forallb (fun s => negb (has_char "*" s)) systems = true ->
  expandSystems systems = systems.
Proof.
  intros Hn. induction systems as [| s rest IH]; [reflexivity |].
  cbn [forallb] in Hn. apply andb_true_iff in Hn. destruct Hn as [Hs Hr].
  cbn [expandSystems]. rewrite re_match_system_scan, (IH Hr).
  destruct (leading_star_form s) as [[nm k] |] eqn:E; [| reflexivity].
  destruct (@leading_star_form_inv s nm k E) as [r [Es _]].
  rewrite Es in Hs. cbn [append] in Hs. rewrite has_char_app in Hs.
  discriminate Hs.
Qed.

(** X2 at a concrete list. *)
Lemma expandSystems_without_star_witness :
  expandSystems ["localhost"; "node-1.example.org"]%string
  = ["localhost"; "node-1.example.org"]%string.
Proof.
  apply (expandSystems_without_star ["localhost"; "node-1.example.org"]%string).
  reflexivity.
Defined.

(** X3. An entry [NAME*K] whose count reads as zero is dropped: the
    expanded list can be shorter than the list given, and empty. *)
Theorem expandSystems_zero_count before nm k after :
  nonempty nm = true -> all_chars is_alnum nm = true ->
  nonempty k = true -> all_chars is_digit k = true ->
  int_of_string k = 0 ->
  expandSystems (before ++ (nm ++ "*" ++ k)%string :: after)
  = expandSystems before ++ expandSystems after.
Proof.
  intros Hn Ha Hk Hd Hz.
  rewrite !expandSystems_flat_map, flat_map_app. cbn [flat_map].
  replace (expand_entry (nm ++ "*" ++ k)) with (@nil string); [reflexivity |].
  unfold expand_entry, leading_star_form.
  rewrite (@span_app_stop is_alnum nm ("*" ++ k) Ha eq_refl).
  cbn [fst snd append]. rewrite (span_whole is_digit k Hd).
  cbn [fst snd]. rewrite Hn, Hk, Ascii.eqb_refl. cbn [andb fst snd].
  rewrite Hz. reflexivity.
Qed.

(** X3 at a concrete list. *)
Lemma expandSystems_zero_count_witness :
  expandSystems ["a"; "b*00"; "c"]%string = ["a"; "c"]%string.
Proof.
  exact (expandSystems_zero_count ["a"%string] "b" "00" ["c"%string]
           eq_refl eq_refl eq_refl eq_refl eq_refl).
Defined.

Lemma split_from_word cur w s :
  all_chars (fun c => negb (is_space c)) w = true ->
  split_from cur (w ++ s) = split_from (cur ++ w) s.
Proof.
  revert cur. induction w as [| c w IH]; intros cur Hw; cbn in *.
  - rewrite append_nil_right. reflexivity.
  - apply andb_true_iff in Hw. destruct Hw as [Hc Hw].
    destruct (is_space c); [discriminate Hc |].
    rewrite (IH _ Hw), append_assoc_string. reflexivity.
Qed.

Lemma py_split_join l :
  forallb is_word l = true -> py_split (join " " l) = l.
Proof.
  unfold py_split. induction l as [| x l IH]; intros Hl; [reflexivity |].
  cbn [forallb] in Hl. apply andb_true_iff in Hl. destruct Hl as [Hx Hl].
  unfold is_word in Hx. apply andb_true_iff in Hx. destruct Hx as [Hne Hx].
  destruct l as [| y l].
  - cbn [join]. rewrite <- (append_nil_right x) at 1.
    rewrite (split_from_word EmptyString x EmptyString Hx).
    cbn. rewrite Hne. reflexivity.
  - change (join " " (x :: y :: l)) with (x ++ " " ++ join " " (y :: l))%string.
    rewrite (split_from_word EmptyString x _ Hx).
    cbn [append split_from]. change (is_space " ") with true. cbn iota.
    rewrite Hne, (IH Hl). reflexivity.
Qed.

Lemma is_word_snoc cur c :
  cur = EmptyString \/ is_word cur = true ->
  is_space c = false ->
  is_word (cur ++ String c EmptyString) = true.
Proof.
  intros Hcur Hc. unfold is_word.
  assert (Hall : all_chars (fun c => negb (is_space c)) cur = true).
  { destruct Hcur as [-> | Hw]; [reflexivity |].
    unfold is_word in Hw. apply andb_true_iff in Hw. apply Hw. }
  assert (Hne : nonempty (cur ++ String c EmptyString) = true)
    by (destruct cur; reflexivity).
  rewrite Hne. cbn [andb]. clear Hcur Hne.
  induction cur as [| d cur IH]; cbn in *.
  - rewrite Hc. reflexivity.
  - apply andb_true_iff in Hall. destruct Hall as [Hd Hall].
    rewrite Hd, (IH Hall). reflexivity.
Qed.

Lemma split_from_words s : forall cur,
  cur = EmptyString \/ is_word cur = true ->
  forallb is_word (split_from cur s) = true.
Proof.
  induction s as [| c s IH]; intros cur Hcur; cbn [split_from].
  - destruct Hcur as [-> | Hw]; [reflexivity |].
    assert (Hne : nonempty cur = true).
    { unfold is_word in Hw. apply andb_true_iff in Hw. apply Hw. }
    rewrite Hne. cbn. rewrite Hw. reflexivity.
  - destruct (is_space c) eqn:Hc.
    + destruct Hcur as [-> | Hw].
      * cbn. apply IH. left. reflexivity.
      * assert (Hne : nonempty cur = true).
        { unfold is_word in Hw. apply andb_true_iff in Hw. apply Hw. }
        rewrite Hne. cbn [forallb]. rewrite Hw. apply IH. left. reflexivity.
    + apply IH. right. apply is_word_snoc; assumption.
Qed.

Section MainTheorems.
Context {F S G : Type} `{Num F}.
Variable e : env F S G.

(** X4. The systems [main] hands to [doMCMC] are the words of the
    [--systems] string: none is empty, none holds whitespace, and a
    string of words joined by single spaces gives back exactly those
    words; autosave is always on. *)
Theorem main_systems (a : args) :
  forallb is_word (py_split (arg_systems a)) = true
  /\ (forall l,
        forallb is_word l = true -> arg_systems a = join " " l ->
        main e a
        = doMCMC e (arg_xcm a) (arg_nwalkers a) (arg_nburn a) (arg_niters a)
            l (arg_output_chain a) (arg_output_npz a) (arg_debug a)
            (arg_continue_run a) true (arg_no_chdir a)
            (arg_initial_parameters a) (arg_log_norm a) (arg_chunk_size a)).
Proof.
  split.
  - apply split_from_words. left. reflexivity.
  - intros l Hl Ea. unfold main. rewrite Ea, (py_split_join l Hl). reflexivity.
Qed.

End MainTheorems.

(** X4 at the arguments of a run on two hosts. *)
Lemma main_systems_witness :
  py_split "localhost  node7*2 " = ["localhost"; "node7*2"]%string
  /\ forallb is_word (py_split "localhost  node7*2 ") = true.
Proof.
  split; [reflexivity |].
  exact (proj1 (main_systems (Toy.the_env None)
                  (mkArgs "model.xcm" 10 0 4 "localhost  node7*2 "
                     "emcee.npz" "emcee.chain" false false false None false 4))).
Defined.

(* ------------------------------------------------------------------ *)
(** ** writeNpz and the file it leaves *)

Lemma string_length_append (a b : string) :
  String.length (a ++ b) = String.length a + String.length b.
Proof. induction a as [| c a IH]; cbn; [reflexivity | rewrite IH; reflexivity]. Qed.

Lemma append_suffix_differs (a b : string) :
  nonempty b = true -> String.eqb (a ++ b) a = false.
Proof.
  intros Hb. destruct (String.eqb_spec (a ++ b) a) as [E | _]; [| reflexivity].
  apply (f_equal String.length) in E. rewrite string_length_append in E.
  destruct b; [discriminate Hb | cbn in E; lia].
Qed.

Lemma fs_lookup_remove_none {F} fname other (l : list (string * file F)) :
  fs_lookup fname l = None -> fs_lookup fname (fs_remove other l) = None.
Proof.
  unfold fs_remove. induction l as [| [n f] l IH]; cbn; [reflexivity |].
  destruct (String.eqb n fname) eqn:E; [discriminate |]. intros Hl.
  destruct (negb (String.eqb n other)); cbn; [rewrite E |]; apply IH; exact Hl.
Qed.

Section CheckpointFiles.
Context {F : Type}.

(** X5. Whatever the cursor, [writeNpz] does not raise and writes one
    file; for well-formed buffers of one capacity the saved arrays are
    the first [saved_iterations] iterations: all of them for a cursor at
    or beyond the capacity, the capacity minus [-maxindex] of them for a
    negative cursor. *)
Theorem writeNpz_any_cursor filename (chain : array3 F) lnprob maxindex st :
  wf3 chain = true -> wf2 lnprob = true ->
  shape2 lnprob = (dim0 chain, dim1 chain) ->
  let m := saved_iterations (dim1 chain) maxindex in
  writeNpz filename chain lnprob maxindex st
  = (after_savez (npz_name filename) (prefix3 m chain) (prefix2 m lnprob) st,
     Ok tt)
  /\ m <= dim1 chain
  /\ wf3 (prefix3 m chain) = true /\ wf2 (prefix2 m lnprob) = true.
Proof.
  intros Hc Hl Hs m.
  assert (Hcols : cols lnprob = dim1 chain) by (unfold cols; rewrite Hs; reflexivity).
  assert (Hrows : rows lnprob = dim0 chain) by (unfold rows; rewrite Hs; reflexivity).
  assert (Hm : m <= dim1 chain).
  { unfold m, saved_iterations. destruct (Z.ltb_spec maxindex 0); lia. }
  split; [| split; [exact Hm | split]].
  - rewrite writeNpz_run.
    destruct (Z.ltb_spec maxindex (Z.of_nat (dim1 chain))) as [Hlt | Hge].
    + unfold slice3, slice2. rewrite Hcols. reflexivity.
    + assert (Em : m = dim1 chain).
      { unfold m, saved_iterations. destruct (Z.ltb_spec maxindex 0); lia. }
      rewrite Em, (@prefix3_full _ chain Hc).
      rewrite <- Hcols, (@prefix2_full _ lnprob Hl). reflexivity.
  - apply wf3_prefix; assumption.
  - apply wf2_prefix; [rewrite Hcols; exact Hm | exact Hl].
Qed.

(** X6. A checkpoint written under a name that ends in [.npz] is read
    back by [N.load] under that name, and what is read is the filled
    prefix that was saved. *)
Theorem writeNpz_then_load filename (chain : array3 F) lnprob maxindex st :
  wf3 chain = true -> wf2 lnprob = true ->
  shape2 lnprob = (dim0 chain, dim1 chain) ->
  (0 <= maxindex <= Z.of_nat (dim1 chain))%Z ->
  ends_with ".npz" filename = true ->
  bind (writeNpz filename chain lnprob maxindex) (fun _ => load filename) st
  = (after_savez filename (prefix3 (Z.to_nat maxindex) chain)
       (prefix2 (Z.to_nat maxindex) lnprob) st,
     Ok (prefix3 (Z.to_nat maxindex) chain,
         prefix2 (Z.to_nat maxindex) lnprob)).
Proof.
  intros Hc Hl Hs Hm He.
  rewrite (bind_ok _ _ st
             (@writeNpz_prefix_run F filename chain lnprob maxindex st
                Hc Hl Hs Hm)).
  unfold npz_name. rewrite He.
  unfold load, after_savez. cbn [fs fs_lookup].
  rewrite String.eqb_refl. reflexivity.
Qed.

(** X7. Under a name that does not end in [.npz] the checkpoint goes to
    the name with [.npz] added, and [N.load] of the name as given, which
    is what a resumed run does, raises [IOError] unless some other file
    of that name exists. *)
Theorem writeNpz_then_load_other_name
  filename (chain : array3 F) lnprob maxindex st :
  ends_with ".npz" filename = false ->
  fs_lookup filename (fs st) = None ->
  exists st' c l,
    bind (writeNpz filename chain lnprob maxindex)
      (fun _ => load filename) st
    = (st', Raise IOError)
    /\ fs_lookup (filename ++ ".npz") (fs st') = Some (NpzFile c l)
    /\ fs_lookup filename (fs st') = None.
Proof.
  intros He Hnone.
  rewrite (bind_ok _ _ st (writeNpz_run filename chain lnprob maxindex st)).
  unfold npz_name. rewrite He.
  assert (Hl : fs_lookup filename
                 (fs (after_savez (filename ++ ".npz")
                        (if (maxindex <? Z.of_nat (dim1 chain))%Z
                         then slice3 chain maxindex else chain)
                        (if (maxindex <? Z.of_nat (dim1 chain))%Z
                         then slice2 lnprob maxindex else lnprob) st))
               = None).
  { cbn [after_savez fs fs_lookup].
    rewrite (append_suffix_differs filename ".npz" eq_refl).
    apply fs_lookup_remove_none. exact Hnone. }
  eexists. eexists. eexists. split; [| split].
  - unfold load. rewrite Hl. reflexivity.
  - cbn [after_savez fs fs_lookup]. rewrite String.eqb_refl. reflexivity.
  - exact Hl.
Qed.

End CheckpointFiles.

(** X5 at a concrete call: capacity two, cursor [-1]. *)
Lemma writeNpz_any_cursor_witness :
  writeNpz "out.npz" ToyExport.chain ToyExport.lnprob (-1)%Z Toy.empty_state
  = (after_savez "out.npz"
       (mkA3 (2, 1, 2) [[[11; 36]]; [[15; 46]]]%Z)
       (mkA2 (2, 1) [[-47]; [-61]]%Z) Toy.empty_state,
     Ok tt).
Proof.
  exact (proj1 (@writeNpz_any_cursor Z "out.npz"%string ToyExport.chain
                  ToyExport.lnprob (-1)%Z Toy.empty_state
                  eq_refl eq_refl eq_refl)).
Defined.

(** X6 at a concrete call. *)
Lemma writeNpz_then_load_witness :
  snd (bind (writeNpz "out.npz" ToyExport.chain ToyExport.lnprob 1%Z)
         (fun _ => load "out.npz") Toy.empty_state)
  = Ok (mkA3 (2, 1, 2) [[[11; 36]]; [[15; 46]]]%Z,
        mkA2 (2, 1) [[-47]; [-61]]%Z).
Proof.
  assert (Hm : (0 <= 1 <= Z.of_nat (dim1 ToyExport.chain))%Z)
    by (split; discriminate).
  rewrite (@writeNpz_then_load Z "out.npz"%string ToyExport.chain
             ToyExport.lnprob 1%Z Toy.empty_state
             eq_refl eq_refl eq_refl Hm eq_refl).
  reflexivity.
Defined.

(** X7 at a concrete call: the name [out] has no extension. *)
Lemma writeNpz_then_load_other_name_witness :
  exists st' c l,
    bind (writeNpz "out" ToyExport.chain ToyExport.lnprob 1%Z)
      (fun _ => load "out") Toy.empty_state
    = (st', Raise IOError)
    /\ fs_lookup "out.npz" (fs st') = Some (NpzFile c l)
    /\ fs_lookup "out" (fs st') = None.
Proof.
  exact (@writeNpz_then_load_other_name Z "out"%string ToyExport.chain
           ToyExport.lnprob 1%Z Toy.empty_state eq_refl eq_refl).
Defined.

(* ------------------------------------------------------------------ *)
(** ** The exporter when it fails *)

Section ExporterFailure.
Context {F : Type} `{Num F}.

Lemma appends_only_ret {A} fname base (a : A) :
  appends_only fname base (@ret F A a).
Proof.
  intros w hp st0 _. exists [], hp, (Ok a). rewrite app_nil_r.
  repeat split. apply Nat.le_refl.
Qed.

Lemma appends_only_lift {A} fname base (r : result A) :
  appends_only fname base (@lift F A r).
Proof.
  intros w hp st0 _. exists [], hp, r. rewrite app_nil_r.
  repeat split. apply Nat.le_refl.
Qed.

Lemma appends_only_fwrite fname base s :
  appends_only fname base (fwrite (F := F) fname s).
Proof.
  intros w hp st0 _. exists [s], hp, (Ok tt). rewrite fwrite_run.
  repeat split. apply Nat.le_refl.
Qed.

Lemma appends_only_deref3 fname base r :
  appends_only fname base (deref3 (F := F) r).
Proof.
  intros w hp st0 _. exists [], hp. rewrite app_nil_r.
  unfold deref3. cbn [exporting heap].
  destruct (nth_error hp r) as [[a | a] |]; eexists;
    (split; [reflexivity | split; [reflexivity | apply Nat.le_refl]]).
Qed.

Lemma appends_only_deref2 fname base r :
  appends_only fname base (deref2 (F := F) r).
Proof.
  intros w hp st0 _. exists [], hp. rewrite app_nil_r.
  unfold deref2. cbn [exporting heap].
  destruct (nth_error hp r) as [[a | a] |]; eexists;
    (split; [reflexivity | split; [reflexivity | apply Nat.le_refl]]).
Qed.

Lemma appends_only_store fname base r (o : obj F) :
  base <= r -> appends_only fname base (store r o).
Proof.
  intros Hr w hp st0 _. exists [], (list_set r o hp), (Ok tt).
  rewrite app_nil_r. split; [reflexivity |]. split.
  - apply firstn_list_set. exact Hr.
  - rewrite list_set_length. apply Nat.le_refl.
Qed.

Lemma appends_only_bind {A B} fname base (m : M F A) (k : A -> M F B) :
  appends_only fname base m ->
  (forall a, appends_only fname base (k a)) ->
  appends_only fname base (bind m k).
Proof.
  intros Hm Hk w hp st0 Hb.
  destruct (Hm w hp st0 Hb) as [w1 [hp1 [r1 [E1 [Hf1 Hl1]]]]].
  unfold bind. rewrite E1. destruct r1 as [a | x].
  - destruct (Hk a (w ++ w1) hp1 st0 ltac:(lia))
      as [w2 [hp2 [r2 [E2 [Hf2 Hl2]]]]].
    exists (w1 ++ w2), hp2, r2. rewrite E2, app_assoc.
    split; [reflexivity |]. split; [congruence | lia].
  - exists w1, hp1, (Raise x). repeat split; assumption.
Qed.

Lemma appends_only_alloc_bind {B} fname base (o : obj F) (k : nat -> M F B) :
  (forall r, base <= r -> appends_only fname base (k r)) ->
  appends_only fname base (bind (alloc o) k).
Proof.
  intros Hk w hp st0 Hb.
  rewrite (bind_ok _ _ _ (alloc_run fname w hp st0 o)).
  destruct (Hk (length hp) Hb w (hp ++ [o]) st0) as [w2 [hp2 [r2 [E2 [Hf2 Hl2]]]]].
  { rewrite length_app. lia. }
  exists w2, hp2, r2. split; [exact E2 |]. split.
  - rewrite Hf2, firstn_app.
    replace (base - length hp) with 0 by lia. cbn. apply app_nil_r.
  - rewrite length_app in Hl2. lia.
Qed.

Lemma appends_only_for_each {A} fname base (l : list A) (body : A -> M F unit) :
  (forall a, appends_only fname base (body a)) ->
  appends_only fname base (for_each l body).
Proof.
  intros Hb. induction l as [| a l IH]; cbn [for_each].
  - apply appends_only_ret.
  - apply appends_only_bind; [apply Hb | intros _; exact IH].
Qed.

Lemma appends_only_undo_log fname base chain params i_idx :
  base <= chain ->
  appends_only fname base (undo_log (F := F) chain params i_idx).
Proof.
  intros Hc. unfold undo_log.
  apply appends_only_bind; [apply appends_only_lift | intros p].
  destruct (log p); [| apply appends_only_ret].
  apply appends_only_bind; [apply appends_only_deref2 | intros a].
  apply appends_only_bind; [apply appends_only_lift | intros col].
  apply appends_only_bind; [apply appends_only_lift | intros a'].
  apply appends_only_store. exact Hc.
Qed.

(** X8. Whatever its arguments, and whether or not it raises,
    [writeXSpecChain] first opens its file for writing: what the file
    held before is gone, it starts with the two fixed comment lines,
    only that file is written, and every array that existed when the
    exporter was called is left as it was. *)
Theorem writeXSpecChain_truncates_first
  filename chain lnprob params idxs (st : state F) :
  exists w hp' r,
    writeXSpecChain filename chain lnprob params idxs st
    = (exporting filename (comment_lines ++ w) hp' st, r)
    /\ fs_lookup filename
         (fs (exporting filename (comment_lines ++ w) hp' st))
       = Some (TextFile F (comment_lines ++ w))
    /\ firstn (length (heap st)) hp' = heap st.
Proof.
  unfold writeXSpecChain.
  rewrite (bind_ok _ _ _ (open_w_run filename st)).
  rewrite (bind_ok _ _ _ (fwrite_run filename _ _ _ st)).
  rewrite (bind_ok _ _ _ (fwrite_run filename _ _ _ st)).
  match goal with
  | |- exists w hp' r, ?m _ = _ /\ _ /\ _ =>
      assert (Hm : appends_only filename (length (heap st)) m)
  end.
  { apply appends_only_bind; [apply appends_only_deref3 | intros c].
    apply appends_only_bind; [apply appends_only_fwrite | intros _].
    apply appends_only_bind; [apply appends_only_deref2 | intros l].
    apply appends_only_bind; [apply appends_only_lift | intros a].
    apply appends_only_bind; [apply appends_only_lift | intros b].
    apply appends_only_bind; [apply appends_only_lift | intros stacked].
    apply appends_only_alloc_bind. intros r Hr.
    apply appends_only_bind.
    { apply appends_only_for_each. intros a0.
      apply appends_only_undo_log. exact Hr. }
    intros _.
    apply appends_only_bind; [apply appends_only_lift | intros hdr].
    apply appends_only_bind; [apply appends_only_fwrite | intros _].
    apply appends_only_bind; [apply appends_only_deref2 | intros final].
    apply appends_only_for_each. intros line. apply appends_only_fwrite. }
  destruct (Hm (([] ++ [nth 0 comment_lines EmptyString])
                ++ [nth 1 comment_lines EmptyString]) (heap st) st
              (Nat.le_refl _))
    as [w [hp' [r [E [Hf _]]]]].
  exists w, hp', r. split; [exact E |]. split.
  - apply exporting_lookup.
  - rewrite Hf. apply firstn_all.
Qed.

End ExporterFailure.

Section ExporterBadIndex.
Context {F : Type} `{Num F}.

Lemma norm_index_raises n i x : norm_index n i = Raise x -> x = IndexError.
Proof.
  unfold norm_index.
  destruct ((0 <=? i) && (i <? Z.of_nat n))%Z; [discriminate |].
  destruct ((- Z.of_nat n <=? i) && (i <? 0))%Z; [discriminate |].
  intros E. injection E as <-. reflexivity.
Qed.

Lemma py_getitem_raises {A} (l : list A) i x :
  py_getitem l i = Raise x -> x = IndexError.
Proof.
  unfold py_getitem.
  destruct (norm_index (length l) i) as [k | y] eqn:E; cbn [rbind].
  - destruct (nth_error l k); [discriminate |].
    intros E'. injection E' as <-. reflexivity.
  - intros E'. injection E' as <-. apply (norm_index_raises _ _ _ E).
Qed.

(** An index outside [-n .. n-1] is refused. *)
Lemma py_getitem_outside {A} (l : list A) i :
  (i < - Z.of_nat (length l) \/ Z.of_nat (length l) <= i)%Z ->
  py_getitem l i = Raise IndexError.
Proof.
  intros Hi. unfold py_getitem, norm_index.
  destruct (Z.leb_spec 0 i); destruct (Z.ltb_spec i (Z.of_nat (length l)));
    destruct (Z.leb_spec (- Z.of_nat (length l)) i); destruct (Z.ltb_spec i 0);
    cbn [andb rbind]; try reflexivity; lia.
Qed.

Lemma columns_of_outside (params : list (par F)) idxs idx :
  In idx idxs ->
  (idx <= - Z.of_nat (length params) \/ Z.of_nat (length params) < idx)%Z ->
  exists x, columns_of params idxs = Raise x.
Proof.
  intros Hin Hout. induction idxs as [| i rest IH]; [destruct Hin |].
  cbn [columns_of].
  destruct (py_getitem params (i - 1)) as [p | x] eqn:Ep; cbn [rbind];
    [| exists x; reflexivity].
  destruct Hin as [-> | Hin].
  - rewrite py_getitem_outside in Ep by lia. discriminate.
  - destruct (IH Hin) as [x Hx]. rewrite Hx. exists x. reflexivity.
Qed.

(** The loop over [enumerate(paridxs)] when some index has no parameter:
    it raises, having changed nothing but the stacked array. *)
Lemma undo_loop_fails fname w hp0 (st0 : state F) len wd params :
  forall idxs x i d,
    columns_of params idxs = Raise x ->
    length d = len ->
    exists d',
      for_each (enumerate_from (Z.of_nat i) idxs)
        (undo_log (length hp0) params)
        (exporting fname w (hp0 ++ [Obj2 (mkA2 (len, wd) d)]) st0)
      = (exporting fname w (hp0 ++ [Obj2 (mkA2 (len, wd) d')]) st0,
         Raise IndexError)
      /\ length d' = len.
Proof.
  induction idxs as [| idx rest IH]; intros x i d Hf Hd; [discriminate |].
  cbn [columns_of] in Hf. cbn [enumerate_from for_each].
  replace (Z.of_nat i + 1)%Z with (Z.of_nat (Datatypes.S i)) by lia.
  destruct (py_getitem params (idx - 1)) as [p | y] eqn:Ep.
  - cbn [rbind] in Hf.
    destruct (columns_of params rest) as [cs' | x'] eqn:Ecs; [discriminate |].
    destruct (log p) eqn:Elog.
    + destruct (Nat.ltb_spec i wd) as [Hi | Hi].
      * assert (Hstep :
          undo_log (length hp0) params (Z.of_nat i, idx)
            (exporting fname w (hp0 ++ [Obj2 (mkA2 (len, wd) d)]) st0)
          = (exporting fname w
               (hp0 ++ [Obj2 (mkA2 (len, wd) (map (undo_at i) d))]) st0,
             Ok tt)).
        { unfold undo_log. cbn [fst snd]. unfold bind at 1, lift at 1.
          rewrite Ep, Elog.
          unfold bind at 1, deref2 at 1. unfold exporting at 1. cbn [heap].
          rewrite nth_error_snoc. fold (exporting fname w
            (hp0 ++ [Obj2 (mkA2 (len, wd) d)]) st0).
          unfold get_col, set_col, broadcast_to, cols, rows.
          cbn [shape2 data2 fst snd].
          rewrite norm_index_inside by lia. rewrite Nat2Z.id. cbn [rbind].
          unfold bind at 1, lift at 1.
          unfold bind at 1, lift at 1.
          rewrite !length_map, Hd, Nat.eqb_refl. cbn [rbind].
          unfold store, exporting. cbn [heap fs trace draws ticks].
          rewrite list_set_snoc, map_map, map2_map_same. reflexivity. }
        rewrite (bind_ok _ _ _ Hstep).
        apply (IH x' (Datatypes.S i)); [reflexivity |].
        rewrite length_map. exact Hd.
      * exists d. split; [| exact Hd].
        apply bind_raise.
        unfold undo_log. cbn [fst snd]. unfold bind at 1, lift at 1.
        rewrite Ep, Elog.
        unfold bind at 1, deref2 at 1. unfold exporting at 1. cbn [heap].
        rewrite nth_error_snoc. fold (exporting fname w
          (hp0 ++ [Obj2 (mkA2 (len, wd) d)]) st0).
        assert (Ecol : get_col (mkA2 (len, wd) d) (Z.of_nat i)
                       = Raise IndexError).
        { unfold get_col, cols, norm_index. cbn [shape2 snd].
          destruct (Z.leb_spec 0 (Z.of_nat i)); [| lia].
          destruct (Z.ltb_spec (Z.of_nat i) (Z.of_nat wd)); [lia |].
          destruct (Z.ltb_spec (Z.of_nat i) 0); [lia |].
          rewrite !andb_false_r. reflexivity. }
        unfold bind at 1, lift at 1. rewrite Ecol. reflexivity.
    + assert (Hstep :
        undo_log (length hp0) params (Z.of_nat i, idx)
          (exporting fname w (hp0 ++ [Obj2 (mkA2 (len, wd) d)]) st0)
        = (exporting fname w (hp0 ++ [Obj2 (mkA2 (len, wd) d)]) st0, Ok tt)).
      { unfold undo_log. cbn [fst snd]. unfold bind at 1, lift at 1.
        rewrite Ep, Elog. reflexivity. }
      rewrite (bind_ok _ _ _ Hstep).
      apply (IH x' (Datatypes.S i)); [reflexivity | exact Hd].
  - exists d. split; [| exact Hd].
    apply bind_raise.
    unfold undo_log. cbn [fst snd]. unfold bind at 1, lift at 1.
    rewrite Ep, (py_getitem_raises _ _ _ Ep). reflexivity.
Qed.

(** The exporter when [paridxs] names a parameter that does not exist:
    the three fixed lines are written, then the loop over the columns
    raises. *)
Lemma writeXSpecChain_fails filename rc rl params idxs x
  (c : array3 F) l (st : state F) :
  nth_error (heap st) rc = Some (Obj3 c) ->
  nth_error (heap st) rl = Some (Obj2 l) ->
  wf3 c = true -> wf2 l = true -> shape2 l = (dim0 c, dim1 c) ->
  columns_of params idxs = Raise x ->
  exists d,
    writeXSpecChain filename rc rl params idxs st
    = (exporting filename (comment_lines ++ [length_line c])
         (heap st ++ [Obj2 (mkA2 (dim0 c * dim1 c, dim2 c + 1) d)]) st,
       Raise IndexError).
Proof.
  intros Hrc Hrl Hc Hl Hs Hcs.
  destruct (wf3_samples c Hc) as [Hn Hrows].
  assert (Hrl' : rows l = dim0 c) by (unfold rows; rewrite Hs; reflexivity).
  assert (Hcl' : cols l = dim1 c) by (unfold cols; rewrite Hs; reflexivity).
  unfold writeXSpecChain.
  rewrite (bind_ok _ _ _ (open_w_run filename st)).
  rewrite (bind_ok _ _ _ (fwrite_run filename _ _ _ st)).
  rewrite (bind_ok _ _ _ (fwrite_run filename _ _ _ st)).
  rewrite (bind_ok _ _ _ (deref3_run filename _ _ st rc Hrc)).
  rewrite (bind_ok _ _ _ (fwrite_run filename _ _ _ st)).
  rewrite (bind_ok _ _ _ (deref2_run filename _ _ st rl Hrl)).
  unfold bind at 1, lift at 1, reshape_rows. rewrite Nat.eqb_refl.
  unfold bind at 1, lift at 1, reshape_col, neg_times2, rows, cols.
  cbn [shape2 data2]. fold (rows l) (cols l).
  rewrite Hrl', Hcl', Nat.mul_1_r, Nat.eqb_refl.
  unfold bind at 1, lift at 1, column_stack, concatenate2, rows, cols.
  cbn [shape2 data2 fst snd]. rewrite Nat.eqb_refl.
  rewrite (bind_ok _ _ _ (alloc_run filename _ _ st _)).
  unfold enumerate.
  assert (Elen :
    length (map2 (@app F) (concat (data3 c))
              (map (fun x => [x])
                 (concat (map (map (fun x => fmul (fneg x) ftwo)) (data2 l)))))
    = dim0 c * dim1 c).
  { rewrite map2_length; [exact Hn |].
    rewrite Hn, length_map, <- concat_map, length_map.
    rewrite (wf2_entries l Hl), Hrl', Hcl'. reflexivity. }
  destruct (undo_loop_fails filename
              (([] ++ [nth 0 comment_lines EmptyString])
               ++ [nth 1 comment_lines EmptyString]
               ++ [length_line c])
              (heap st) st (dim0 c * dim1 c) (dim2 c + 1) params idxs x 0 _
              Hcs Elen) as [d [Hloop _]].
  exists d. apply bind_raise.
  change (Z.of_nat 0) with 0%Z in Hloop.
  rewrite <- app_assoc. exact Hloop.
Qed.

(** X9. When [paridxs] holds an index that names no parameter (it lies
    outside [1-n .. n] for [n] parameters), the exporter raises
    [IndexError] and leaves a file of exactly three lines: the two
    comment lines and the line with length and width.  No label line and
    no sample is written. *)
Theorem writeXSpecChain_bad_index filename rc rl params idxs idx
  (c : array3 F) l (st : state F) :
  nth_error (heap st) rc = Some (Obj3 c) ->
  nth_error (heap st) rl = Some (Obj2 l) ->
  wf3 c = true -> wf2 l = true -> shape2 l = (dim0 c, dim1 c) ->
  In idx idxs ->
  (idx <= - Z.of_nat (length params) \/ Z.of_nat (length params) < idx)%Z ->
  exists st',
    writeXSpecChain filename rc rl params idxs st = (st', Raise IndexError)
    /\ fs_lookup filename (fs st')
       = Some (TextFile F (comment_lines ++ [length_line c]))
    /\ trace st'
       = trace st ++ EvOpen F filename
         :: map (EvWrite F filename) (comment_lines ++ [length_line c]).
Proof.
  intros Hrc Hrl Hc Hl Hs Hin Hout.
  destruct (columns_of_outside params idxs idx Hin Hout) as [x Hx].
  destruct (writeXSpecChain_fails filename rc rl params idxs x c l st
              Hrc Hrl Hc Hl Hs Hx) as [d Hrun].
  eexists. split; [exact Hrun |]. split.
  - apply exporting_lookup.
  - reflexivity.
Qed.

End ExporterBadIndex.

Lemma writeXSpecChain_bad_index_witness :
  exists st',
    writeXSpecChain "out.dat" 0 1 [Toy.kT; Toy.norm] [1; 3]%Z
      ToyExport.entry_state
    = (st', Raise IndexError)
    /\ fs_lookup "out.dat" (fs st')
       = Some (TextFile Z (comment_lines ++ [length_line ToyExport.chain]))
    /\ trace st'
       = trace ToyExport.entry_state ++ EvOpen Z "out.dat"
         :: map (EvWrite Z "out.dat")
              (comment_lines ++ [length_line ToyExport.chain]).
Proof.
  apply (writeXSpecChain_bad_index "out.dat" 0 1 [Toy.kT; Toy.norm] [1; 3]%Z
           3%Z ToyExport.chain ToyExport.lnprob ToyExport.entry_state).
  - reflexivity.
  - reflexivity.
  - reflexivity.
  - reflexivity.
  - reflexivity.
  - right. left. reflexivity.
  - right. cbn. lia.
Defined.

(* ------------------------------------------------------------------ *)
(** ** What the sampling loop stores, and what it saves on the way *)

Lemma nth_firstn_inside {A} (l : list A) k m d :
  k < m -> nth k (firstn m l) d = nth k l d.
Proof.
  revert k m. induction l as [| a l IH]; intros k m Hk.
  - rewrite firstn_nil. reflexivity.
  - destruct m as [| m]; [lia |]. destruct k as [| k]; cbn; [reflexivity |].
    apply IH. lia.
Qed.

Lemma nth_list_set_same {A} (l : list A) k x d :
  k < length l -> nth k (list_set k x l) d = x.
Proof.
  revert k. induction l as [| a l IH]; intros [| k] Hk; cbn in *; try lia.
  - reflexivity.
  - apply IH. lia.
Qed.

Lemma map_nth_of_prefix {A} (d d' : list (list A)) X k dflt :
  map (firstn X) d = map (firstn X) d' -> k < X ->
  map (fun w => nth k w dflt) d = map (fun w => nth k w dflt) d'.
Proof.
  intros E Hk.
  assert (Hx : forall x : list (list A),
             map (fun w => nth k w dflt) x
             = map (fun w => nth k w dflt) (map (firstn X) x)).
  { intros x. rewrite map_map. apply map_ext. intros w. symmetry.
    apply nth_firstn_inside. exact Hk. }
  rewrite (Hx d), (Hx d'), E. reflexivity.
Qed.

Lemma map_nth_map2_list_set {A B} (f : A -> B -> A) (g : A -> B)
  (d : list A) (rs : list B) :
  length rs = length d ->
  Forall (fun w => forall r, g (f w r) = r) d ->
  map g (map2 f d rs) = rs.
Proof.
  intros Hl Hd. revert rs Hl.
  induction Hd as [| w d Hw _ IH]; intros [| r rs] Hl; cbn in *;
    try reflexivity; try discriminate.
  rewrite Hw, IH by lia. reflexivity.
Qed.

Section StoredRows.
Context {F : Type} `{Num F}.

Lemma norm_index_nonneg n i k :
  (0 <= i)%Z -> norm_index n i = Ok k -> k = Z.to_nat i /\ k < n.
Proof.
  intros Hi. unfold norm_index.
  destruct (Z.leb_spec 0 i); [| lia].
  destruct (Z.ltb_spec i (Z.of_nat n)); cbn [andb].
  - intros E. injection E as <-. split; lia.
  - destruct (Z.ltb_spec i 0); [lia |]. rewrite andb_false_r. discriminate.
Qed.

(** Reading an iteration only looks at the iterations up to it. *)
Lemma get_iter_prefix (a a' : array3 F) X i :
  shape3 a = shape3 a' -> prefix3 X a = prefix3 X a' ->
  (0 <= i < Z.of_nat X)%Z ->
  get_iter a i = get_iter a' i.
Proof.
  intros Hs Hp Hi. unfold get_iter, dim0, dim1, dim2. rewrite Hs.
  destruct (norm_index (snd (fst (shape3 a'))) i) as [k | x] eqn:Ek;
    cbn [rbind]; [| reflexivity].
  destruct (norm_index_nonneg _ i k (proj1 Hi) Ek) as [-> _].
  unfold prefix3 in Hp. injection Hp as _ _ Hd.
  rewrite (map_nth_of_prefix (data3 a) (data3 a') X (Z.to_nat i) [] Hd)
    by lia.
  reflexivity.
Qed.

Lemma get_col_prefix (a a' : array2 F) X i :
  shape2 a = shape2 a' -> prefix2 X a = prefix2 X a' ->
  (0 <= i < Z.of_nat X)%Z ->
  get_col a i = get_col a' i.
Proof.
  intros Hs Hp Hi. unfold get_col, cols. rewrite Hs.
  destruct (norm_index (snd (shape2 a')) i) as [k | x] eqn:Ek;
    cbn [rbind]; [| reflexivity].
  destruct (norm_index_nonneg _ i k (proj1 Hi) Ek) as [-> _].
  unfold prefix2 in Hp. injection Hp as _ Hd.
  rewrite (map_nth_of_prefix (data2 a) (data2 a') X (Z.to_nat i) fzero Hd)
    by lia.
  reflexivity.
Qed.

(** What is stored at an iteration is what is read back from it. *)
Lemma set_iter_get_iter (a a' : array3 F) i p nw N nd :
  shape3 a = (nw, N, nd) -> wf3 a = true ->
  shape2 p = (nw, nd) -> wf2 p = true ->
  (0 <= i < Z.of_nat N)%Z ->
  set_iter a i p = Ok a' -> get_iter a' i = Ok p.
Proof.
  intros Hsa Hwa Hsp Hwp Hi.
  apply wf3_spec in Hwa. apply wf2_spec in Hwp.
  unfold dim0, dim1, dim2, rows, cols in *. rewrite Hsa in Hwa.
  rewrite Hsp in Hwp. cbn [fst snd] in Hwa, Hwp.
  destruct Hwa as [Hla Hfa]. destruct Hwp as [Hlp Hfp].
  unfold set_iter, broadcast2, broadcast_to, dim0, dim1, dim2, rows, cols.
  rewrite Hsa, Hsp.
  cbn [fst snd]. rewrite norm_index_inside by exact Hi. cbn [rbind].
  rewrite !Nat.eqb_refl. cbn [rbind]. intros E. injection E as <-.
  unfold get_iter, dim0, dim1, dim2. cbn [shape3 data3 fst snd]. rewrite norm_index_inside by exact Hi. cbn [rbind].
  destruct p as [shp dp]. cbn [shape2 data2] in *. subst shp. do 2 f_equal.
  apply (map_nth_map2_list_set
           (fun w r => list_set (Z.to_nat i) r w)
           (fun w => nth (Z.to_nat i) w [])); [lia |].
  revert Hfa. apply Forall_impl. intros w [Hw _] r.
  apply nth_list_set_same. lia.
Qed.

Lemma set_col_get_col (a a' : array2 F) i l nw N :
  shape2 a = (nw, N) -> wf2 a = true -> length l = nw ->
  (0 <= i < Z.of_nat N)%Z ->
  set_col a i l = Ok a' -> get_col a' i = Ok l.
Proof.
  intros Hsa Hwa Hl Hi.
  apply wf2_spec in Hwa. unfold rows, cols in *. rewrite Hsa in Hwa.
  cbn [fst snd] in Hwa. destruct Hwa as [Hla Hfa].
  unfold set_col, broadcast_to, rows, cols. rewrite Hsa. cbn [fst snd].
  rewrite norm_index_inside by exact Hi. cbn [rbind].
  rewrite Hl, Nat.eqb_refl. cbn [rbind]. intros E. injection E as <-.
  unfold get_col, cols. cbn [shape2 data2 snd].
  rewrite norm_index_inside by exact Hi. cbn [rbind]. f_equal.
  apply (map_nth_map2_list_set
           (fun r x => list_set (Z.to_nat i) x r)
           (fun r => nth (Z.to_nat i) r fzero)); [lia |].
  revert Hfa. apply Forall_impl. intros r Hr x.
  apply nth_list_set_same. lia.
Qed.

End StoredRows.

Section LoopDetailRun.
Context {F S G : Type} `{Num F}.
Variable e : env F S G.

Lemma time_plain (st : state F) :
  time e st
  = (mkState (heap st) (fs st) (trace st) (draws st) (Datatypes.S (ticks st)),
     Ok (clock e (ticks st))).
Proof. reflexivity. Qed.

(** The autosave at the end of a pass writes at most one checkpoint, of
    the filled prefix, and none when autosave is off. *)
Lemma autosave_step_saves autosave outnpz (ls : @loop_state F G)
  (st : state F) nw N nd :
  loop_inv nw N nd ls -> (0 <= l_index ls <= Z.of_nat N)%Z ->
  exists st' t evs,
    autosave_step e autosave outnpz ls st
    = (st', Ok (mkLoop (l_chain ls) (l_lnprob ls) (l_index ls) t (l_gen ls)))
    /\ trace st' = trace st ++ evs
    /\ (evs = []
        \/ evs = [EvSavez (npz_name outnpz)
                    (prefix3 (Z.to_nat (l_index ls)) (l_chain ls))
                    (prefix2 (Z.to_nat (l_index ls)) (l_lnprob ls))])
    /\ (autosave = false -> evs = [] /\ st' = st).
Proof.
  intros [Hsc [Hwc [Hsl Hwl]]] Hi.
  assert (Hd1 : dim1 (l_chain ls) = N) by (unfold dim1; rewrite Hsc; reflexivity).
  assert (Hd0 : dim0 (l_chain ls) = nw) by (unfold dim0; rewrite Hsc; reflexivity).
  assert (Hsl' : shape2 (l_lnprob ls) = (dim0 (l_chain ls), dim1 (l_chain ls)))
    by (rewrite Hd0, Hd1; exact Hsl).
  assert (Hi' : (0 <= l_index ls <= Z.of_nat (dim1 (l_chain ls)))%Z)
    by (rewrite Hd1; exact Hi).
  unfold autosave_step. destruct autosave.
  - rewrite (bind_ok _ _ _ (time_plain st)).
    destruct (clock e (ticks st) - l_lastsave ls >? 60 * 10)%Z.
    + rewrite (bind_ok _ _ _ (time_plain _)).
      rewrite (bind_ok _ _ _
                 (@writeNpz_prefix_run F outnpz (l_chain ls) (l_lnprob ls)
                    (l_index ls) _ Hwc Hwl Hsl' Hi')).
      eexists. eexists. eexists. split; [reflexivity |].
      split; [reflexivity |]. split; [right; reflexivity | discriminate].
    + eexists. exists (l_lastsave ls), [].
      split; [destruct ls; reflexivity |].
      split; [cbn [trace]; rewrite app_nil_r; reflexivity |].
      split; [left; reflexivity | discriminate].
  - exists st, (l_lastsave ls), [].
    split; [destruct ls; reflexivity |].
    split; [rewrite app_nil_r; reflexivity |].
    split; [left; reflexivity | split; reflexivity].
Qed.

(** The loop in detail: iteration [index + k] of the buffers it leaves
    holds the [k]-th result of the generator, and every checkpoint it
    wrote on the way is a prefix of those buffers. *)
Lemma sample_loop_detailed autosave outnpz I nw N nd :
  sampler_ok e I nw nd ->
  forall n j ls (st : state F),
    I (l_gen ls) ->
    loop_inv nw N nd ls -> (0 <= l_index ls)%Z ->
    (l_index ls + Z.of_nat n = Z.of_nat N)%Z ->
    exists st' ls' evs ys g',
      sample_loop e autosave outnpz n j ls st
      = (st', Ok (fst (passes_done e n j), ls'))
      /\ trace st' = trace st ++ evs
      /\ Forall (is_prefix_save outnpz (l_chain ls') (l_lnprob ls')
                   (l_index ls) (l_index ls')) evs
      /\ (autosave = false -> evs = [])
      /\ yields e (l_gen ls) (snd (passes_done e n j)) = Ok (ys, g')
      /\ (forall k p l, nth_error ys k = Some (p, l) ->
          get_iter (l_chain ls') (l_index ls + Z.of_nat k) = Ok p
          /\ get_col (l_lnprob ls') (l_index ls + Z.of_nat k) = Ok l).
Proof.
  intros Hs.
  assert (Hstop : forall (j : nat) (ls : @loop_state F G) (st : state F)
                          (ex : loop_exit),
    exists st' ls' evs ys g',
      @ret F _ (ex, ls) st = (st', Ok (ex, ls'))
      /\ trace st' = trace st ++ evs
      /\ Forall (is_prefix_save outnpz (l_chain ls') (l_lnprob ls')
                   (l_index ls) (l_index ls')) evs
      /\ (autosave = false -> evs = [])
      /\ yields e (l_gen ls) 0 = Ok (ys, g')
      /\ (forall k p l, nth_error ys k = Some (p, l) ->
          get_iter (l_chain ls') (l_index ls + Z.of_nat k) = Ok p
          /\ get_col (l_lnprob ls') (l_index ls + Z.of_nat k) = Ok l)).
  { intros j ls st ex. exists st, ls, [], [], (l_gen ls).
    split; [reflexivity |]. split; [rewrite app_nil_r; reflexivity |].
    split; [constructor |]. split; [reflexivity |].
    split; [reflexivity |].
    intros [| k] p l E; discriminate. }
  induction n as [| n IH]; intros j ls st Hg Hinv Hi0 HiN.
  - cbn [sample_loop passes_done].
    destruct (interrupted_at e j InStep); cbn [fst snd]; apply (Hstop j).
  - cbn [sample_loop passes_done].
    destruct (interrupted_at e j InStep); [cbn [fst snd]; apply (Hstop j) |].
    destruct (Hs (l_gen ls) Hg) as [p [l [g1 [Hnext [Hsp [Hwp [Hll Hg1]]]]]]].
    pose proof Hinv as [Hsc [Hwc [Hsl Hwl]]].
    assert (Hidx : (0 <= l_index ls < Z.of_nat N)%Z) by lia.
    destruct (set_iter_ok (l_chain ls) (l_index ls) p nw N nd
                Hsc Hwc Hsp Hwp Hidx) as [c' [Hset [Hsc' [Hwc' Hpc]]]].
    destruct (set_col_ok (l_lnprob ls) (l_index ls) l nw N
                Hsl Hwl Hll Hidx) as [l' [Hcol [Hsl' [Hwl' Hpl]]]].
    pose proof (set_iter_get_iter _ _ _ _ nw N nd Hsc Hwc Hsp Hwp Hidx Hset)
      as Hrow.
    pose proof (set_col_get_col _ _ _ _ nw N Hsl Hwl Hll Hidx Hcol) as Hlp.
    unfold bind at 1, lift at 1. rewrite Hnext. cbn [fst snd].
    unfold bind at 1, lift at 1. rewrite Hset.
    destruct (interrupted_at e j AfterChain).
    { cbn [orb fst snd].
      exists st, (mkLoop c' (l_lnprob ls) (l_index ls) (l_lastsave ls) g1),
        [], [], (l_gen ls).
      split; [reflexivity |]. split; [rewrite app_nil_r; reflexivity |].
      split; [constructor |]. split; [reflexivity |].
      split; [reflexivity |].
      intros [| k] p' l'' E; discriminate. }
    unfold bind at 1, lift at 1. rewrite Hcol.
    destruct (interrupted_at e j AfterLnprob).
    { cbn [orb fst snd].
      exists st, (mkLoop c' l' (l_index ls) (l_lastsave ls) g1),
        [], [], (l_gen ls).
      split; [reflexivity |]. split; [rewrite app_nil_r; reflexivity |].
      split; [constructor |]. split; [reflexivity |].
      split; [reflexivity |].
      intros [| k] p' l'' E; discriminate. }
    cbn [orb].
    destruct (interrupted_at e j AfterIndex).
    { cbn [fst snd].
      exists st, (mkLoop c' l' (l_index ls + 1)%Z (l_lastsave ls) g1),
        [], [(p, l)], g1.
      split; [reflexivity |]. split; [rewrite app_nil_r; reflexivity |].
      split; [constructor |]. split; [reflexivity |].
      split; [cbn [yields]; rewrite Hnext; reflexivity |].
      cbn [l_chain l_lnprob].
      intros [| k] p' l'' E; [| destruct k; discriminate].
      cbn in E. injection E as <- <-. rewrite Z.add_0_r.
      split; assumption. }
    cbn [fst snd].
    set (ls1 := mkLoop c' l' (l_index ls + 1)%Z (l_lastsave ls) g1).
    assert (Hinv1 : loop_inv nw N nd ls1) by (repeat split; assumption).
    destruct (autosave_step_saves autosave outnpz ls1 st nw N nd Hinv1)
      as [st1 [t [evs1 [Hauto [Htr1 [Hev1 Hoff1]]]]]].
    { cbn [ls1 l_index]. lia. }
    rewrite (bind_ok _ _ _ Hauto). cbn [ls1 l_chain l_lnprob l_index l_gen].
    set (ls2 := mkLoop c' l' (l_index ls + 1)%Z t g1).
    assert (Hinv2 : loop_inv nw N nd ls2) by (repeat split; assumption).
    assert (Hi2 : (0 <= l_index ls2)%Z) by (cbn [ls2 l_index]; lia).
    assert (HN2 : (l_index ls2 + Z.of_nat n = Z.of_nat N)%Z)
      by (cbn [ls2 l_index]; lia).
    destruct (IH (Datatypes.S j) ls2 st1 Hg1 Hinv2 Hi2 HN2)
      as [st2 [lsF [evs2 [ys2 [g2 [Hrun [Htr2 [Hev2 [Hoff2 [Hy2 Hrows2]]]]]]]]]].
    destruct (sample_loop_runs e autosave outnpz I nw N nd Hs n
                (Datatypes.S j) ls2 st1 Hg1 Hinv2 Hi2 HN2)
      as [st2' [lsF' [Hrun' [HinvF [_ [HiF [_ HpF]]]]]]].
    rewrite Hrun in Hrun'. injection Hrun' as _ <-.
    cbn [ls2 l_index l_chain l_lnprob] in *.
    destruct HinvF as [HscF [_ [HslF _]]].
    destruct (HpF (Z.to_nat (l_index ls + 1)) ltac:(lia)) as [EcF ElF].
    exists st2, lsF, (evs1 ++ evs2), ((p, l) :: ys2), g2.
    split; [exact Hrun |].
    split; [rewrite Htr2, Htr1, app_assoc; reflexivity |].
    split.
    { apply Forall_app. split.
      - destruct Hev1 as [-> | ->]; constructor; [| constructor].
        exists (Z.to_nat (l_index ls + 1)). split; [lia |].
        rewrite EcF, ElF. reflexivity.
      - revert Hev2. apply Forall_impl. intros ev [m [Hm Hev]].
        exists m. split; [lia | exact Hev]. }
    split.
    { intros Hoff. rewrite (proj1 (Hoff1 Hoff)), (Hoff2 Hoff). reflexivity. }
    split.
    { change (l_gen ls2) with g1 in Hy2.
      cbn [yields]. rewrite Hnext. cbn [rbind fst snd]. rewrite Hy2.
      reflexivity. }
    intros [| k] p' l'' E.
    + cbn in E. injection E as <- <-. rewrite Z.add_0_r. split.
      * rewrite <- Hrow.
        apply (get_iter_prefix _ _ (Z.to_nat (l_index ls + 1)));
          [congruence | exact EcF | lia].
      * rewrite <- Hlp.
        apply (get_col_prefix _ _ (Z.to_nat (l_index ls + 1)));
          [congruence | exact ElF | lia].
    + cbn [nth_error] in E.
      replace (l_index ls + Z.of_nat (Datatypes.S k))%Z
        with (l_index ls + 1 + Z.of_nat k)%Z by lia.
      apply (Hrows2 k p' l'' E).
Qed.

End LoopDetailRun.

Section StoredRowsOfPrefix.
Context {F : Type} `{Num F}.

(** An iteration inside a prefix is the iteration of the whole array. *)
Lemma get_iter_of_prefix (a : array3 F) m i :
  (0 <= i < Z.of_nat m)%Z -> m <= dim1 a ->
  get_iter (prefix3 m a) i = get_iter a i.
Proof.
  intros Hi Hm. unfold get_iter, prefix3, dim0, dim1, dim2.
  cbn [shape3 data3 fst snd].
  rewrite norm_index_inside by exact Hi.
  rewrite norm_index_inside by (unfold dim1 in Hm; lia).
  cbn [rbind]. do 2 f_equal. rewrite map_map. apply map_ext. intros w.
  apply nth_firstn_inside. lia.
Qed.

Lemma get_col_of_prefix (a : array2 F) m i :
  (0 <= i < Z.of_nat m)%Z -> m <= cols a ->
  get_col (prefix2 m a) i = get_col a i.
Proof.
  intros Hi Hm. unfold get_col, prefix2, rows, cols.
  cbn [shape2 data2 fst snd].
  rewrite norm_index_inside by exact Hi.
  rewrite norm_index_inside by (unfold cols in Hm; lia).
  cbn [rbind]. f_equal. rewrite map_map. apply map_ext. intros w.
  apply nth_firstn_inside. lia.
Qed.

End StoredRowsOfPrefix.

Section RunDetail.
Context {F S G : Type} `{Num F}.
Variable e : env F S G.

Lemma yields_length g k ys g' :
  yields e g k = Ok (ys, g') -> length ys = k.
Proof.
  revert g ys g'. induction k as [| k IH]; intros g ys g' E;
    cbn [yields] in E.
  - injection E as <- _. reflexivity.
  - destruct (next e g) as [r | x]; [| discriminate]. cbn [rbind] in E.
    destruct (yields e (snd r) k) as [[ys' g''] | x] eqn:Ey; [| discriminate].
    cbn [rbind fst snd] in E. injection E as <- _.
    cbn [length]. rewrite (IH _ _ _ Ey). reflexivity.
Qed.

(** A call of [doMCMC] up to the end of the sampling loop. *)
Lemma doMCMC_loop_run xcm nwalkers nburn niters systems outchain outnpz debug
  continuerun autosave nochdir initialparameters lognorm chunksize
  (st st1 : state F) pl nd state pos b I nw N :
  setup e xcm nwalkers nburn systems debug continuerun nochdir
    initialparameters lognorm chunksize st
  = (st1, Ok (pl, nd, state, pos)) ->
  init_buffers continuerun nwalkers niters nd outnpz pos st1 = (st1, Ok b) ->
  ready nw N nd niters b ->
  sampler_ok e I nw nd -> I (sample e (b_pos b) state) ->
  let out := passes_done e (Z.to_nat (niters - b_start b)) 0 in
  exists st3 (ls : @loop_state F G) evs ys g',
    doMCMC e xcm nwalkers nburn niters systems outchain outnpz debug
      continuerun autosave nochdir initialparameters lognorm chunksize st
    = bind (finish outchain outnpz pl (fst out, ls))
        (fun cl => ret (mkLocals (fst out) (fst cl) (snd cl) (l_index ls)
                          (b_start b) (b_pos b))) st3
    /\ loop_inv nw N nd ls
    /\ l_index ls = (b_start b + Z.of_nat (snd out))%Z
    /\ Z.to_nat (b_start b) + snd out <= N
    /\ trace st3 = trace st ++ evs
    /\ Forall (is_prefix_save outnpz (l_chain ls) (l_lnprob ls)
                 (b_start b) (l_index ls)) evs
    /\ (autosave = false -> evs = [])
    /\ yields e (sample e (b_pos b) state) (snd out) = Ok (ys, g')
    /\ (forall k p l, nth_error ys k = Some (p, l) ->
        get_iter (l_chain ls) (b_start b + Z.of_nat k) = Ok p
        /\ get_col (l_lnprob ls) (b_start b + Z.of_nat k) = Ok l)
    /\ (forall X, (Z.of_nat X <= b_start b)%Z ->
        prefix3 X (l_chain ls) = prefix3 X (b_chain b)
        /\ prefix2 X (l_lnprob ls) = prefix2 X (b_lnprob b)).
Proof.
  intros Hsetup Hinit [Hsc [Hwc [Hsl [Hwl [HN Hstart]]]]] Hs Hg0 out.
  destruct (setup_preserves e xcm nwalkers nburn systems debug continuerun
              nochdir initialparameters lognorm chunksize st st1 _ Hsetup)
    as [Htr1 _].
  set (st2 := mkState (heap st1) (fs st1) (trace st1) (draws st1)
                (Datatypes.S (ticks st1))).
  set (ls0 := mkLoop (b_chain b) (b_lnprob b) (b_start b)
                (clock e (ticks st1)) (sample e (b_pos b) state)).
  assert (Hinv0 : loop_inv nw N nd ls0) by (repeat split; assumption).
  assert (Hi0 : (0 <= l_index ls0)%Z) by (cbn [ls0 l_index]; lia).
  assert (HN0 : (l_index ls0 + Z.of_nat (Z.to_nat (niters - b_start b))
                 = Z.of_nat N)%Z) by (cbn [ls0 l_index]; lia).
  destruct (sample_loop_detailed e autosave outnpz I nw N nd Hs
              (Z.to_nat (niters - b_start b)) 0 ls0 st2 Hg0 Hinv0 Hi0 HN0)
    as [st3 [ls [evs [ys [g' [Hloop [Htr3 [Hev [Hoff [Hy Hrows]]]]]]]]]].
  destruct (sample_loop_runs e autosave outnpz I nw N nd Hs
              (Z.to_nat (niters - b_start b)) 0 ls0 st2 Hg0 Hinv0 Hi0 HN0)
    as [st3' [ls' [Hloop' [Hinv [_ [Hidx [Hle Hpre]]]]]]].
  rewrite Hloop in Hloop'. injection Hloop' as _ <-.
  fold out in Hloop, Hidx, Hle, Hy.
  cbn [ls0 l_index l_chain l_lnprob l_gen] in Hidx, Hpre, Hev, Hy, Hrows.
  exists st3, ls, evs, ys, g'.
  split.
  { unfold doMCMC.
    rewrite (bind_ok _ _ st Hsetup). cbn [fst snd].
    rewrite (bind_ok _ _ st1 Hinit).
    rewrite (bind_ok _ _ st1 (time_plain e st1)).
    fold ls0 st2. rewrite (bind_ok _ _ st2 Hloop). reflexivity. }
  split; [exact Hinv |]. split; [exact Hidx |]. split; [lia |].
  split; [rewrite Htr3; cbn [st2 trace]; rewrite Htr1; reflexivity |].
  split; [exact Hev |]. split; [exact Hoff |]. split; [exact Hy |].
  split; [exact Hrows | exact Hpre].
Qed.

End RunDetail.

(* ------------------------------------------------------------------ *)
(** ** Whole runs: what is stored, what is saved, what is lost *)

Section RunProperties.
Context {F S G : Type} `{Num F}.
Variable e : env F S G.

(** The call of the exporter from [doMCMC] when [paridxs] names a
    parameter that does not exist. *)
Lemma call_writeXSpecChain_fails outchain (chain : array3 F) lnprob params
  idxs x (st : state F) :
  wf3 chain = true -> wf2 lnprob = true ->
  shape2 lnprob = (dim0 chain, dim1 chain) ->
  columns_of params idxs = Raise x ->
  exists st',
    call_writeXSpecChain outchain chain lnprob params idxs st
    = (st', Raise IndexError)
    /\ trace st'
       = trace st ++ EvOpen F outchain
         :: map (EvWrite F outchain) (comment_lines ++ [length_line chain]).
Proof.
  intros Hwc Hwl Hsl Hcs.
  unfold call_writeXSpecChain.
  rewrite (bind_ok _ _ _ (alloc_plain (Obj3 chain) st)).
  rewrite (bind_ok _ _ _ (alloc_plain (Obj2 lnprob) _)).
  cbn [heap fs trace draws ticks].
  set (st2 := mkState ((heap st ++ [Obj3 chain]) ++ [Obj2 lnprob])
                (fs st) (trace st) (draws st) (ticks st)).
  assert (Hrc : nth_error (heap st2) (length (heap st)) = Some (Obj3 chain)).
  { unfold st2. cbn [heap]. rewrite nth_error_app1.
    - apply nth_error_snoc.
    - rewrite length_app. cbn. lia. }
  assert (Hrl : nth_error (heap st2) (length (heap st ++ [Obj3 chain]))
                = Some (Obj2 lnprob)).
  { unfold st2. cbn [heap]. apply nth_error_snoc. }
  destruct (writeXSpecChain_fails outchain (length (heap st))
              (length (heap st ++ [Obj3 chain])) params idxs x chain lnprob
              st2 Hrc Hrl Hwc Hwl Hsl Hcs) as [d Hrun].
  rewrite (bind_raise _ _ _ Hrun).
  eexists. split; [reflexivity |]. reflexivity.
Qed.

(** X10. A run whose loop completes but whose exporter fails, because
    [paridxs] names a parameter that does not exist, raises [IndexError]
    out of [doMCMC]: the export file is left with its three fixed lines
    and the final checkpoint is never written.  Whatever was autosaved
    on the way stays, and without autosave no checkpoint exists at
    all. *)
Theorem doMCMC_export_failure_loses_checkpoint
  xcm nwalkers nburn niters systems outchain outnpz debug
  continuerun autosave nochdir initialparameters lognorm chunksize
  (st st1 : state F) pl nd state pos b I nw N idx :
  setup e xcm nwalkers nburn systems debug continuerun nochdir
    initialparameters lognorm chunksize st
  = (st1, Ok (pl, nd, state, pos)) ->
  init_buffers continuerun nwalkers niters nd outnpz pos st1 = (st1, Ok b) ->
  ready nw N nd niters b ->
  sampler_ok e I nw nd -> I (sample e (b_pos b) state) ->
  fst (passes_done e (Z.to_nat (niters - b_start b)) 0) = Exhausted ->
  In idx (paridxs pl) ->
  (idx <= - Z.of_nat (length (parlist pl))
   \/ Z.of_nat (length (parlist pl)) < idx)%Z ->
  exists st' evs c l,
    doMCMC e xcm nwalkers nburn niters systems outchain outnpz debug
      continuerun autosave nochdir initialparameters lognorm chunksize st
    = (st', Raise IndexError)
    /\ shape3 c = (nw, N, nd)
    /\ trace st'
       = trace st ++ evs ++ EvOpen F outchain
         :: map (EvWrite F outchain) (comment_lines ++ [length_line c])
    /\ Forall (is_prefix_save outnpz c l (b_start b) niters) evs
    /\ (autosave = false -> evs = []).
Proof.
  intros Hsetup Hinit Hready Hs Hg0 Hex Hin Hout.
  destruct (doMCMC_loop_run e xcm nwalkers nburn niters systems outchain
              outnpz debug continuerun autosave nochdir initialparameters
              lognorm chunksize st st1 pl nd state pos b I nw N
              Hsetup Hinit Hready Hs Hg0)
    as [st3 [ls [evs [ys [g' [Hrun [Hinv [Hidx [Hle [Htr [Hev [Hoff _]]]]]]]]]]]].
  rewrite Hex in Hrun.
  rewrite (passes_done_exhausted e _ _ Hex) in Hidx.
  destruct Hready as [_ [_ [_ [_ [HN Hstart]]]]].
  destruct Hinv as [Hsc [Hwc [Hsl Hwl]]].
  assert (Hsl' : shape2 (l_lnprob ls) = (dim0 (l_chain ls), dim1 (l_chain ls))).
  { unfold dim0, dim1. rewrite Hsc. exact Hsl. }
  destruct (columns_of_outside (parlist pl) (paridxs pl) idx Hin Hout)
    as [x Hx].
  destruct (call_writeXSpecChain_fails outchain (l_chain ls) (l_lnprob ls)
              (parlist pl) (paridxs pl) x st3 Hwc Hwl Hsl' Hx)
    as [st4 [Hcall Htr4]].
  exists st4, evs, (l_chain ls), (l_lnprob ls).
  split.
  { rewrite Hrun. apply bind_raise. unfold finish. cbn [fst snd].
    apply bind_raise. exact Hcall. }
  split; [exact Hsc |].
  split; [rewrite Htr4, Htr, <- app_assoc; reflexivity |].
  split; [| exact Hoff].
  revert Hev. apply Forall_impl. intros ev [m [Hm Hev]].
  exists m. split; [lia | exact Hev].
Qed.

End RunProperties.

Lemma step_ok_with pl :
  sampler_ok (ToyFailures.env_with pl Toy.step) ToyCheckpoints.four_by_two 4 2.
Proof.
  intros g [Hs Hw]. unfold ToyFailures.env_with, next, Toy.step.
  eexists. eexists. eexists. split; [reflexivity |].
  apply wf2_spec in Hw. unfold rows, cols in Hw. rewrite Hs in Hw.
  cbn [fst snd] in Hw. destruct Hw as [Hl Hr].
  assert (Hw' : wf2 (mkA2 (shape2 g) (map (map Z.succ) (data2 g))) = true).
  { apply wf2_spec. unfold rows, cols. cbn [shape2 data2]. rewrite Hs.
    cbn [fst snd]. split; [rewrite length_map; exact Hl |].
    apply Forall_map. revert Hr. apply Forall_impl. intros r Hr.
    rewrite length_map. exact Hr. }
  split; [exact Hs |]. split; [exact Hw' |].
  split; [cbn [data2]; rewrite !length_map; exact Hl |].
  split; [exact Hs | exact Hw'].
Qed.

(** X10 at a concrete run: three iterations, no autosave, and a pool
    whose second column names a third parameter. *)
Lemma doMCMC_export_failure_loses_checkpoint_witness :
  exists st' (c : array3 Z),
    doMCMC (ToyFailures.env_with ToyFailures.bad_pool Toy.step)
      "model.xcm" 4%Z 0%Z 3%Z ["localhost"%string] "out.dat" "out.npz"
      false false false false None false 4%Z Toy.empty_state
    = (st', Raise IndexError)
    /\ shape3 c = (4, 3, 2)
    /\ trace st'
       = EvOpen Z "out.dat"
         :: map (EvWrite Z "out.dat") (comment_lines ++ [length_line c]).
Proof.
  assert (Hready : ready 4 3 2 3%Z (ToyCheckpoints.fresh_buffers 3)).
  { repeat split; try reflexivity; discriminate. }
  assert (Hg0 : ToyCheckpoints.four_by_two
                  (sample (ToyFailures.env_with ToyFailures.bad_pool Toy.step)
                     (b_pos (ToyCheckpoints.fresh_buffers 3)) None)).
  { split; reflexivity. }
  assert (Hsetup :
    setup (ToyFailures.env_with ToyFailures.bad_pool Toy.step) "model.xcm"
      4%Z 0%Z ["localhost"%string] false false false None false 4%Z
      Toy.empty_state
    = (add_draws 8 Toy.empty_state,
       Ok (ToyFailures.bad_pool, 2, None, ToyCheckpoints.start_pos)))
    by (vm_compute; reflexivity).
  assert (Hinit :
    init_buffers false 4%Z 3%Z 2 "out.npz" ToyCheckpoints.start_pos
      (add_draws 8 Toy.empty_state)
    = (add_draws 8 Toy.empty_state,
       Ok (ToyCheckpoints.fresh_buffers 3)))
    by (vm_compute; reflexivity).
  assert (Hin : In 3%Z (paridxs ToyFailures.bad_pool))
    by (right; left; reflexivity).
  assert (Hout : (3 <= - Z.of_nat (length (parlist ToyFailures.bad_pool))
                  \/ Z.of_nat (length (parlist ToyFailures.bad_pool)) < 3)%Z)
    by (right; cbn; lia).
  destruct (doMCMC_export_failure_loses_checkpoint
              (ToyFailures.env_with ToyFailures.bad_pool Toy.step)
              "model.xcm" 4%Z 0%Z 3%Z ["localhost"%string] "out.dat" "out.npz"
              false false false false None false 4%Z
              Toy.empty_state (add_draws 8 Toy.empty_state)
              ToyFailures.bad_pool 2 None ToyCheckpoints.start_pos
              (ToyCheckpoints.fresh_buffers 3)
              ToyCheckpoints.four_by_two 4 3 3%Z
              Hsetup Hinit Hready (step_ok_with _) Hg0 eq_refl Hin Hout)
    as [st' [evs [c [l [Hrun [Hsh [Htr [_ Hoff]]]]]]]].
  rewrite (Hoff eq_refl) in Htr.
  exists st', c. split; [exact Hrun |]. split; [exact Hsh | exact Htr].
Defined.

Section RunStores.
Context {F S G : Type} `{Num F}.
Variable e : env F S G.

(** X11. A run that returns has stored the sampler's results in order:
    with [done] passes completed from cursor [start], iteration
    [start + k] of the final chain is the position the generator
    yielded [k]-th, column [start + k] of the final log-probabilities is
    the log-probability it yielded with it, and the checkpoint file
    holds the same. *)
Theorem doMCMC_stores_sampler_results
  xcm nwalkers nburn niters systems outchain outnpz debug
  continuerun autosave nochdir initialparameters lognorm chunksize
  (st st1 : state F) pl nd state pos b I nw N cs :
  setup e xcm nwalkers nburn systems debug continuerun nochdir
    initialparameters lognorm chunksize st
  = (st1, Ok (pl, nd, state, pos)) ->
  init_buffers continuerun nwalkers niters nd outnpz pos st1 = (st1, Ok b) ->
  ready nw N nd niters b ->
  sampler_ok e I nw nd -> I (sample e (b_pos b) state) ->
  let out := passes_done e (Z.to_nat (niters - b_start b)) 0 in
  (fst out = Exhausted ->
   columns_of (parlist pl) (paridxs pl) = Ok cs
   /\ length (paridxs pl) <= nd) ->
  exists st' v ys g' ck lk,
    doMCMC e xcm nwalkers nburn niters systems outchain outnpz debug
      continuerun autosave nochdir initialparameters lognorm chunksize st
    = (st', Ok v)
    /\ yields e (sample e (b_pos b) state) (snd out) = Ok (ys, g')
    /\ length ys = snd out
    /\ v_index v = (b_start b + Z.of_nat (snd out))%Z
    /\ fs_lookup (npz_name outnpz) (fs st') = Some (NpzFile ck lk)
    /\ (forall k p l, nth_error ys k = Some (p, l) ->
        get_iter (v_chain v) (b_start b + Z.of_nat k) = Ok p
        /\ get_col (v_lnprob v) (b_start b + Z.of_nat k) = Ok l
        /\ get_iter ck (b_start b + Z.of_nat k) = Ok p
        /\ get_col lk (b_start b + Z.of_nat k) = Ok l).
Proof.
  intros Hsetup Hinit Hready Hs Hg0 out Hcols.
  destruct (doMCMC_loop_run e xcm nwalkers nburn niters systems outchain
              outnpz debug continuerun autosave nochdir initialparameters
              lognorm chunksize st st1 pl nd state pos b I nw N
              Hsetup Hinit Hready Hs Hg0)
    as [st3 [ls [evs [ys [g' [Hrun [Hinv [Hidx [Hle [_ [_ [_ [Hy [Hrows _]]]]]]]]]]]]]].
  fold out in Hrun, Hidx, Hle, Hy.
  destruct Hready as [_ [_ [_ [_ [HN Hstart]]]]].
  destruct (finish_run outchain outnpz pl (fst out) ls st3 nw N nd cs Hinv)
    as [st4 [Hfin [_ Hfs4]]].
  { lia. }
  { exact Hcols. }
  pose proof (yields_length e _ _ _ _ Hy) as Hlen.
  destruct Hinv as [Hsc [_ [Hsl _]]].
  eexists. eexists. exists ys, g'. eexists. eexists.
  split; [rewrite Hrun; rewrite (bind_ok _ _ _ Hfin); reflexivity |].
  cbn [v_index v_chain v_lnprob fst snd].
  split; [exact Hy |]. split; [exact Hlen |]. split; [exact Hidx |].
  split; [exact Hfs4 |].
  intros k p l Hk.
  assert (Hkl : k < snd out).
  { rewrite <- Hlen. apply nth_error_Some. rewrite Hk. discriminate. }
  destruct (Hrows k p l Hk) as [H3 H2].
  split; [exact H3 |]. split; [exact H2 |]. split.
  - rewrite <- H3. apply get_iter_of_prefix; [lia |].
    unfold dim1. rewrite Hsc. cbn [fst snd]. lia.
  - rewrite <- H2. apply get_col_of_prefix; [lia |].
    unfold cols. rewrite Hsl. cbn [snd]. lia.
Qed.


End RunStores.

(** X11 at a concrete run: three iterations with autosave on. *)
Lemma doMCMC_stores_sampler_results_witness :
  exists st' v ys,
    doMCMC (Toy.the_env None) "model.xcm" 4%Z 0%Z 3%Z ["localhost"%string]
      "out.dat" "out.npz" false false true false None false 4%Z
      Toy.empty_state
    = (st', Ok v)
    /\ length ys = 3
    /\ v_index v = 3%Z
    /\ (forall k p l, nth_error ys k = Some (p, l) ->
        get_iter (v_chain v) (Z.of_nat k) = Ok p
        /\ get_col (v_lnprob v) (Z.of_nat k) = Ok l).
Proof.
  assert (Hready : ready 4 3 2 3%Z (ToyCheckpoints.fresh_buffers 3)).
  { repeat split; try reflexivity; discriminate. }
  assert (Hg0 : ToyCheckpoints.four_by_two
                  (sample (Toy.the_env None)
                     (b_pos (ToyCheckpoints.fresh_buffers 3)) None)).
  { split; reflexivity. }
  assert (Hsetup :
    setup (Toy.the_env None) "model.xcm" 4%Z 0%Z ["localhost"%string]
      false false false None false 4%Z Toy.empty_state
    = (add_draws 8 Toy.empty_state,
       Ok (Toy.the_pool, 2, None, ToyCheckpoints.start_pos)))
    by (vm_compute; reflexivity).
  assert (Hinit :
    init_buffers false 4%Z 3%Z 2 "out.npz" ToyCheckpoints.start_pos
      (add_draws 8 Toy.empty_state)
    = (add_draws 8 Toy.empty_state,
       Ok (ToyCheckpoints.fresh_buffers 3)))
    by (vm_compute; reflexivity).
  destruct (doMCMC_stores_sampler_results (Toy.the_env None)
              "model.xcm" 4%Z 0%Z 3%Z ["localhost"%string] "out.dat" "out.npz"
              false false true false None false 4%Z
              Toy.empty_state (add_draws 8 Toy.empty_state)
              Toy.the_pool 2 None ToyCheckpoints.start_pos
              (ToyCheckpoints.fresh_buffers 3)
              ToyCheckpoints.four_by_two 4 3 ToyExport.columns
              Hsetup Hinit Hready (step_ok _) Hg0
              (fun _ => conj eq_refl (le_n 2)))
    as [st' [v [ys [g' [ck [lk [Hrun [_ [Hlen [Hidx [_ Hrows]]]]]]]]]]].
  exists st', v, ys.
  split; [exact Hrun |]. split; [exact Hlen |]. split; [exact Hidx |].
  intros k p l Hk. destruct (Hrows k p l Hk) as [H3 [H2 _]].
  split; [exact H3 | exact H2].
Defined.


Section SamplerFailure.
Context {F S G : Type} `{Num F}.
Variable e : env F S G.

Lemma interrupted_at_none j ph :
  interrupt e = None -> interrupted_at e j ph = false.
Proof. intros Hn. unfold interrupted_at. rewrite Hn. reflexivity. Qed.

(** The loop when the generator raises in its pass [k]: the exception
    leaves the loop, and nothing but autosaved checkpoints was written
    before. *)
Lemma sample_loop_fails autosave outnpz nw N nd x :
  interrupt e = None ->
  forall k n j (ls : @loop_state F G) (st : state F) ys gk,
    yields e (l_gen ls) k = Ok (ys, gk) ->
    Forall (fits nw nd) ys ->
    next e gk = Raise x ->
    k < n ->
    loop_inv nw N nd ls -> (0 <= l_index ls)%Z ->
    (l_index ls + Z.of_nat n = Z.of_nat N)%Z ->
    exists st' evs,
      sample_loop e autosave outnpz n j ls st = (st', Raise x)
      /\ trace st' = trace st ++ evs
      /\ forallb is_savez evs = true
      /\ (autosave = false -> evs = [] /\ st' = st).
Proof.
  intros Hint.
  induction k as [| k IH]; intros n j ls st ys gk Hy Hfit Hnext Hk Hinv Hi0 HiN;
    (destruct n as [| n]; [lia |]); cbn [sample_loop];
    rewrite (interrupted_at_none j InStep Hint); cbn [yields] in Hy.
  - injection Hy as E1 E2. subst ys gk.
    unfold bind at 1, lift at 1. rewrite Hnext.
    exists st, []. split; [reflexivity |].
    split; [rewrite app_nil_r; reflexivity |].
    split; [reflexivity | intros _; split; reflexivity].
  - destruct (next e (l_gen ls)) as [[[p l] g1] | y] eqn:En; [| discriminate].
    cbn [rbind fst snd] in Hy.
    destruct (yields e g1 k) as [[ys' gk'] | y] eqn:Ey; [| discriminate].
    cbn [rbind fst snd] in Hy. injection Hy as E1 E2. subst ys gk.
    apply Forall_cons_iff in Hfit. destruct Hfit as [[Hsp [Hwp Hll]] Hfit].
    cbn [fst snd] in Hsp, Hwp, Hll.
    pose proof Hinv as [Hsc [Hwc [Hsl Hwl]]].
    assert (Hidx : (0 <= l_index ls < Z.of_nat N)%Z) by lia.
    destruct (set_iter_ok (l_chain ls) (l_index ls) p nw N nd
                Hsc Hwc Hsp Hwp Hidx) as [c' [Hset [Hsc' [Hwc' _]]]].
    destruct (set_col_ok (l_lnprob ls) (l_index ls) l nw N
                Hsl Hwl Hll Hidx) as [l' [Hcol [Hsl' [Hwl' _]]]].
    unfold bind at 1, lift at 1. cbn [fst snd].
    unfold bind at 1, lift at 1. rewrite Hset.
    rewrite (interrupted_at_none j AfterChain Hint).
    unfold bind at 1, lift at 1. rewrite Hcol.
    rewrite (interrupted_at_none j AfterLnprob Hint).
    rewrite (interrupted_at_none j AfterIndex Hint).
    set (ls1 := mkLoop c' l' (l_index ls + 1)%Z (l_lastsave ls) g1).
    assert (Hinv1 : loop_inv nw N nd ls1) by (repeat split; assumption).
    destruct (autosave_step_saves e autosave outnpz ls1 st nw N nd Hinv1)
      as [st1 [t [evs1 [Hauto [Htr1 [Hev1 Hoff1]]]]]].
    { cbn [ls1 l_index]. lia. }
    rewrite (bind_ok _ _ _ Hauto). cbn [ls1 l_chain l_lnprob l_index l_gen].
    set (ls2 := mkLoop c' l' (l_index ls + 1)%Z t g1).
    destruct (IH n (Datatypes.S j) ls2 st1 ys' gk' Ey Hfit Hnext)
      as [st2 [evs2 [Hrun [Htr2 [Hev2 Hoff2]]]]].
    { lia. }
    { repeat split; assumption. }
    { cbn [ls2 l_index]. lia. }
    { cbn [ls2 l_index]. lia. }
    exists st2, (evs1 ++ evs2). split; [exact Hrun |].
    split; [rewrite Htr2, Htr1, app_assoc; reflexivity |]. split.
    + rewrite forallb_app, Hev2, andb_true_r.
      destruct Hev1 as [-> | ->]; reflexivity.
    + intros Hoff. destruct (Hoff1 Hoff) as [-> <-].
      destruct (Hoff2 Hoff) as [-> ->]. split; reflexivity.
Qed.

(** X13. An exception the sampler raises in a pass of the loop (anything
    but the keyboard interrupt, which alone is caught) leaves [doMCMC]
    as it is: neither the export file nor the final checkpoint is
    written.  Only checkpoints autosaved earlier exist; with autosave off
    no file is written at all, and the iterations already sampled are
    lost. *)
Theorem doMCMC_sampler_failure
  xcm nwalkers nburn niters systems outchain outnpz debug
  continuerun autosave nochdir initialparameters lognorm chunksize
  (st st1 : state F) pl nd state pos b nw N k ys gk x :
  setup e xcm nwalkers nburn systems debug continuerun nochdir
    initialparameters lognorm chunksize st
  = (st1, Ok (pl, nd, state, pos)) ->
  init_buffers continuerun nwalkers niters nd outnpz pos st1 = (st1, Ok b) ->
  ready nw N nd niters b ->
  interrupt e = None ->
  yields e (sample e (b_pos b) state) k = Ok (ys, gk) ->
  Forall (fits nw nd) ys ->
  next e gk = Raise x ->
  k < Z.to_nat (niters - b_start b) ->
  exists st' evs,
    doMCMC e xcm nwalkers nburn niters systems outchain outnpz debug
      continuerun autosave nochdir initialparameters lognorm chunksize st
    = (st', Raise x)
    /\ trace st' = trace st ++ evs
    /\ forallb is_savez evs = true
    /\ (autosave = false -> evs = [] /\ fs st' = fs st).
Proof.
  intros Hsetup Hinit [Hsc [Hwc [Hsl [Hwl [HN Hstart]]]]] Hint Hy Hfit Hnext Hk.
  destruct (setup_preserves e xcm nwalkers nburn systems debug continuerun
              nochdir initialparameters lognorm chunksize st st1 _ Hsetup)
    as [Htr1 [Hfs1 _]].
  set (st2 := mkState (heap st1) (fs st1) (trace st1) (draws st1)
                (Datatypes.S (ticks st1))).
  set (ls0 := mkLoop (b_chain b) (b_lnprob b) (b_start b)
                (clock e (ticks st1)) (sample e (b_pos b) state)).
  destruct (sample_loop_fails autosave outnpz nw N nd x Hint k
              (Z.to_nat (niters - b_start b)) 0 ls0 st2 ys gk Hy Hfit Hnext Hk)
    as [st3 [evs [Hloop [Htr3 [Hev Hoff]]]]].
  { repeat split; assumption. }
  { cbn [ls0 l_index]. lia. }
  { cbn [ls0 l_index]. lia. }
  exists st3, evs. split.
  { unfold doMCMC.
    rewrite (bind_ok _ _ st Hsetup). cbn [fst snd].
    rewrite (bind_ok _ _ st1 Hinit).
    rewrite (bind_ok _ _ st1 (time_plain e st1)).
    fold ls0 st2. apply bind_raise. exact Hloop. }
  split; [rewrite Htr3; cbn [st2 trace]; rewrite Htr1; reflexivity |].
  split; [exact Hev |].
  intros Ha. destruct (Hoff Ha) as [-> ->]. split; [reflexivity |].
  cbn [st2 fs]. exact Hfs1.
Qed.

End SamplerFailure.

(** X13 at a concrete run: the sampler fails in its third pass, autosave
    is off, and the file system is left as it was. *)
Lemma doMCMC_sampler_failure_witness :
  exists st',
    doMCMC (ToyFailures.env_with Toy.the_pool (ToyFailures.failing_step 12))
      "model.xcm" 4%Z 0%Z 5%Z ["localhost"%string] "out.dat" "out.npz"
      false false false false None false 4%Z Toy.empty_state
    = (st', Raise KeyError)
    /\ trace st' = [] /\ fs st' = [].
Proof.
  assert (Hready : ready 4 5 2 5%Z (ToyCheckpoints.fresh_buffers 5)).
  { repeat split; try reflexivity; discriminate. }
  assert (Hsetup :
    setup (ToyFailures.env_with Toy.the_pool (ToyFailures.failing_step 12))
      "model.xcm" 4%Z 0%Z ["localhost"%string] false false false None false
      4%Z Toy.empty_state
    = (add_draws 8 Toy.empty_state,
       Ok (Toy.the_pool, 2, None, ToyCheckpoints.start_pos)))
    by (vm_compute; reflexivity).
  assert (Hinit :
    init_buffers false 4%Z 5%Z 2 "out.npz" ToyCheckpoints.start_pos
      (add_draws 8 Toy.empty_state)
    = (add_draws 8 Toy.empty_state,
       Ok (ToyCheckpoints.fresh_buffers 5)))
    by (vm_compute; reflexivity).
  destruct (yields
              (ToyFailures.env_with Toy.the_pool (ToyFailures.failing_step 12))
              ToyCheckpoints.start_pos 2) as [[ys gk] | y] eqn:Ey;
    [| vm_compute in Ey; discriminate].
  assert (Hfit : Forall (fits 4 2) ys).
  { vm_compute in Ey. injection Ey as <- _.
    repeat constructor. }
  assert (Hnext :
    next (ToyFailures.env_with Toy.the_pool (ToyFailures.failing_step 12)) gk
    = Raise KeyError).
  { vm_compute in Ey. injection Ey as _ <-. reflexivity. }
  destruct (doMCMC_sampler_failure
              (ToyFailures.env_with Toy.the_pool (ToyFailures.failing_step 12))
              "model.xcm" 4%Z 0%Z 5%Z ["localhost"%string] "out.dat" "out.npz"
              false false false false None false 4%Z
              Toy.empty_state (add_draws 8 Toy.empty_state)
              Toy.the_pool 2 None ToyCheckpoints.start_pos
              (ToyCheckpoints.fresh_buffers 5) 4 5 2 ys gk KeyError
              Hsetup Hinit Hready eq_refl Ey Hfit Hnext)
    as [st' [evs [Hrun [Htr [_ Hoff]]]]].
  { cbn. lia. }
  destruct (Hoff eq_refl) as [Hevs Hfs]. rewrite Hevs in Htr.
  exists st'. split; [exact Hrun |]. split; [exact Htr | exact Hfs].
Defined.

Section RunThenResume.
Context {F S G : Type} `{Num F}.
Variable e : env F S G.

(** X14. The checkpoint a returning run leaves, interrupted or complete,
    is one a later run can resume from, provided the checkpoint name ends
    in [.npz], at least one iteration was filled and the later run asks
    for at least as many iterations as are filled: its buffers start
    with the filled iterations of the first run, its cursor is the first
    run's final cursor, and its starting population is the last
    iteration the first run filled. *)
Theorem doMCMC_checkpoint_resumable
  xcm nwalkers nburn niters systems outchain outnpz debug
  continuerun autosave nochdir initialparameters lognorm chunksize
  (st st1 : state F) pl nd rstate pos b I nw N cs niters2 :
  setup e xcm nwalkers nburn systems debug continuerun nochdir
    initialparameters lognorm chunksize st
  = (st1, Ok (pl, nd, rstate, pos)) ->
  init_buffers continuerun nwalkers niters nd outnpz pos st1 = (st1, Ok b) ->
  ready nw N nd niters b ->
  sampler_ok e I nw nd -> I (sample e (b_pos b) rstate) ->
  let out := passes_done e (Z.to_nat (niters - b_start b)) 0 in
  (fst out = Exhausted ->
   columns_of (parlist pl) (paridxs pl) = Ok cs
   /\ length (paridxs pl) <= nd) ->
  let cursor := Z.to_nat (b_start b) + snd out in
  ends_with ".npz" outnpz = true ->
  nwalkers = Z.of_nat nw ->
  1 <= cursor -> (Z.of_nat cursor <= niters2)%Z ->
  exists st' v,
    doMCMC e xcm nwalkers nburn niters systems outchain outnpz debug
      continuerun autosave nochdir initialparameters lognorm chunksize st
    = (st', Ok v)
    /\ v_index v = Z.of_nat cursor
    /\ forall pos0 (st2 : state F), fs st2 = fs st' ->
       exists b2,
         init_buffers true nwalkers niters2 nd outnpz pos0 st2 = (st2, Ok b2)
         /\ ready nw (Z.to_nat niters2) nd niters2 b2
         /\ b_start b2 = v_index v
         /\ get_iter (v_chain v) (v_index v - 1) = Ok (b_pos b2)
         /\ prefix3 cursor (b_chain b2) = prefix3 cursor (v_chain v)
         /\ prefix2 cursor (b_lnprob b2) = prefix2 cursor (v_lnprob v).
Proof.
  intros Hsetup Hinit Hready Hs Hg0 out Hcols cursor Hnpz Hnw Hone Hn2.
  destruct (doMCMC_run e xcm nwalkers nburn niters systems outchain outnpz
              debug continuerun autosave nochdir initialparameters lognorm
              chunksize st st1 pl nd rstate pos b I nw N cs
              Hsetup Hinit Hready Hs Hg0 Hcols)
    as [st' [c [l [evs [Hrun [Hsc [Hwc [Hsl [Hwl [Hle [_ [_ [_ Hfs]]]]]]]]]]]]].
  fold out in Hrun, Hle, Hfs. fold cursor in Hrun, Hle, Hfs.
  unfold npz_name in Hfs. rewrite Hnpz in Hfs.
  eexists. eexists. split; [exact Hrun |].
  cbn [v_index v_chain v_lnprob]. split; [reflexivity |].
  intros pos0 st2 Hfs2.
  assert (Hd1 : dim1 c = N) by (unfold dim1; rewrite Hsc; reflexivity).
  assert (Hcl : cols l = N) by (unfold cols; rewrite Hsl; reflexivity).
  assert (Hwck : wf3 (prefix3 cursor c) = true)
    by (apply wf3_prefix; [rewrite Hd1; exact Hle | exact Hwc]).
  assert (Hwlk : wf2 (prefix2 cursor l) = true)
    by (apply wf2_prefix; [rewrite Hcl; exact Hle | exact Hwl]).
  assert (Hsck : shape3 (prefix3 cursor c) = (nw, cursor, nd)).
  { unfold prefix3, dim0, dim2. cbn [shape3]. rewrite Hsc. reflexivity. }
  assert (Hslk : shape2 (prefix2 cursor l) = (nw, cursor)).
  { unfold prefix2, rows. cbn [shape2]. rewrite Hsl. reflexivity. }
  rewrite <- Hfs2 in Hfs.
  destruct (init_buffers_resume nwalkers niters2 nd outnpz pos0 st2
              (prefix3 cursor c) (prefix2 cursor l) nw cursor
              Hfs Hwck Hwlk Hsck Hslk Hnw Hone Hn2)
    as [Hinit2 [Hready2 [Hp3 Hp2]]].
  eexists. split; [exact Hinit2 |]. split; [exact Hready2 |].
  cbn [b_start b_pos]. split; [reflexivity |].
  split; [| split; [exact Hp3 | exact Hp2]].
  unfold get_iter, dim0, dim1, dim2. rewrite Hsc. cbn [fst snd].
  rewrite norm_index_inside by lia. cbn [rbind]. do 2 f_equal.
  unfold prefix3. cbn [data3]. rewrite map_map.
  replace (Z.to_nat (Z.of_nat cursor - 1)) with (cursor - 1) by lia.
  apply map_ext. intros w. symmetry. apply nth_firstn_inside. lia.
Qed.

End RunThenResume.

(** X14 at a concrete run: interrupted in its fourth pass after three
    iterations, then resumed for ten. *)
Lemma doMCMC_checkpoint_resumable_witness :
  exists st' v,
    ToyRun.fresh (Toy.the_env (Some (3, InStep))) 10%Z Toy.empty_state
    = (st', Ok v)
    /\ v_index v = 3%Z
    /\ exists b2,
         init_buffers true 4%Z 10%Z 2 "out.npz" ToyCheckpoints.start_pos st'
         = (st', Ok b2)
         /\ b_start b2 = 3%Z
         /\ get_iter (v_chain v) 2 = Ok (b_pos b2)
         /\ prefix3 3 (b_chain b2) = prefix3 3 (v_chain v).
Proof.
  assert (Hready : ready 4 10 2 10%Z (ToyCheckpoints.fresh_buffers 10)).
  { repeat split; try reflexivity; discriminate. }
  assert (Hg0 : ToyCheckpoints.four_by_two
                  (sample (Toy.the_env (Some (3, InStep)))
                     (b_pos (ToyCheckpoints.fresh_buffers 10)) None)).
  { split; reflexivity. }
  assert (Hsetup :
    setup (Toy.the_env (Some (3, InStep))) "model.xcm" 4%Z 0%Z
      ["localhost"%string] false false false None false 4%Z
      Toy.empty_state
    = (add_draws 8 Toy.empty_state,
       Ok (Toy.the_pool, 2, None, ToyCheckpoints.start_pos)))
    by (vm_compute; reflexivity).
  assert (Hinit :
    init_buffers false 4%Z 10%Z 2 "out.npz" ToyCheckpoints.start_pos
      (add_draws 8 Toy.empty_state)
    = (add_draws 8 Toy.empty_state,
       Ok (ToyCheckpoints.fresh_buffers 10)))
    by (vm_compute; reflexivity).
  assert (Hcols :
    fst (passes_done (Toy.the_env (Some (3, InStep)))
           (Z.to_nat (10 - b_start (ToyCheckpoints.fresh_buffers 10))) 0)
    = Exhausted ->
    columns_of (parlist Toy.the_pool) (paridxs Toy.the_pool)
    = Ok ToyExport.columns
    /\ length (paridxs Toy.the_pool) <= 2)
    by (intros _; split; [reflexivity | apply le_n]).
  assert (Hone : 1 <= Z.to_nat (b_start (ToyCheckpoints.fresh_buffers 10))
                      + snd (passes_done (Toy.the_env (Some (3, InStep)))
                               (Z.to_nat
                                  (10 - b_start (ToyCheckpoints.fresh_buffers 10)))
                               0))
    by (vm_compute; repeat constructor).
  assert (Hn2 : Z.le
                  (Z.of_nat
                     (Z.to_nat (b_start (ToyCheckpoints.fresh_buffers 10))
                      + snd (passes_done (Toy.the_env (Some (3, InStep)))
                               (Z.to_nat
                                  (10 - b_start
                                          (ToyCheckpoints.fresh_buffers 10)))
                               0)))
                  10%Z)
    by (vm_compute; discriminate).
  destruct (doMCMC_checkpoint_resumable
              (Toy.the_env (Some (3, InStep)))
              "model.xcm" 4%Z 0%Z 10%Z ["localhost"%string] "out.dat" "out.npz"
              false false false false None false 4%Z
              Toy.empty_state (add_draws 8 Toy.empty_state)
              Toy.the_pool 2 None ToyCheckpoints.start_pos
              (ToyCheckpoints.fresh_buffers 10)
              ToyCheckpoints.four_by_two 4 10 ToyExport.columns 10%Z
              Hsetup Hinit Hready (step_ok _) Hg0 Hcols eq_refl eq_refl
              Hone Hn2)
    as [st' [v [Hrun [Hidx Hres]]]].
  destruct (Hres ToyCheckpoints.start_pos st' eq_refl)
    as [b2 [Hinit2 [_ [Hstart [Hpos [Hp3 _]]]]]].
  exists st', v. split; [exact Hrun |]. split; [exact Hidx |].
  exists b2. split; [exact Hinit2 |].
  split; [rewrite Hstart; exact Hidx |].
  split; [rewrite Hidx in Hpos; exact Hpos | exact Hp3].
Defined.

(* ------------------------------------------------------------------ *)
(** ** Runs that fail before the sampling loop *)

Section EarlyFailures.
Context {F S G : Type} `{Num F}.
Variable e : env F S G.

(** X15. A fresh run asked for a negative number of iterations fails
    with [ValueError] when the buffers are allocated, that is only after
    the pool is set up and the burn-in has run; no file is written. *)
Theorem doMCMC_fresh_negative_niters
  xcm nwalkers nburn niters systems outchain outnpz debug
  autosave nochdir initialparameters lognorm chunksize
  (st st1 : state F) pl nd state pos :
  setup e xcm nwalkers nburn systems debug false nochdir
    initialparameters lognorm chunksize st
  = (st1, Ok (pl, nd, state, pos)) ->
  (niters < 0)%Z ->
  doMCMC e xcm nwalkers nburn niters systems outchain outnpz debug
    false autosave nochdir initialparameters lognorm chunksize st
  = (st1, Raise ValueError)
  /\ same_files st st1.
Proof.
  intros Hsetup Hneg. split.
  - unfold doMCMC. rewrite (bind_ok _ _ st Hsetup). cbn [fst snd].
    apply bind_raise. unfold init_buffers. cbn [negb].
    apply bind_raise. unfold lift, zeros3, any_negative. cbn [existsb].
    destruct (Z.ltb_spec niters 0); [| lia].
    rewrite orb_true_r. reflexivity.
  - apply (setup_preserves e xcm nwalkers nburn systems debug false nochdir
             initialparameters lognorm chunksize st st1 _ Hsetup).
Qed.

(** X16. A resumed run whose checkpoint file does not exist fails with
    [IOError]; no file is written. *)
Theorem doMCMC_resume_missing_checkpoint
  xcm nwalkers nburn niters systems outchain outnpz debug
  autosave nochdir initialparameters lognorm chunksize
  (st st1 : state F) pl nd state pos :
  setup e xcm nwalkers nburn systems debug true nochdir
    initialparameters lognorm chunksize st
  = (st1, Ok (pl, nd, state, pos)) ->
  fs_lookup outnpz (fs st) = None ->
  doMCMC e xcm nwalkers nburn niters systems outchain outnpz debug
    true autosave nochdir initialparameters lognorm chunksize st
  = (st1, Raise IOError)
  /\ same_files st st1.
Proof.
  intros Hsetup Hnone.
  pose proof (setup_preserves e xcm nwalkers nburn systems debug true nochdir
                initialparameters lognorm chunksize st st1 _ Hsetup) as Hsame.
  split; [| exact Hsame].
  destruct Hsame as [_ [Hfs _]].
  unfold doMCMC. rewrite (bind_ok _ _ st Hsetup). cbn [fst snd].
  apply bind_raise. unfold init_buffers. cbn [negb].
  apply bind_raise. unfold load. rewrite Hfs, Hnone. reflexivity.
Qed.

(** X17. A resumed run whose checkpoint was made with another number of
    walkers or of parameters fails with [ValueError] when the checkpoint
    is joined with the blank buffers; no file is written. *)
Theorem doMCMC_resume_other_shape
  xcm nwalkers nburn niters systems outchain outnpz debug
  autosave nochdir initialparameters lognorm chunksize
  (st st1 : state F) pl nd state pos ck lk :
  setup e xcm nwalkers nburn systems debug true nochdir
    initialparameters lognorm chunksize st
  = (st1, Ok (pl, nd, state, pos)) ->
  fs_lookup outnpz (fs st) = Some (NpzFile ck lk) ->
  1 <= dim1 ck -> (Z.of_nat (dim1 ck) <= niters)%Z ->
  (dim0 ck <> Z.to_nat nwalkers \/ dim2 ck <> nd) ->
  doMCMC e xcm nwalkers nburn niters systems outchain outnpz debug
    true autosave nochdir initialparameters lognorm chunksize st
  = (st1, Raise ValueError)
  /\ same_files st st1.
Proof.
  intros Hsetup Hck Hone Hn Hshape.
  pose proof (setup_preserves e xcm nwalkers nburn systems debug true nochdir
                initialparameters lognorm chunksize st st1 _ Hsetup) as Hsame.
  split; [| exact Hsame].
  destruct Hsame as [_ [Hfs _]].
  unfold doMCMC. rewrite (bind_ok _ _ st Hsetup). cbn [fst snd].
  apply bind_raise. unfold init_buffers. cbn [negb].
  unfold bind at 1, load at 1. rewrite Hfs, Hck. cbn [fst snd].
  unfold bind at 1, lift at 1, get_iter.
  assert (Hlast : norm_index (dim1 ck) (-1)
                  = Ok (Z.to_nat (Z.of_nat (dim1 ck) + -1))).
  { unfold norm_index.
    destruct (Z.leb_spec 0 (-1)); [lia |]. cbn [andb].
    destruct (Z.leb_spec (- Z.of_nat (dim1 ck)) (-1)); [| lia].
    destruct (Z.ltb_spec (-1) 0); [| lia]. reflexivity. }
  rewrite Hlast. cbn [rbind].
  unfold bind at 1, lift at 1, zeros3, any_negative. cbn [existsb].
  destruct (Z.ltb_spec nwalkers 0) as [Hw | Hw]; [reflexivity |].
  destruct (Z.ltb_spec (niters - Z.of_nat (dim1 ck)) 0); [lia |].
  destruct (Z.ltb_spec (Z.of_nat nd) 0); [lia |]. cbn [orb].
  unfold bind at 1, lift at 1, zeros2, any_negative. cbn [existsb].
  destruct (Z.ltb_spec nwalkers 0); [lia |].
  destruct (Z.ltb_spec (niters - Z.of_nat (dim1 ck)) 0); [lia |]. cbn [orb].
  unfold bind at 1, lift at 1, concatenate3, dim0, dim2.
  cbn [shape3 fst snd]. rewrite Nat2Z.id.
  fold (dim0 ck) (dim2 ck).
  destruct (Nat.eqb_spec (dim0 ck) (Z.to_nat nwalkers)) as [E0 | E0];
    destruct (Nat.eqb_spec (dim2 ck) nd) as [E2 | E2]; cbn [andb];
    try reflexivity.
  destruct Hshape; contradiction.
Qed.

(** X18. Without a file of initial parameters, a run asked for no
    walkers, or a negative number of them, fails with [IndexError]: the
    population is then a one-dimensional empty array, which has no second
    axis.  Nothing is drawn, no sampler is set up, no file is written. *)
Theorem doMCMC_no_walkers
  xcm nwalkers nburn niters systems outchain outnpz debug
  continuerun autosave nochdir initialparameters lognorm chunksize
  (st : state F) pl :
  XspecPool e xcm (expandSystems systems) debug nochdir lognorm chunksize
  = Ok pl ->
  no_file initialparameters = true ->
  (nwalkers <= 0)%Z ->
  doMCMC e xcm nwalkers nburn niters systems outchain outnpz debug
    continuerun autosave nochdir initialparameters lognorm chunksize st
  = (st, Raise IndexError).
Proof.
  intros Hpool Hfile Hw.
  unfold doMCMC. apply bind_raise. unfold setup.
  unfold bind at 1, lift at 1. rewrite Hpool, Hfile.
  unfold bind at 1, getInitialParameters.
  replace (Z.to_nat nwalkers) with 0 by lia.
  cbn [init_walkers]. unfold bind at 1, ret at 1.
  unfold ret at 1. cbn [N_array].
  unfold bind at 1, lift at 1. cbn [shape_1]. reflexivity.
Qed.

End EarlyFailures.

(** X15 at a concrete run: minus one iteration. *)
Lemma doMCMC_fresh_negative_niters_witness :
  ToyRun.fresh (Toy.the_env None) (-1)%Z Toy.empty_state
  = (add_draws 8 Toy.empty_state, Raise ValueError)
  /\ same_files Toy.empty_state (add_draws 8 Toy.empty_state).
Proof.
  assert (Hsetup :
    setup (Toy.the_env None) "model.xcm" 4%Z 0%Z ["localhost"%string]
      false false false None false 4%Z Toy.empty_state
    = (add_draws 8 Toy.empty_state,
       Ok (Toy.the_pool, 2, None, ToyCheckpoints.start_pos)))
    by (vm_compute; reflexivity).
  apply (doMCMC_fresh_negative_niters (Toy.the_env None)
           "model.xcm" 4%Z 0%Z (-1)%Z ["localhost"%string] "out.dat" "out.npz"
           false false false None false 4%Z
           Toy.empty_state (add_draws 8 Toy.empty_state)
           Toy.the_pool 2 None ToyCheckpoints.start_pos Hsetup).
  reflexivity.
Defined.

(** X16 at a concrete run: resuming where there is no file at all. *)
Lemma doMCMC_resume_missing_checkpoint_witness :
  ToyRun.resumed (Toy.the_env None) 3%Z Toy.empty_state
  = (add_draws 8 Toy.empty_state, Raise IOError)
  /\ same_files Toy.empty_state (add_draws 8 Toy.empty_state).
Proof.
  assert (Hsetup :
    setup (Toy.the_env None) "model.xcm" 4%Z 0%Z ["localhost"%string]
      false true false None false 4%Z Toy.empty_state
    = (add_draws 8 Toy.empty_state,
       Ok (Toy.the_pool, 2, None, ToyCheckpoints.start_pos)))
    by (vm_compute; reflexivity).
  apply (doMCMC_resume_missing_checkpoint (Toy.the_env None)
           "model.xcm" 4%Z 0%Z 3%Z ["localhost"%string] "out.dat" "out.npz"
           false false false None false 4%Z
           Toy.empty_state (add_draws 8 Toy.empty_state)
           Toy.the_pool 2 None ToyCheckpoints.start_pos Hsetup).
  reflexivity.
Defined.

(** X17 at a concrete run: four walkers resuming a checkpoint of two. *)
Lemma doMCMC_resume_other_shape_witness :
  ToyRun.resumed (Toy.the_env None) 3%Z
    (ToyCheckpoints.with_checkpoint ToyExport.chain ToyExport.lnprob)
  = (add_draws 8
       (ToyCheckpoints.with_checkpoint ToyExport.chain ToyExport.lnprob),
     Raise ValueError)
  /\ same_files
       (ToyCheckpoints.with_checkpoint ToyExport.chain ToyExport.lnprob)
       (add_draws 8
          (ToyCheckpoints.with_checkpoint ToyExport.chain ToyExport.lnprob)).
Proof.
  assert (Hsetup :
    setup (Toy.the_env None) "model.xcm" 4%Z 0%Z ["localhost"%string]
      false true false None false 4%Z
      (ToyCheckpoints.with_checkpoint ToyExport.chain ToyExport.lnprob)
    = (add_draws 8
         (ToyCheckpoints.with_checkpoint ToyExport.chain ToyExport.lnprob),
       Ok (Toy.the_pool, 2, None, ToyCheckpoints.start_pos)))
    by (vm_compute; reflexivity).
  apply (doMCMC_resume_other_shape (Toy.the_env None)
           "model.xcm" 4%Z 0%Z 3%Z ["localhost"%string] "out.dat" "out.npz"
           false false false None false 4%Z
           (ToyCheckpoints.with_checkpoint ToyExport.chain ToyExport.lnprob)
           (add_draws 8
              (ToyCheckpoints.with_checkpoint ToyExport.chain ToyExport.lnprob))
           Toy.the_pool 2 None ToyCheckpoints.start_pos
           ToyExport.chain ToyExport.lnprob Hsetup).
  - reflexivity.
  - cbn. lia.
  - cbn. lia.
  - left. cbn. lia.
Defined.

(** X18 at a concrete run: no walkers. *)
Lemma doMCMC_no_walkers_witness :
  doMCMC (Toy.the_env None) "model.xcm" 0%Z 0%Z 3%Z ["localhost"%string]
    "out.dat" "out.npz" false false false false None false 4%Z
    Toy.empty_state
  = (Toy.empty_state, Raise IndexError).
Proof.
  apply (doMCMC_no_walkers (Toy.the_env None) "model.xcm" 0%Z 0%Z 3%Z
           ["localhost"%string] "out.dat" "out.npz" false false false false
           None false 4%Z Toy.empty_state Toy.the_pool).
  - reflexivity.
  - reflexivity.
  - lia.
Defined.

(* ------------------------------------------------------------------ *)
(** ** The start of a run *)

Section SetupProperties.
Context {F S G : Type} `{Num F}.
Variable e : env F S G.

Lemma clipped_draws_length k (ps : list (par F)) :
  length (clipped_draws e k ps) = length ps.
Proof.
  revert k. induction ps as [| p ps IH]; intros k; cbn; [reflexivity |].
  rewrite IH. reflexivity.
Qed.

(** X19. With at least one walker, no file of initial parameters and
    no pool parameter of negative spread, the start of [doMCMC] succeeds
    whenever the pool and the sampler can be built: the number of
    dimensions is the number of pool parameters and the population is
    the well-formed array of clipped draws, one row per walker.  A
    resumed run, or one with [nburn <= 0], hands that population on with
    no random state; a fresh run with [nburn > 0] hands on the position
    and the random state the burn-in ends in.  With a pool parameter of
    negative spread the start fails with [ValueError] instead, before
    any sampler is built, and no file is written. *)
Theorem setup_population
  xcm nwalkers nburn systems debug continuerun nochdir initialparameters
  lognorm chunksize (st : state F) pl :
  XspecPool e xcm (expandSystems systems) debug nochdir lognorm chunksize
  = Ok pl ->
  no_file initialparameters = true ->
  (1 <= nwalkers)%Z ->
  let ps := parameters pl in
  let n := Z.to_nat nwalkers in
  let p0 :=
    mkA2 (n, length ps)
      (map (fun w => clipped_draws e (w * length ps + draws st) ps)
         (seq 0 n)) in
  let st1 := add_draws (n * length ps) st in
  wf2 p0 = true
  /\ (forallb width_ok ps = true ->
      EnsembleSampler e nwalkers (length ps) = Ok tt ->
      (continuerun = true \/ (nburn <= 0)%Z ->
       setup e xcm nwalkers nburn systems debug continuerun nochdir
         initialparameters lognorm chunksize st
       = (st1, Ok (pl, length ps, None, p0)))
      /\ (forall pos s,
            continuerun = false -> (0 < nburn)%Z ->
            run_mcmc e p0 nburn = Ok (pos, s) ->
            setup e xcm nwalkers nburn systems debug continuerun nochdir
              initialparameters lognorm chunksize st
            = (st1, Ok (pl, length ps, Some s, pos))))
  /\ (forallb width_ok ps = false ->
      exists st',
        setup e xcm nwalkers nburn systems debug continuerun nochdir
          initialparameters lognorm chunksize st
        = (st', Raise ValueError)
        /\ same_files st st').
Proof.
  intros Hpool Hfile Hw ps n p0 st1.
  split.
  { apply wf2_spec. unfold rows, cols, p0. cbn [shape2 data2 fst snd].
    split; [rewrite length_map, length_seq; reflexivity |].
    apply Forall_map. apply Forall_forall. intros w _.
    apply clipped_draws_length. }
  split; [intros Hwidth Hsampler |].
  2:{ intros Hwidth.
      destruct (init_walker_negative e ps st Hwidth) as [k [Hk Hrun]].
      assert (Hfail : setup e xcm nwalkers nburn systems debug continuerun
                        nochdir initialparameters lognorm chunksize st
                      = (add_draws k st, Raise ValueError)).
      { unfold setup. unfold bind at 1, lift at 1. rewrite Hpool, Hfile.
        fold ps. apply bind_raise. unfold getInitialParameters.
        apply bind_raise. fold n. destruct n as [| n'] eqn:En; [lia |].
        cbn [init_walkers]. apply bind_raise. exact Hrun. }
      exists (add_draws k st). split; [exact Hfail |].
      apply (setup_preserves e xcm nwalkers nburn systems debug continuerun
               nochdir initialparameters lognorm chunksize st _ _ Hfail). }
  assert (Hget : getInitialParameters e ps nwalkers st = (st1, Ok (Arr2 p0))).
  { unfold getInitialParameters, bind. rewrite (init_walkers_spec _ _ _ _ Hwidth).
    unfold ret. fold n. fold st1. do 2 f_equal.
    unfold p0. destruct n as [| n'] eqn:En; [lia |].
    cbn [seq map N_array]. do 3 f_equal.
    - cbn [length]. rewrite length_map, length_seq. reflexivity.
    - apply clipped_draws_length. }
  assert (Hstart : forall B (k : pool F -> array2 F * nat -> M F B),
    bind (lift (XspecPool e xcm (expandSystems systems) debug nochdir
                  lognorm chunksize))
      (fun pl0 =>
         bind (if no_file initialparameters
               then getInitialParameters e (parameters pl0) nwalkers
               else match initialparameters with
                    | Some f => lift (loadtxt e f)
                    | None => lift (Raise IOError)
                    end)
           (fun p0 => bind (lift (shape_1 p0)) (k pl0))) st
    = k pl (p0, length ps) st1).
  { intros B k. unfold bind at 1, lift at 1. rewrite Hpool, Hfile.
    fold ps. rewrite (bind_ok _ _ _ Hget). reflexivity. }
  split.
  - intros Hno. unfold setup.
    assert (Hb : negb continuerun && (nburn >? 0)%Z = false).
    { destruct Hno as [-> | Hn]; [reflexivity |].
      destruct (Z.gtb_spec nburn 0); [lia |]. apply andb_false_r. }
    rewrite Hb.
    rewrite (Hstart _ (fun pl0 p0n =>
      bind (lift (EnsembleSampler e nwalkers (snd p0n)))
        (fun _ => ret (pl0, snd p0n, None, fst p0n)))).
    cbn [fst snd]. unfold bind, lift. rewrite Hsampler. reflexivity.
  - intros pos s Hc Hn Hburn. unfold setup.
    assert (Hb : negb continuerun && (nburn >? 0)%Z = true).
    { rewrite Hc. destruct (Z.gtb_spec nburn 0); [reflexivity | lia]. }
    rewrite Hb.
    rewrite (Hstart _ (fun pl0 p0n =>
      bind (lift (EnsembleSampler e nwalkers (snd p0n)))
        (fun _ =>
           bind (lift (run_mcmc e (fst p0n) nburn))
             (fun burnt => ret (pl0, snd p0n, Some (snd burnt), fst burnt))))).
    cbn [fst snd]. unfold bind, lift. rewrite Hsampler, Hburn. reflexivity.
Qed.

End SetupProperties.

(** X19 at the example environment: four walkers, two parameters. *)
Lemma setup_population_witness :
  setup (Toy.the_env None) "model.xcm" 4%Z 0%Z ["localhost"%string]
    false false false None false 4%Z Toy.empty_state
  = (add_draws 8 Toy.empty_state,
     Ok (Toy.the_pool, 2, None, ToyCheckpoints.start_pos))
  /\ setup (Toy.the_env None) "model.xcm" 4%Z 5%Z ["localhost"%string]
       false false false None false 4%Z Toy.empty_state
     = (add_draws 8 Toy.empty_state,
        Ok (Toy.the_pool, 2, Some tt, ToyCheckpoints.start_pos)).
Proof.
  assert (Hw : forallb width_ok (parameters Toy.the_pool) = true)
    by (vm_compute; reflexivity).
  destruct (setup_population (Toy.the_env None) "model.xcm" 4%Z 0%Z
              ["localhost"%string] false false false None false 4%Z
              Toy.empty_state Toy.the_pool eq_refl eq_refl ltac:(lia))
    as [_ [Hok _]].
  destruct (Hok Hw eq_refl) as [Hno _].
  destruct (setup_population (Toy.the_env None) "model.xcm" 4%Z 5%Z
              ["localhost"%string] false false false None false 4%Z
              Toy.empty_state Toy.the_pool eq_refl eq_refl ltac:(lia))
    as [_ [Hok' _]].
  destruct (Hok' Hw eq_refl) as [_ Hburn].
  split.
  - apply Hno. right. lia.
  - apply (Hburn ToyCheckpoints.start_pos tt eq_refl ltac:(lia) eq_refl).
Defined.

(* ------------------------------------------------------------------ *)
(** ** Exporting twice *)

Section ExportTwice.
Context {F : Type} `{Num F}.

(** X20. Exporting the same arrays to the same file a second time leaves
    the file system exactly as the first export left it: the file is
    rewritten, not appended to, and because the logs are undone on a
    copy, the caller's chain is not exponentiated a second time. *)
Theorem writeXSpecChain_twice filename rc rl params idxs cs
  (c : array3 F) l (st : state F) :
  nth_error (heap st) rc = Some (Obj3 c) ->
  nth_error (heap st) rl = Some (Obj2 l) ->
  wf3 c = true -> wf2 l = true -> shape2 l = (dim0 c, dim1 c) ->
  columns_of params idxs = Ok cs ->
  length idxs <= dim2 c ->
  exists st1 st2,
    writeXSpecChain filename rc rl params idxs st = (st1, Ok tt)
    /\ writeXSpecChain filename rc rl params idxs st1 = (st2, Ok tt)
    /\ fs st2 = fs st1
    /\ fs_lookup filename (fs st2)
       = Some (TextFile F (export_lines cs c l))
    /\ nth_error (heap st2) rc = Some (Obj3 c)
    /\ nth_error (heap st2) rl = Some (Obj2 l).
Proof.
  intros Hrc Hrl Hc Hl Hs Hcs Hlen.
  pose proof (@writeXSpecChain_run F _ filename rc rl params idxs cs c l st
                Hrc Hrl Hc Hl Hs Hcs Hlen) as Hrun1.
  cbv zeta in Hrun1.
  set (table := Obj2 (mkA2 (dim0 c * dim1 c, dim2 c + 1)
                        (export_table (flags_of cs) c l))) in *.
  set (st1 := exporting filename
                (export_header c (labels_of cs)
                 ++ map fmt_line (export_table (flags_of cs) c l))
                (heap st ++ [table]) st) in *.
  assert (Hrc1 : nth_error (heap st1) rc = Some (Obj3 c)).
  { cbn [st1 exporting heap]. rewrite nth_error_app1; [exact Hrc |].
    apply nth_error_Some. rewrite Hrc. discriminate. }
  assert (Hrl1 : nth_error (heap st1) rl = Some (Obj2 l)).
  { cbn [st1 exporting heap]. rewrite nth_error_app1; [exact Hrl |].
    apply nth_error_Some. rewrite Hrl. discriminate. }
  pose proof (@writeXSpecChain_run F _ filename rc rl params idxs cs c l st1
                Hrc1 Hrl1 Hc Hl Hs Hcs Hlen) as Hrun2.
  cbv zeta in Hrun2. fold table in Hrun2.
  eexists. eexists. split; [exact Hrun1 |]. split; [exact Hrun2 |].
  split; [| split; [| split]].
  - unfold st1 at 2 3. unfold exporting. cbn [fs].
    rewrite fs_remove_idem. reflexivity.
  - apply exporting_lookup.
  - cbn [exporting heap]. rewrite nth_error_app1; [exact Hrc1 |].
    apply nth_error_Some. rewrite Hrc1. discriminate.
  - cbn [exporting heap]. rewrite nth_error_app1; [exact Hrl1 |].
    apply nth_error_Some. rewrite Hrl1. discriminate.
Qed.

End ExportTwice.

(** X20 at the example arrays. *)
Lemma writeXSpecChain_twice_witness :
  exists st1 st2,
    writeXSpecChain "out.dat" 0 1 [Toy.kT; Toy.norm] [1; 2]%Z
      ToyExport.entry_state = (st1, Ok tt)
    /\ writeXSpecChain "out.dat" 0 1 [Toy.kT; Toy.norm] [1; 2]%Z st1
       = (st2, Ok tt)
    /\ fs st2 = fs st1.
Proof.
  destruct (writeXSpecChain_twice "out.dat" 0 1 [Toy.kT; Toy.norm] [1; 2]%Z
              ToyExport.columns ToyExport.chain ToyExport.lnprob
              ToyExport.entry_state eq_refl eq_refl eq_refl eq_refl eq_refl
              eq_refl (le_n 2))
    as [st1 [st2 [H1 [H2 [Hfs _]]]]].
  exists st1, st2. split; [exact H1 |]. split; [exact H2 | exact Hfs].
Defined.

(* ------------------------------------------------------------------ *)
(** ** Initial parameters from a file *)

Section InitialParametersFile.
Context {F S G : Type} `{Num F}.
Variable e : env F S G.

(** X21. With a file of initial parameters the start of [doMCMC] makes
    no random draw and leaves the state as it was.  What [N.loadtxt]
    raises is raised; a one-dimensional result (a file of one row) fails
    with [IndexError] at [p0.shape[1]]; a two-dimensional result is the
    population, and the number of dimensions is its number of columns,
    whatever the number of parameters of the pool. *)
Theorem setup_initial_parameters_file
  xcm nwalkers nburn systems debug continuerun nochdir f lognorm chunksize
  (st : state F) pl :
  XspecPool e xcm (expandSystems systems) debug nochdir lognorm chunksize
  = Ok pl ->
  String.eqb f "" = false ->
  (forall x, loadtxt e f = Raise x ->
     setup e xcm nwalkers nburn systems debug continuerun nochdir (Some f)
       lognorm chunksize st
     = (st, Raise x))
  /\ (forall l, loadtxt e f = Ok (Arr1 l) ->
      setup e xcm nwalkers nburn systems debug continuerun nochdir (Some f)
        lognorm chunksize st
      = (st, Raise IndexError))
  /\ (forall a, loadtxt e f = Ok (Arr2 a) ->
      EnsembleSampler e nwalkers (cols a) = Ok tt ->
      continuerun = true \/ (nburn <= 0)%Z ->
      setup e xcm nwalkers nburn systems debug continuerun nochdir (Some f)
        lognorm chunksize st
      = (st, Ok (pl, cols a, None, a))).
Proof.
  intros Hpool Hf.
  assert (Hno : no_file (Some f) = false) by exact Hf.
  split; [| split].
  - intros x Hx. unfold setup.
    unfold bind at 1, lift at 1. rewrite Hpool, Hno.
    unfold bind at 1, lift at 1. rewrite Hx. reflexivity.
  - intros l Hl. unfold setup.
    unfold bind at 1, lift at 1. rewrite Hpool, Hno.
    unfold bind at 1, lift at 1. rewrite Hl.
    unfold bind at 1, lift at 1. reflexivity.
  - intros a Ha Hsampler Hburn. unfold setup.
    assert (Hb : negb continuerun && (nburn >? 0)%Z = false).
    { destruct Hburn as [-> | Hn]; [reflexivity |].
      destruct (Z.gtb_spec nburn 0); [lia |]. apply andb_false_r. }
    rewrite Hb.
    unfold bind at 1, lift at 1. rewrite Hpool, Hno.
    unfold bind at 1, lift at 1. rewrite Ha.
    unfold bind at 1, lift at 1. cbn [shape_1 fst snd].
    unfold bind at 1, lift at 1. rewrite Hsampler. reflexivity.
Qed.

End InitialParametersFile.

(** X21 at the example environment, where no file can be read. *)
Lemma setup_initial_parameters_file_witness :
  setup (Toy.the_env None) "model.xcm" 4%Z 0%Z ["localhost"%string]
    false false false (Some "p0.txt"%string) false 4%Z Toy.empty_state
  = (Toy.empty_state, Raise IOError).
Proof.
  destruct (setup_initial_parameters_file (Toy.the_env None) "model.xcm"
              4%Z 0%Z ["localhost"%string] false false false "p0.txt"
              false 4%Z Toy.empty_state Toy.the_pool eq_refl eq_refl)
    as [Hraise _].
  apply Hraise. reflexivity.
Defined.

(* ------------------------------------------------------------------ *)
(** ** A run of no iterations *)

Section ZeroIterations.
Context {F S G : Type} `{Num F}.
Variable e : env F S G.

(** Resuming from a checkpoint that holds no iteration: there is no last
    iteration to start from. *)
Lemma init_buffers_empty_checkpoint nwalkers niters nd outnpz pos
  (st : state F) ck lk :
  fs_lookup outnpz (fs st) = Some (NpzFile ck lk) ->
  dim1 ck = 0 ->
  init_buffers true nwalkers niters nd outnpz pos st
  = (st, Raise IndexError).
Proof.
  intros Hfs H0. unfold init_buffers. cbn [negb].
  unfold bind at 1, load at 1. rewrite Hfs. cbn [fst snd].
  apply bind_raise. unfold lift, get_iter. rewrite H0. reflexivity.
Qed.

(** X22. A fresh run of zero iterations returns without making a pass:
    it writes an export file that holds the four header lines and no
    sample, then a checkpoint whose arrays hold no iteration; and a
    later run cannot resume from that checkpoint, it fails with
    [IndexError] whatever number of iterations it asks for. *)
Theorem doMCMC_zero_iterations
  xcm nwalkers nburn systems outchain outnpz debug
  autosave nochdir initialparameters lognorm chunksize
  (st st1 : state F) pl nd rstate pos cs :
  setup e xcm nwalkers nburn systems debug false nochdir
    initialparameters lognorm chunksize st
  = (st1, Ok (pl, nd, rstate, pos)) ->
  (0 <= nwalkers)%Z ->
  interrupt e = None ->
  columns_of (parlist pl) (paridxs pl) = Ok cs ->
  length (paridxs pl) <= nd ->
  exists st' v,
    doMCMC e xcm nwalkers nburn 0%Z systems outchain outnpz debug
      false autosave nochdir initialparameters lognorm chunksize st
    = (st', Ok v)
    /\ v_exit v = Exhausted /\ v_index v = 0%Z
    /\ shape3 (v_chain v) = (Z.to_nat nwalkers, 0, nd)
    /\ trace st'
       = trace st
         ++ EvOpen F outchain
            :: map (EvWrite F outchain)
                 (export_header (v_chain v) (labels_of cs))
         ++ [EvSavez (npz_name outnpz) (v_chain v) (v_lnprob v)]
    /\ (forall niters2 pos0 (st2 : state F),
          fs_lookup outnpz (fs st2)
          = Some (NpzFile (v_chain v) (v_lnprob v)) ->
          init_buffers true nwalkers niters2 nd outnpz pos0 st2
          = (st2, Raise IndexError)).
Proof.
  intros Hsetup Hw Hint Hcs Hlen.
  destruct (setup_preserves e xcm nwalkers nburn systems debug false
              nochdir initialparameters lognorm chunksize st st1 _ Hsetup)
    as [Htr1 _].
  destruct (init_buffers_fresh nwalkers 0%Z nd outnpz pos st1 Hw
              (Z.le_refl 0))
    as [b [Hinit [[Hsc [Hwc [Hsl [Hwl _]]]] [Hstart Hpos]]]].
  change (Z.to_nat 0) with 0 in Hsc, Hsl.
  set (st2 := mkState (heap st1) (fs st1) (trace st1) (draws st1)
                (Datatypes.S (ticks st1))).
  set (ls0 := mkLoop (b_chain b) (b_lnprob b) (b_start b)
                (clock e (ticks st1)) (sample e (b_pos b) rstate)).
  assert (Hinv : loop_inv (Z.to_nat nwalkers) 0 nd ls0)
    by (repeat split; assumption).
  destruct (finish_run outchain outnpz pl Exhausted ls0 st2
              (Z.to_nat nwalkers) 0 nd cs Hinv)
    as [st4 [Hfin [Htr4 _]]].
  { cbn [ls0 l_index]. rewrite Hstart. lia. }
  { intros _. split; assumption. }
  cbn [ls0 l_index l_chain l_lnprob] in Htr4. rewrite Hstart in Htr4.
  change (Z.to_nat 0) with 0 in Htr4.
  assert (Hd1 : dim1 (b_chain b) = 0) by (unfold dim1; rewrite Hsc; reflexivity).
  assert (Hc1 : cols (b_lnprob b) = 0) by (unfold cols; rewrite Hsl; reflexivity).
  assert (Hp3 : prefix3 0 (b_chain b) = b_chain b).
  { rewrite <- Hd1 at 1. apply prefix3_full. exact Hwc. }
  assert (Hp2 : prefix2 0 (b_lnprob b) = b_lnprob b).
  { rewrite <- Hc1 at 1. apply prefix2_full. exact Hwl. }
  assert (Htab : export_table (flags_of cs) (b_chain b) (b_lnprob b) = []).
  { apply length_zero_iff_nil. rewrite export_table_length.
    - rewrite Hd1. apply Nat.mul_0_r.
    - exact Hwc.
    - exact Hwl.
    - unfold dim0, dim1. rewrite Hsc, Hsl. reflexivity. }
  exists st4. eexists. split.
  { unfold doMCMC.
    rewrite (bind_ok _ _ st Hsetup). cbn [fst snd].
    rewrite (bind_ok _ _ st1 Hinit).
    rewrite (bind_ok _ _ st1 (time_plain e st1)).
    fold ls0 st2. rewrite Hstart. change (Z.to_nat (0 - 0)) with 0.
    cbn [sample_loop]. rewrite (interrupted_at_none e 0 InStep Hint).
    unfold bind at 1, ret at 1.
    rewrite (bind_ok _ _ st2 Hfin). reflexivity. }
  cbn [v_exit v_index v_chain v_lnprob fst snd ls0 l_index].
  split; [reflexivity |]. split; [exact Hstart |]. split; [exact Hsc |].
  split.
  { rewrite Htr4. cbn [st2 trace]. rewrite Htr1, Hp3, Hp2.
    cbn [export_events]. unfold export_lines. rewrite Htab.
    cbn [map]. rewrite app_nil_r. reflexivity. }
  intros niters2 pos0 st5 Hfs5.
  apply (init_buffers_empty_checkpoint nwalkers niters2 nd outnpz pos0 st5
           (b_chain b) (b_lnprob b) Hfs5 Hd1).
Qed.

End ZeroIterations.

(** X22 at the example environment. *)
Lemma doMCMC_zero_iterations_witness :
  exists st' v,
    ToyRun.fresh (Toy.the_env None) 0%Z Toy.empty_state = (st', Ok v)
    /\ v_index v = 0%Z
    /\ shape3 (v_chain v) = (4, 0, 2)
    /\ trace st'
       = EvOpen Z "out.dat"
         :: map (EvWrite Z "out.dat")
              (export_header (v_chain v) (labels_of ToyExport.columns))
         ++ [EvSavez "out.npz" (v_chain v) (v_lnprob v)].
Proof.
  assert (Hsetup :
    setup (Toy.the_env None) "model.xcm" 4%Z 0%Z ["localhost"%string]
      false false false None false 4%Z Toy.empty_state
    = (add_draws 8 Toy.empty_state,
       Ok (Toy.the_pool, 2, None, ToyCheckpoints.start_pos)))
    by (vm_compute; reflexivity).
  destruct (doMCMC_zero_iterations (Toy.the_env None)
              "model.xcm" 4%Z 0%Z ["localhost"%string] "out.dat" "out.npz"
              false false false None false 4%Z
              Toy.empty_state (add_draws 8 Toy.empty_state)
              Toy.the_pool 2 None ToyCheckpoints.start_pos ToyExport.columns
              Hsetup ltac:(lia) eq_refl eq_refl (le_n 2))
    as [st' [v [Hrun [_ [Hidx [Hsh [Htr _]]]]]]].
  exists st', v. split; [exact Hrun |]. split; [exact Hidx |].
  split; [exact Hsh | exact Htr].
Defined.

(* ------------------------------------------------------------------ *)
(** ** When the loop autosaves *)

Section QuietRuns.
Context {F S G : Type} `{Num F}.
Variable e : env F S G.

(** The autosave at the end of a pass when no more than ten minutes
    have passed since the last save: nothing is written, and the time
    of the last save stays. *)
Lemma autosave_step_quiet autosave outnpz (ls : @loop_state F G)
  (st : state F) :
  (clock e (ticks st) - l_lastsave ls <= 60 * 10)%Z ->
  exists st',
    autosave_step e autosave outnpz ls st = (st', Ok ls)
    /\ trace st' = trace st /\ fs st' = fs st
    /\ ticks st <= ticks st' <= Datatypes.S (ticks st).
Proof.
  intros Hq. unfold autosave_step. destruct autosave.
  - rewrite (bind_ok _ _ _ (time_plain e st)).
    destruct (Z.gtb_spec (clock e (ticks st) - l_lastsave ls) (60 * 10));
      [lia |].
    eexists. split; [reflexivity |]. cbn [trace fs ticks].
    split; [reflexivity |]. split; [reflexivity | lia].
  - exists st. split; [reflexivity |].
    split; [reflexivity |]. split; [reflexivity | lia].
Qed.

(** The loop when every reading of the clock it makes is within ten
    minutes of the last save: no checkpoint is written. *)
Lemma sample_loop_quiet autosave outnpz I nw N nd :
  sampler_ok e I nw nd ->
  forall n j ls (st : state F),
    I (l_gen ls) ->
    loop_inv nw N nd ls -> (0 <= l_index ls)%Z ->
    (l_index ls + Z.of_nat n = Z.of_nat N)%Z ->
    (forall k, ticks st <= k < ticks st + n ->
               (clock e k - l_lastsave ls <= 60 * 10)%Z) ->
    exists st' ls',
      sample_loop e autosave outnpz n j ls st
      = (st', Ok (fst (passes_done e n j), ls'))
      /\ trace st' = trace st /\ fs st' = fs st.
Proof.
  intros Hs. induction n as [| n IH]; intros j ls st Hg Hinv Hi0 HiN Hq.
  - cbn [sample_loop passes_done].
    destruct (interrupted_at e j InStep); exists st, ls;
      (split; [reflexivity | split; reflexivity]).
  - cbn [sample_loop passes_done].
    destruct (interrupted_at e j InStep).
    { exists st, ls. split; [reflexivity | split; reflexivity]. }
    destruct (Hs (l_gen ls) Hg) as [p [l [g1 [Hnext [Hsp [Hwp [Hll Hg1]]]]]]].
    destruct Hinv as [Hsc [Hwc [Hsl Hwl]]].
    assert (Hidx : (0 <= l_index ls < Z.of_nat N)%Z) by lia.
    destruct (set_iter_ok (l_chain ls) (l_index ls) p nw N nd
                Hsc Hwc Hsp Hwp Hidx) as [c' [Hset [Hsc' [Hwc' _]]]].
    destruct (set_col_ok (l_lnprob ls) (l_index ls) l nw N
                Hsl Hwl Hll Hidx) as [l' [Hcol [Hsl' [Hwl' _]]]].
    unfold bind at 1, lift at 1. rewrite Hnext. cbn [fst snd].
    unfold bind at 1, lift at 1. rewrite Hset.
    destruct (interrupted_at e j AfterChain).
    { cbn [orb fst snd]. eexists. eexists.
      split; [reflexivity | split; reflexivity]. }
    unfold bind at 1, lift at 1. rewrite Hcol.
    destruct (interrupted_at e j AfterLnprob).
    { cbn [orb fst snd]. eexists. eexists.
      split; [reflexivity | split; reflexivity]. }
    cbn [orb].
    destruct (interrupted_at e j AfterIndex).
    { cbn [fst snd]. eexists. eexists.
      split; [reflexivity | split; reflexivity]. }
    cbn [fst snd].
    set (ls1 := mkLoop c' l' (l_index ls + 1)%Z (l_lastsave ls) g1).
    destruct (autosave_step_quiet autosave outnpz ls1 st)
      as [st1 [Hauto [Htr1 [Hfs1 Htk1]]]].
    { cbn [ls1 l_lastsave]. apply Hq. lia. }
    rewrite (bind_ok _ _ _ Hauto).
    destruct (IH (Datatypes.S j) ls1 st1) as [st2 [ls2 [Hrun [Htr2 Hfs2]]]].
    + exact Hg1.
    + repeat split; assumption.
    + cbn [ls1 l_index]. lia.
    + cbn [ls1 l_index]. lia.
    + intros k Hk. cbn [ls1 l_lastsave]. apply Hq. lia.
    + exists st2, ls2. split; [exact Hrun |].
      split; congruence.
Qed.

(** X23. A run in which every reading of the clock made at the end of a
    pass is at most 600 seconds after the reading made just before the
    loop never autosaves, even with autosave on: the comparison is
    strict, so 600 seconds exactly is not yet enough.  The only things
    written are the export file, if the loop completes, and the final
    checkpoint. *)
Theorem doMCMC_no_autosave_within_ten_minutes
  xcm nwalkers nburn niters systems outchain outnpz debug
  continuerun autosave nochdir initialparameters lognorm chunksize
  (st st1 : state F) pl nd rstate pos b I nw N cs :
  setup e xcm nwalkers nburn systems debug continuerun nochdir
    initialparameters lognorm chunksize st
  = (st1, Ok (pl, nd, rstate, pos)) ->
  init_buffers continuerun nwalkers niters nd outnpz pos st1 = (st1, Ok b) ->
  ready nw N nd niters b ->
  sampler_ok e I nw nd -> I (sample e (b_pos b) rstate) ->
  let n := Z.to_nat (niters - b_start b) in
  let out := passes_done e n 0 in
  (fst out = Exhausted ->
   columns_of (parlist pl) (paridxs pl) = Ok cs
   /\ length (paridxs pl) <= nd) ->
  (forall k, ticks st1 < k <= ticks st1 + n ->
             (clock e k - clock e (ticks st1) <= 60 * 10)%Z) ->
  exists st' v,
    doMCMC e xcm nwalkers nburn niters systems outchain outnpz debug
      continuerun autosave nochdir initialparameters lognorm chunksize st
    = (st', Ok v)
    /\ v_exit v = fst out
    /\ trace st'
       = trace st
         ++ export_events outchain cs (v_chain v) (v_lnprob v) (fst out)
         ++ [EvSavez (npz_name outnpz)
               (prefix3 (Z.to_nat (v_index v)) (v_chain v))
               (prefix2 (Z.to_nat (v_index v)) (v_lnprob v))].
Proof.
  intros Hsetup Hinit [Hsc [Hwc [Hsl [Hwl [HN Hstart]]]]] Hs Hg0 n out
    Hcols Hq.
  destruct (setup_preserves e xcm nwalkers nburn systems debug continuerun
              nochdir initialparameters lognorm chunksize st st1 _ Hsetup)
    as [Htr1 _].
  set (st2 := mkState (heap st1) (fs st1) (trace st1) (draws st1)
                (Datatypes.S (ticks st1))).
  set (ls0 := mkLoop (b_chain b) (b_lnprob b) (b_start b)
                (clock e (ticks st1)) (sample e (b_pos b) rstate)).
  assert (Hinv0 : loop_inv nw N nd ls0) by (repeat split; assumption).
  assert (Hi0 : (0 <= l_index ls0)%Z) by (cbn [ls0 l_index]; lia).
  assert (HN0 : (l_index ls0 + Z.of_nat n = Z.of_nat N)%Z)
    by (cbn [ls0 l_index]; unfold n; lia).
  destruct (sample_loop_quiet autosave outnpz I nw N nd Hs n 0 ls0 st2
              Hg0 Hinv0 Hi0 HN0)
    as [st3 [ls [Hloop [Htr3 _]]]].
  { intros k Hk. cbn [st2 ticks] in Hk. cbn [ls0 l_lastsave].
    apply Hq. lia. }
  destruct (sample_loop_runs e autosave outnpz I nw N nd Hs n 0 ls0 st2
              Hg0 Hinv0 Hi0 HN0)
    as [st3' [ls' [Hloop' [Hinv [_ [Hidx [Hle _]]]]]]].
  rewrite Hloop in Hloop'. injection Hloop' as _ <-.
  fold out in Hloop, Hidx, Hle. cbn [ls0 l_index] in Hidx.
  destruct (finish_run outchain outnpz pl (fst out) ls st3 nw N nd cs Hinv)
    as [st4 [Hfin [Htr4 _]]].
  { unfold n in Hle. lia. }
  { exact Hcols. }
  eexists. eexists. split.
  { unfold doMCMC.
    rewrite (bind_ok _ _ st Hsetup). cbn [fst snd].
    rewrite (bind_ok _ _ st1 Hinit).
    rewrite (bind_ok _ _ st1 (time_plain e st1)).
    fold ls0 st2. fold n. rewrite (bind_ok _ _ st2 Hloop).
    rewrite (bind_ok _ _ st3 Hfin). reflexivity. }
  cbn [v_exit v_index v_chain v_lnprob fst snd].
  split; [reflexivity |].
  rewrite Htr4, Htr3. cbn [st2 trace]. rewrite Htr1. reflexivity.
Qed.

End QuietRuns.

Lemma step_ok_seconds :
  sampler_ok ToyClock.seconds_env ToyCheckpoints.four_by_two 4 2.
Proof.
  intros g Hg. destruct (step_ok None g Hg) as [p [l [g' Hstep]]].
  exists p, l, g'. exact Hstep.
Qed.

(** X23 at a concrete run: three iterations with autosave on, under a
    clock that advances one second per reading. *)
Lemma doMCMC_no_autosave_within_ten_minutes_witness :
  exists st' v,
    doMCMC ToyClock.seconds_env "model.xcm" 4%Z 0%Z 3%Z
      ["localhost"%string] "out.dat" "out.npz" false false true false None
      false 4%Z Toy.empty_state
    = (st', Ok v)
    /\ v_exit v = Exhausted
    /\ trace st'
       = export_events "out.dat" ToyExport.columns (v_chain v) (v_lnprob v)
           Exhausted
         ++ [EvSavez "out.npz"
               (prefix3 (Z.to_nat (v_index v)) (v_chain v))
               (prefix2 (Z.to_nat (v_index v)) (v_lnprob v))].
Proof.
  assert (Hready : ready 4 3 2 3%Z (ToyCheckpoints.fresh_buffers 3)).
  { repeat split; try reflexivity; discriminate. }
  assert (Hg0 : ToyCheckpoints.four_by_two
                  (sample ToyClock.seconds_env
                     (b_pos (ToyCheckpoints.fresh_buffers 3)) None)).
  { split; reflexivity. }
  assert (Hsetup :
    setup ToyClock.seconds_env "model.xcm" 4%Z 0%Z ["localhost"%string]
      false false false None false 4%Z Toy.empty_state
    = (add_draws 8 Toy.empty_state,
       Ok (Toy.the_pool, 2, None, ToyCheckpoints.start_pos)))
    by (vm_compute; reflexivity).
  assert (Hinit :
    init_buffers false 4%Z 3%Z 2 "out.npz" ToyCheckpoints.start_pos
      (add_draws 8 Toy.empty_state)
    = (add_draws 8 Toy.empty_state,
       Ok (ToyCheckpoints.fresh_buffers 3)))
    by (vm_compute; reflexivity).
  assert (Hq : forall k,
    ticks (add_draws 8 Toy.empty_state) < k
    <= ticks (add_draws 8 Toy.empty_state)
       + Z.to_nat (3 - b_start (ToyCheckpoints.fresh_buffers 3)) ->
    (clock ToyClock.seconds_env k
     - clock ToyClock.seconds_env (ticks (add_draws 8 Toy.empty_state))
     <= 60 * 10)%Z).
  { intros k Hk. cbn in Hk. cbn [clock ToyClock.seconds_env]. cbn. lia. }
  destruct (doMCMC_no_autosave_within_ten_minutes ToyClock.seconds_env
              "model.xcm" 4%Z 0%Z 3%Z ["localhost"%string] "out.dat" "out.npz"
              false false true false None false 4%Z
              Toy.empty_state (add_draws 8 Toy.empty_state)
              Toy.the_pool 2 None ToyCheckpoints.start_pos
              (ToyCheckpoints.fresh_buffers 3)
              ToyCheckpoints.four_by_two 4 3 ToyExport.columns
              Hsetup Hinit Hready step_ok_seconds Hg0
              (fun _ => conj eq_refl (le_n 2)) Hq)
    as [st' [v [Hrun [Hex Htr]]]].
  exists st', v. split; [exact Hrun |]. split; [exact Hex | exact Htr].
Defined.
